(** * HuggingfaceCrawler: a shallow embedding of [Huggingface_crawler.py]

    The crawler drives one browser session through two phases: link
    discovery ([crawl_dataset_links]) and record extraction
    ([_get_all_link_data], [_extract_related_data] and the two helpers for
    the related models and collections).  Python dictionaries are finite
    maps, the browser is a [web] that answers navigation requests with
    [document]s, and the methods run in a state-and-exception monad so that
    a mutation made before an exception is still there once it is caught. *)

From Stdlib Require Import Ascii String.
From stdpp Require Import gmap strings list fin_maps.

(** ** Python string primitives *)

Module Py.

Definition squote : string := "'".
Definition dquote : string := String "034"%char "".

(** Truth value of a [str]: non-empty. *)
Definition truthy (s : string) : bool := negb (String.eqb s "").

(** [s.split(sep)] for a one-character separator. *)
Fixpoint split (sep : ascii) (s : string) : list string :=
  match s with
  | "" => [""]
  | String c s' =>
      if Ascii.eqb c sep then "" :: split sep s'
      else match split sep s' with
           | w :: ws => String c w :: ws
           | [] => [String c ""]
           end
  end.

(** [l[-k]] for [k >= 1]; [None] stands for IndexError. *)
Definition index_neg {A} (l : list A) (k : nat) : option A :=
  rev l !! (k - 1).

(** [s.split(sep)[-1]]; the list is never empty. *)
Definition last_part (sep : ascii) (s : string) : string :=
  List.last (split sep s) "".

(** [s.split(sep)[0]]. *)
Definition first_part (sep : ascii) (s : string) : string :=
  List.hd "" (split sep s).

(** [s.replace(old, new)]: every non-overlapping occurrence, scanning from
    the left.  [skip] counts the characters of a match still to drop. *)
Fixpoint replace_go (old new : string) (skip : nat) (s : string) : string :=
  match s with
  | "" => ""
  | String c s' =>
      match skip with
      | S k => replace_go old new k s'
      | O =>
          if String.prefix old s
          then new +:+ replace_go old new (String.length old - 1) s'
          else String c (replace_go old new 0 s')
      end
  end.

Fixpoint intersperse (new : string) (s : string) : string :=
  match s with
  | "" => new
  | String c s' => new +:+ String c (intersperse new s')
  end.

Definition replace (old new s : string) : string :=
  match old with
  | "" => intersperse new s
  | _ => replace_go old new 0 s
  end.

(** [s.lower()] on ASCII letters. *)
Definition lower_char (c : ascii) : ascii :=
  let n := nat_of_ascii c in
  if (65 <=? n) && (n <=? 90) then ascii_of_nat (n + 32) else c.

Fixpoint lower (s : string) : string :=
  match s with
  | "" => ""
  | String c s' => String (lower_char c) (lower s')
  end.

(** [s.upper()] on ASCII letters. *)
Definition upper_char (c : ascii) : ascii :=
  let n := nat_of_ascii c in
  if (97 <=? n) && (n <=? 122) then ascii_of_nat (n - 32) else c.

Fixpoint upper (s : string) : string :=
  match s with
  | "" => ""
  | String c s' => String (upper_char c) (upper s')
  end.

(** [str.isspace] on one ASCII character. *)
Definition isspace (c : ascii) : bool :=
  let n := nat_of_ascii c in
  ((9 <=? n) && (n <=? 13)) || ((28 <=? n) && (n <=? 32)).

Fixpoint lstrip (s : string) : string :=
  match s with
  | "" => ""
  | String c s' => if isspace c then lstrip s' else s
  end.

Definition rstrip (s : string) : string :=
  String.rev (lstrip (String.rev s)).

Definition strip (s : string) : string := rstrip (lstrip s).

(** [s.split()] without argument: the maximal runs of non-space
    characters. *)
Fixpoint words (s : string) : list string :=
  match s with
  | "" => []
  | String c s' =>
      if isspace c then words s'
      else match s' with
           | "" => [String c ""]
           | String c' _ =>
               if isspace c' then String c "" :: words s'
               else match words s' with
                    | w :: ws => String c w :: ws
                    | [] => [String c ""]
                    end
           end
  end.

(** Whether every character of [s] satisfies [p]. *)
Fixpoint all (p : ascii → bool) (s : string) : bool :=
  match s with
  | "" => true
  | String c s' => p c && all p s'
  end.

(** [sep.join(l)]. *)
Fixpoint join (sep : string) (l : list string) : string :=
  match l with
  | [] => ""
  | [w] => w
  | w :: ws => w +:+ sep +:+ join sep ws
  end.

End Py.

(** ** The static markup parse (BeautifulSoup) *)

Module Soup.

(** A parsed node: a text string or a tag with attributes and children. *)
#[warnings="-register-all"] Inductive node :=
| NText (s : string)
| NTag (name : string) (attrs : list (string * string)) (children : list node).

Definition is_tag (n : node) : bool :=
  match n with NTag _ _ _ => true | NText _ => false end.

Definition named (name : string) (n : node) : bool :=
  match n with NTag m _ _ => String.eqb m name | NText _ => false end.

(** [tag[key]]; [None] stands for KeyError. *)
Definition attr (key : string) (n : node) : option string :=
  match n with
  | NTag _ attrs _ => (list_to_map attrs : gmap string string) !! key
  | NText _ => None
  end.

(** [tag.text]: all the strings below the tag, concatenated. *)
Fixpoint text (n : node) : string :=
  match n with
  | NText s => s
  | NTag _ _ cs =>
      (fix go (l : list node) : string :=
         match l with
         | [] => ""
         | c :: l' => text c +:+ go l'
         end) cs
  end.

(** The tags strictly below a node, in document order. *)
Fixpoint descendants (n : node) : list node :=
  match n with
  | NText _ => []
  | NTag _ _ cs =>
      (fix go (l : list node) : list node :=
         match l with
         | [] => []
         | c :: l' => (if is_tag c then [c] else []) ++ descendants c ++ go l'
         end) cs
  end.

(** [tag.find(name)]. *)
Definition find (name : string) (n : node) : option node :=
  List.find (named name) (descendants n).

(** [tag.find_all('a', href=True)]. *)
Definition find_all_a_href (n : node) : list node :=
  List.filter (λ a, named "a" a && bool_decide (is_Some (attr "href" a)))
              (descendants n).

(** [soup.find_all('h2')], each heading paired with what
    [find_next_siblings()] returns for it: the tags that follow it under
    the same parent. *)
Fixpoint h2_tags (n : node) : list (node * list node) :=
  match n with
  | NText _ => []
  | NTag _ _ cs =>
      (fix go (l : list node) : list (node * list node) :=
         match l with
         | [] => []
         | c :: l' =>
             (if named "h2" c then [(c, List.filter is_tag l')] else [])
               ++ h2_tags c ++ go l'
         end) cs
  end.

(** [a == b] on nodes: same name, same attribute dictionary, equal
    children pairwise. *)
Fixpoint eqb (a b : node) : bool :=
  match a, b with
  | NText s, NText t => String.eqb s t
  | NTag n1 a1 c1, NTag n2 a2 c2 =>
      String.eqb n1 n2
      && bool_decide ((list_to_map a1 : gmap string string) = list_to_map a2)
      && (fix go (l1 l2 : list node) : bool :=
            match l1, l2 with
            | [], [] => true
            | x :: l1', y :: l2' => eqb x y && go l1' l2'
            | _, _ => false
            end) c1 c2
  | _, _ => false
  end.

(** The siblings visited by [for sibling in contents: if sibling ==
    next_h2: break]. *)
Fixpoint until_next (next_h2 : node) (contents : list node) : list node :=
  match contents with
  | [] => []
  | sibling :: rest =>
      if eqb sibling next_h2 then [] else sibling :: until_next next_h2 rest
  end.

End Soup.

(** ** Exceptions, outcomes and the state-and-exception monad *)

Inductive exn :=
| NoSuchElementException
| WebDriverException
| IndexError
| KeyError
| ValueError (msg : string).

Inductive outcome (A : Type) :=
| Ok (a : A)
| Raise (e : exn).
Arguments Ok {A} a.
Arguments Raise {A} e.

Definition M (S A : Type) : Type := S → outcome A * S.

Section monad.
Context {S : Type}.

Definition ret {A} (a : A) : M S A := λ s, (Ok a, s).

Definition bind {A B} (m : M S A) (k : A → M S B) : M S B :=
  λ s, match m s with
       | (Ok a, s') => k a s'
       | (Raise e, s') => (Raise e, s')
       end.

Definition raise {A} (e : exn) : M S A := λ s, (Raise e, s).

(** [try: m  except Exception as e: h e]; the state reached when the
    exception was raised is the one the handler starts from. *)
Definition try_except {A} (m : M S A) (h : exn → M S A) : M S A :=
  λ s, match m s with
       | (Ok a, s') => (Ok a, s')
       | (Raise e, s') => h e s'
       end.

Definition get_state : M S S := λ s, (Ok s, s).

Definition modify (f : S → S) : M S unit := λ s, (Ok tt, f s).

(** An optional value whose absence raises [e]. *)
Definition or_raise {A} (e : exn) (o : option A) : M S A :=
  match o with
  | Some a => ret a
  | None => raise e
  end.

End monad.

Declare Scope py_scope.
Delimit Scope py_scope with py.
Notation "x <- m ;; k" := (bind m (λ x, k))
  (at level 100, m at next level, right associativity) : py_scope.
Notation "m ;; k" := (bind m (λ _, k))
  (at level 100, right associativity) : py_scope.
Open Scope py_scope.

(** [for x in l: body x]. *)
Fixpoint for_each {S A} (l : list A) (body : A → M S unit) : M S unit :=
  match l with
  | [] => ret tt
  | x :: l' => body x ;; for_each l' body
  end.

(** ** The browser as the crawler sees it *)

(** One dataset card of an organization's listing:
    [article.find_element(By.TAG_NAME, 'a')] either finds the anchor, whose
    href is then read ([Some]), or raises ([None]).  The anchors of the
    cards all carry an href. *)
Abbreviation article := (option string).

(** One tag block of a dataset page: the text of its [span], when
    [find_element] finds one, and the text of the whole block. *)
Record tag_div := {
  span_text : option string;
  div_text : string
}.

(** The access form of a dataset page: for each label whether it holds an
    [input], and whether the submit button is there. *)
Record gate_form := {
  label_inputs : list bool;
  submit_button : bool
}.

(** What the queries of the crawler return on the page that is loaded.  An
    absent element makes [find_element] raise and [find_elements] return
    the empty list. *)
Record document := {
  expand_all_button : bool;
  dataset_items : list article;
  need_finish_form : option gate_form;
  download_count : option string;
  community : option string;
  like : option string;
  tags_info : list tag_div;
  (** the info container: for each of its [a] tags the texts of the [div]s
      below it; [None] when any query of that block raises *)
  data_info_div : option (list (list string));
  dataset_panel : option string;
  (** the parse of the outer HTML of the section of related artifacts *)
  related_section : option Soup.node
}.

Definition blank_document : document := {|
  expand_all_button := false;
  dataset_items := [];
  need_finish_form := None;
  download_count := None;
  community := None;
  like := None;
  tags_info := [];
  data_info_div := None;
  dataset_panel := None;
  related_section := None
|}.

(** The web: [driver.get(url)] loads a document or raises, and
    [driver.save_screenshot(path)] writes the file or raises. *)
Record web := {
  load : string → option document;
  capture : string → bool
}.

(** ** The crawler object and the store *)

Record HuggingfaceCrawler := {
  sort_method : string;
  save_dir : string;
  organization_datasets_links_save_file : string
}.

Definition screen_shot_save_path (self : HuggingfaceCrawler) : string :=
  save_dir self +:+ "/hugging_face_dataset_info_screenshots".

(** The values held by the fields of a dataset record. *)
Inductive value :=
| VStr (s : string)
| VDict (d : gmap string string)
| VRelated (r : gmap string (gmap string (gmap string string))).

Inductive log_entry :=
| InfoScrawling (index target : string)
| InfoNoExpandAll
| InfoHaveDatasets (n : nat)
| InfoGotDatasetLink (dataset_link : string)
| ErrorCrawling (e : exn) (index : string)
| InfoStartCrawling (link : string)
| InfoGetDatasetInfo (data_info : gmap string string)
| InfoGetDatasetInfoFailed (e : exn)
| InfoErrorCrawling (e : exn) (link : string)
| PrintRelatedFailed (e : exn).

(** The store: the page loaded in the driver, the files written, the log,
    and the dictionaries and lists the methods create and mutate. *)
Record state := {
  driver : document;
  screenshots : list string;
  json_files : list (string * gmap string (list string));
  log : list log_entry;
  organization_datasets_links : gmap string (list string);
  dataset_details : gmap string (gmap string (gmap string value));
  exception_links : list string
}.

Definition initial_state : state := {|
  driver := blank_document;
  screenshots := [];
  json_files := [];
  log := [];
  organization_datasets_links := ∅;
  dataset_details := ∅;
  exception_links := []
|}.

Definition set_driver (d : document) (s : state) : state :=
  {| driver := d; screenshots := screenshots s; json_files := json_files s;
     log := log s;
     organization_datasets_links := organization_datasets_links s;
     dataset_details := dataset_details s;
     exception_links := exception_links s |}.

Definition add_screenshot (path : string) (s : state) : state :=
  {| driver := driver s; screenshots := screenshots s ++ [path];
     json_files := json_files s; log := log s;
     organization_datasets_links := organization_datasets_links s;
     dataset_details := dataset_details s;
     exception_links := exception_links s |}.

Definition add_json_file (path : string) (content : gmap string (list string))
    (s : state) : state :=
  {| driver := driver s; screenshots := screenshots s;
     json_files := json_files s ++ [(path, content)]; log := log s;
     organization_datasets_links := organization_datasets_links s;
     dataset_details := dataset_details s;
     exception_links := exception_links s |}.

Definition add_log (e : log_entry) (s : state) : state :=
  {| driver := driver s; screenshots := screenshots s;
     json_files := json_files s; log := log s ++ [e];
     organization_datasets_links := organization_datasets_links s;
     dataset_details := dataset_details s;
     exception_links := exception_links s |}.

Definition set_links (m : gmap string (list string)) (s : state) : state :=
  {| driver := driver s; screenshots := screenshots s;
     json_files := json_files s; log := log s;
     organization_datasets_links := m;
     dataset_details := dataset_details s;
     exception_links := exception_links s |}.

Definition set_details (m : gmap string (gmap string (gmap string value)))
    (s : state) : state :=
  {| driver := driver s; screenshots := screenshots s;
     json_files := json_files s; log := log s;
     organization_datasets_links := organization_datasets_links s;
     dataset_details := m;
     exception_links := exception_links s |}.

Definition set_exception_links (l : list string) (s : state) : state :=
  {| driver := driver s; screenshots := screenshots s;
     json_files := json_files s; log := log s;
     organization_datasets_links := organization_datasets_links s;
     dataset_details := dataset_details s;
     exception_links := l |}.

(** [logging.info], [logging.error] and [print]. *)
Definition logging (e : log_entry) : M state unit := modify (add_log e).

(** [organization_datasets_links[index].append(dataset_link)], after the
    [if index not in organization_datasets_links] that creates the list. *)
Definition append_link (index dataset_link : string)
    (m : gmap string (list string)) : gmap string (list string) :=
  <[index := default [] (m !! index) ++ [dataset_link]]> m.

(** The three-level item assignment
    [dataset_details[organization][dataset_name][key] = v]. *)
Definition setitem (organization dataset_name key : string) (v : value)
    : M state unit :=
  λ s, match dataset_details s !! organization with
       | None => (Raise KeyError, s)
       | Some datasets =>
           match datasets !! dataset_name with
           | None => (Raise KeyError, s)
           | Some record =>
               (Ok tt,
                set_details
                  (<[organization :=
                       <[dataset_name := <[key := v]> record]> datasets]>
                     (dataset_details s)) s)
           end
       end.

(** [dataset_details[organization][dataset_name] = {}]. *)
Definition reset_record (organization dataset_name : string) : M state unit :=
  λ s, match dataset_details s !! organization with
       | None => (Raise KeyError, s)
       | Some datasets =>
           (Ok tt,
            set_details
              (<[organization := <[dataset_name := ∅]> datasets]>
                 (dataset_details s)) s)
       end.

(** The two [if ... not in ...] that create the entries of a link. *)
Definition ensure_entry (organization dataset_name : string) (s : state)
    : state :=
  let details :=
    match dataset_details s !! organization with
    | Some _ => dataset_details s
    | None => <[organization := ∅]> (dataset_details s)
    end in
  let datasets := default ∅ (details !! organization) in
  let datasets :=
    match datasets !! dataset_name with
    | Some _ => datasets
    | None => <[dataset_name := ∅]> datasets
    end in
  set_details (<[organization := datasets]> details) s.

(** The record stored for a dataset, and the value of one of its fields. *)
Definition record_of (organization dataset_name : string) (s : state)
    : option (gmap string value) :=
  match dataset_details s !! organization with
  | Some datasets => datasets !! dataset_name
  | None => None
  end.

Definition field (organization dataset_name key : string) (s : state)
    : option value :=
  match record_of organization dataset_name s with
  | Some record => record !! key
  | None => None
  end.

(** ** The methods of the crawler *)

Section crawler.

(** [utils.clean_text], the whitespace normalisation the crawler imports. *)
Variable clean_text : string → string.
Variable w : web.
Variable self : HuggingfaceCrawler.

Definition driver_get (url : string) : M state unit :=
  λ s, match load w url with
       | Some d => (Ok tt, set_driver d s)
       | None => (Raise WebDriverException, s)
       end.

Definition save_screenshot (path : string) : M state unit :=
  λ s, if capture w path then (Ok tt, add_screenshot path s)
       else (Raise WebDriverException, s).

(** [self.driver.find_element(...)] followed by the read of what was
    found. *)
Definition find_element {A} (query : document → option A) : M state A :=
  λ s, or_raise NoSuchElementException (query (driver s)) s.

(** *** Link discovery *)

Definition sort_map : gmap string string :=
  list_to_map
    [("downloads", "downloads"); ("updated", "modified");
     ("created", "created"); ("alphabetical", "alphabetical");
     ("likes", "likes"); ("rowsMost", "most_rows");
     ("rowsLeast", "least_rows")].

Definition _get_related_links (current_link : option string)
    : M state string :=
  match current_link with
  | None => raise (ValueError "current_link cannot be None.")
  | Some current_link =>
      match sort_map !! sort_method self with
      | None => raise (ValueError "Invalid sort_method.")
      | Some sort =>
          ret (current_link +:+ "?sort_datasets=" +:+ sort +:+ "#datasets")
      end
  end.

(** The inner loop of [crawl_dataset_links] over the dataset cards. *)
Definition collect_article (index : string) (article : article)
    : M state unit :=
  dataset_link <- or_raise NoSuchElementException article ;;
  modify (λ s, set_links
                 (append_link index dataset_link
                    (organization_datasets_links s)) s) ;;
  logging (InfoGotDatasetLink dataset_link).

(** The body of the [try] of [crawl_dataset_links] for one organization;
    [continue] ends it at once. *)
Definition crawl_organization_try (index : string) (target : option string)
    : M state unit :=
  match target with
  | None => ret tt
  | Some target =>
      if String.eqb target "" then ret tt
      else
        logging (InfoScrawling index target) ;;
        target <- _get_related_links (Some target) ;;
        driver_get target ;;
        try_except
          (find_element (λ d, if expand_all_button d then Some tt else None))
          (λ _, logging InfoNoExpandAll) ;;
        articles <- (λ s, (Ok (dataset_items (driver s)), s)) ;;
        logging (InfoHaveDatasets (length articles)) ;;
        for_each articles (collect_article index)
  end.

(** One turn of the loop of [crawl_dataset_links].  The log entry of the
    handler keeps the exception and the organization. *)
Definition crawl_organization (index : string) (target : option string)
    : M state unit :=
  try_except (crawl_organization_try index target)
    (λ e, logging (ErrorCrawling e index)).

(** [crawl_dataset_links], from the targets read from the file of
    organization links to the JSON dump of the links found. *)
Definition crawl_dataset_links (crawl_targets : list (string * option string))
    : M state unit :=
  modify (set_links ∅) ;;
  for_each crawl_targets (λ it, crawl_organization it.1 it.2) ;;
  s <- get_state ;;
  modify (add_json_file
            (save_dir self +:+ "/"
               +:+ organization_datasets_links_save_file self)
            (organization_datasets_links s)).

(** *** Record extraction *)

Definition tag_key (span : string) : string :=
  Py.replace Py.dquote "" (Py.replace Py.squote "" (Py.replace ":" "" span)).

Definition tag_value (key text : string) : string :=
  Py.replace Py.dquote ""
    (Py.replace Py.squote ""
       (clean_text (Py.last_part ":" (Py.replace key "" text)))).

Definition arxiv_of_value (value : string) : string :=
  Py.first_part " " (clean_text (Py.last_part ":" value)).

(** The loop over the tag blocks: the tag map and the arxiv id so far. *)
Fixpoint tags_loop (divs : list tag_div)
    (dataset_tags_info_map : gmap string string) (arxiv_id : string)
    : M state (gmap string string * string) :=
  match divs with
  | [] => ret (dataset_tags_info_map, arxiv_id)
  | div :: rest =>
      span <- or_raise NoSuchElementException (span_text div) ;;
      let key := tag_key span in
      let value := tag_value key (div_text div) in
      tags_loop rest (<[key := value]> dataset_tags_info_map)
        (if String.eqb (Py.lower key) "arxiv" then arxiv_of_value value
         else arxiv_id)
  end.

(** The loop over the [a] tags of the info container. *)
Definition data_info_of (a_tags : list (list string)) : gmap string string :=
  fold_left
    (λ data_info divs,
       match divs with
       | [key; value] => <[Py.strip key := Py.strip value]> data_info
       | _ => data_info
       end)
    a_tags ∅.

(** A counter with its suffix word removed, ["0"] when nothing is left. *)
Definition counter (suffix text : string) : string :=
  if Py.truthy (clean_text (Py.replace suffix "" text))
  then clean_text (Py.replace suffix "" text)
  else "0".

(** [result[sub_title][header] = item] and
    [result[sub_title][header][key] = v] on the dictionary of related
    artifacts. *)
Definition set_header (sub_title header : string)
    : M (gmap string (gmap string (gmap string string))) unit :=
  λ result,
    match result !! sub_title with
    | None => (Raise KeyError, result)
    | Some bucket => (Ok tt, <[sub_title := <[header := ∅]> bucket]> result)
    end.

Definition set_detail (sub_title header key v : string)
    : M (gmap string (gmap string (gmap string string))) unit :=
  λ result,
    match result !! sub_title with
    | None => (Raise KeyError, result)
    | Some bucket =>
        match bucket !! header with
        | None => (Raise KeyError, result)
        | Some item =>
            (Ok tt,
             <[sub_title := <[header := <[key := v]> item]> bucket]> result)
        end
    end.

(** The display key of a link. *)
Definition header_of (a_tag : Soup.node) : string :=
  match Soup.find "header" a_tag with
  | Some header => clean_text (Soup.text header)
  | None => "expand"
  end.

(** [a_tag.find('div').find('div')], when both are found. *)
Definition nested_div (a_tag : Soup.node) : option Soup.node :=
  match Soup.find "div" a_tag with
  | Some outer => Soup.find "div" outer
  | None => None
  end.

Definition extract_item (sub_title : string) (a_tag : Soup.node)
    : M (gmap string (gmap string (gmap string string))) unit :=
  let header := header_of a_tag in
  set_header sub_title header ;;
  match (if negb (String.eqb header "expand") then nested_div a_tag
         else None) with
  | Some inner =>
      href <- or_raise KeyError (Soup.attr "href" a_tag) ;;
      set_detail sub_title header "href" href ;;
      set_detail sub_title header "text" (clean_text (Soup.text inner))
  | None =>
      set_detail sub_title header "other"
        (Py.replace Py.squote ""
           (Py.replace Py.dquote "" (clean_text (Soup.text a_tag))))
  end.

Definition _extract_models_or_collections_items (elements : list Soup.node)
    (sub_title : string)
    : M (gmap string (gmap string (gmap string string))) unit :=
  for_each elements (extract_item sub_title).

(** The loop over the headings of the section. *)
Fixpoint h2_loop (h2_tags : list (Soup.node * list Soup.node))
    : M (gmap string (gmap string (gmap string string))) unit :=
  match h2_tags with
  | [] => ret tt
  | (current_h2, contents) :: rest =>
      let sub_title := clean_text (Soup.text current_h2) in
      modify (insert sub_title ∅) ;;
      for_each
        (match rest with
         | (next_h2, _) :: _ => Soup.until_next next_h2 contents
         | [] => contents
         end)
        (λ sibling,
           _extract_models_or_collections_items
             (Soup.find_all_a_href sibling) sub_title) ;;
      h2_loop rest
  end.

(** The body of the [try] of [_crawl_related_models_or_collections], run on
    the dictionary [result]. *)
Definition crawl_related_try (d : document)
    : M (gmap string (gmap string (gmap string string))) unit :=
  match related_section d with
  | None => raise NoSuchElementException
  | Some soup => h2_loop (Soup.h2_tags soup)
  end.

Definition _crawl_related_models_or_collections
    (dataset_name organization : string) : M state unit :=
  λ s,
    let '(r, result) := crawl_related_try (driver s) ∅ in
    (match r with
     | Ok _ => ret tt
     | Raise e => logging (PrintRelatedFailed e)
     end ;;
     setitem organization dataset_name "related_models_collections"
       (VRelated result)) s.

Definition _extract_related_data (dataset_name organization : string)
    : M state string :=
  download_count_last_month <- find_element download_count ;;
  community <- find_element community ;;
  like <- find_element like ;;
  dataset_tags_info_divs <- (λ s, (Ok (tags_info (driver s)), s)) ;;
  tags <- tags_loop dataset_tags_info_divs ∅ "" ;;
  try_except
    (a_tags <- find_element data_info_div ;;
     let data_info := data_info_of a_tags in
     setitem organization dataset_name "dataset_info" (VDict data_info) ;;
     logging (InfoGetDatasetInfo data_info))
    (λ e, logging (InfoGetDatasetInfoFailed e)) ;;
  panel <- (λ s, (Ok (dataset_panel (driver s)), s)) ;;
  match panel with
  | Some text =>
      setitem organization dataset_name "dataset_panel_info"
        (VStr (Py.replace Py.squote "" (Py.replace Py.dquote "" text)))
  | None => ret tt
  end ;;
  _crawl_related_models_or_collections dataset_name organization ;;
  setitem organization dataset_name "dataset_tags_info" (VDict tags.1) ;;
  setitem organization dataset_name "download_count_last_month"
    (VStr download_count_last_month) ;;
  setitem organization dataset_name "community"
    (VStr (counter "Community" community)) ;;
  setitem organization dataset_name "like" (VStr (counter "Like" like)) ;;
  ret tags.2.

(** The access form: every label gets its input filled, then the button is
    clicked. *)
Definition fill_form (form : gate_form) : M state unit :=
  for_each (label_inputs form)
    (λ has_input : bool,
       if has_input then ret tt else raise NoSuchElementException) ;;
  if submit_button form then ret tt else raise NoSuchElementException.

Definition dataset_screenshot (dataset_name : string) : string :=
  screen_shot_save_path self +:+ "/" +:+ dataset_name +:+ ".png".

Definition paper_screenshot (dataset_name : string) : string :=
  screen_shot_save_path self +:+ "/" +:+ dataset_name +:+ "_pdf.png".

(** The body of the [try] of [_get_all_link_data] for one link. *)
Definition crawl_link (link : string) : M state unit :=
  driver_get link ;;
  logging (InfoStartCrawling link) ;;
  form <- (λ s, (Ok (need_finish_form (driver s)), s)) ;;
  match form with
  | Some form => fill_form form
  | None => ret tt
  end ;;
  organization <- or_raise IndexError (Py.index_neg (Py.split "/" link) 2) ;;
  dataset_name <- or_raise IndexError (Py.index_neg (Py.split "/" link) 1) ;;
  modify (ensure_entry organization dataset_name) ;;
  save_screenshot (dataset_screenshot dataset_name) ;;
  arxiv_id <- _extract_related_data dataset_name organization ;;
  (if Py.truthy arxiv_id
   then driver_get ("https://arxiv.org/pdf/" +:+ arxiv_id) ;;
        save_screenshot (paper_screenshot dataset_name)
   else ret tt) ;;
  reset_record organization dataset_name ;;
  setitem organization dataset_name "link" (VStr link) ;;
  setitem organization dataset_name "paper_screenshot_save_path"
    (VStr (if Py.truthy arxiv_id then paper_screenshot dataset_name else "")) ;;
  setitem organization dataset_name "dataset_screenshot_save_path"
    (VStr (dataset_screenshot dataset_name)).

(** One turn of the loop of [_get_all_link_data]. *)
Definition process_link (link : string) : M state unit :=
  try_except (crawl_link link)
    (λ e,
       logging (InfoErrorCrawling e link) ;;
       modify (λ s, set_exception_links (exception_links s ++ [link]) s)).

Definition _get_all_link_data (all_dataset_links : list string)
    : M state (gmap string (gmap string (gmap string value)) * list string) :=
  modify (set_details ∅) ;;
  modify (set_exception_links []) ;;
  driver_get "https://huggingface.co/login" ;;
  for_each all_dataset_links process_link ;;
  s <- get_state ;;
  ret (dataset_details s, exception_links s).

End crawler.

(** Modelled from the spec: [utils.clean_text] is imported from a module
    that is not among the sources.  The spec calls its effect whitespace
    normalisation: every run of whitespace becomes one space and the ends
    are trimmed.  The methods above take [clean_text] as a parameter; this
    model is what the concrete runs below pass for it. *)
Definition clean_text_spec (s : string) : string := Py.join " " (Py.words s).

(** The record a state holds for a dataset once [record] is written to it. *)
Definition put_record (organization dataset_name : string)
    (record : gmap string value) (s : state) : state :=
  set_details
    (<[organization :=
         <[dataset_name := record]>
           (default ∅ (dataset_details s !! organization))]>
       (dataset_details s)) s.

(** The links read from the cards of a listing before the first card
    without an anchor. *)
Fixpoint collected (articles : list article) : list string :=
  match articles with
  | Some dataset_link :: rest => dataset_link :: collected rest
  | _ => []
  end.

(** The links one organization contributes to the map. *)
Definition org_links (w : web) (self : HuggingfaceCrawler)
    (target : option string) : list string :=
  match target with
  | None => []
  | Some target =>
      if String.eqb target "" then []
      else match sort_map !! sort_method self with
           | None => []
           | Some sort =>
               match load w (target +:+ "?sort_datasets=" +:+ sort
                               +:+ "#datasets") with
               | None => []
               | Some d => collected (dataset_items d)
               end
           end
  end.

Definition append_links (index : string) (links : list string)
    (m : gmap string (list string)) : gmap string (list string) :=
  fold_left (λ m dataset_link, append_link index dataset_link m) links m.

(** One turn of the loop of [crawl_dataset_links] over the items of the
    targets. *)
Definition turn (w : web) (self : HuggingfaceCrawler)
    (it : string * option string) : M state unit :=
  crawl_organization w self it.1 it.2.

(** The map after the turns of the discovery loop for [targets]. *)
Definition discovered (w : web) (self : HuggingfaceCrawler)
    (targets : list (string * option string))
    (m : gmap string (list string)) : gmap string (list string) :=
  fold_left (λ m it, append_links it.1 (org_links w self it.2) m) targets m.

(** The log entry that opens the attempt on an organization. *)
Definition attempt_entry (index : string) (target : option string)
    : list log_entry :=
  match target with
  | None => []
  | Some target =>
      if String.eqb target "" then [] else [InfoScrawling index target]
  end.

Definition links_file (self : HuggingfaceCrawler) : string :=
  save_dir self +:+ "/" +:+ organization_datasets_links_save_file self.

(** [m] leaves the part [f] of the store as it found it. *)
Definition keeps {A B} (f : state → B) (m : M state A) : Prop :=
  ∀ s, f (m s).2 = f s.

(** The record of a dataset after the writes of [_extract_related_data]:
    first the optional ones, then the five that are always made. *)
Definition with_data_info (d : document) (record : gmap string value)
    : gmap string value :=
  match data_info_div d with
  | Some a_tags => <["dataset_info" := VDict (data_info_of a_tags)]> record
  | None => record
  end.

Definition with_panel (d : document) (record : gmap string value)
    : gmap string value :=
  match dataset_panel d with
  | Some text =>
      <["dataset_panel_info" :=
          VStr (Py.replace Py.squote "" (Py.replace Py.dquote "" text))]> record
  | None => record
  end.

Definition extracted (clean_text : string → string) (d : document)
    (download_count_last_month community like : string)
    (tags : gmap string string) (record : gmap string value)
    : gmap string value :=
  <["like" := VStr (counter clean_text "Like" like)]>
    (<["community" := VStr (counter clean_text "Community" community)]>
       (<["download_count_last_month" := VStr download_count_last_month]>
          (<["dataset_tags_info" := VDict tags]>
             (<["related_models_collections" :=
                  VRelated (crawl_related_try clean_text d ∅).2]>
                (with_panel d (with_data_info d record)))))).

(** The record [_get_all_link_data] leaves for a link it has crawled. *)
Definition stored (self : HuggingfaceCrawler) (link dataset_name : string)
    (arxiv_id : string) : gmap string value :=
  <["dataset_screenshot_save_path" :=
      VStr (dataset_screenshot self dataset_name)]>
    (<["paper_screenshot_save_path" :=
         VStr (if Py.truthy arxiv_id then paper_screenshot self dataset_name
               else "")]>
       (<["link" := VStr link]> ∅)).

(** [agrees organization dataset_name s record s1]: the store [s1] holds
    [record] for the dataset and is otherwise [s], the log apart. *)
Definition agrees (organization dataset_name : string) (s : state)
    (record : gmap string value) (s1 : state) : Prop :=
  record_of organization dataset_name s1 = Some record
  ∧ driver s1 = driver s
  ∧ exception_links s1 = exception_links s
  ∧ screenshots s1 = screenshots s
  ∧ ∀ o n, (o, n) ≠ (organization, dataset_name) →
           record_of o n s1 = record_of o n s.

(** A tag block whose label, once cleaned of colons and quotes, is "arxiv"
    up to case. *)
Definition is_arxiv (d : tag_div) : bool :=
  match span_text d with
  | Some span => String.eqb (Py.lower (tag_key span)) "arxiv"
  | None => false
  end.

(** The page [d] with another answer to the query of the info container. *)
Definition set_data_info (info : option (list (list string))) (d : document)
    : document :=
  {| expand_all_button := expand_all_button d;
     dataset_items := dataset_items d;
     need_finish_form := need_finish_form d;
     download_count := download_count d;
     community := community d;
     like := like d;
     tags_info := tags_info d;
     data_info_div := info;
     dataset_panel := dataset_panel d;
     related_section := related_section d |}.

(** [result[sub_title][header][key]] in the dictionary of related
    artifacts. *)
Definition detail (result : gmap string (gmap string (gmap string string)))
    (sub_title header key : string) : option string :=
  match result !! sub_title with
  | Some bucket =>
      match bucket !! header with
      | Some item => item !! key
      | None => None
      end
  | None => None
  end.

(** The two ways a turn of the loop of [_get_all_link_data] can end, from
    the store [s] to the store [s']: the record of the link is stored and
    the list of failed links is as before, or the link is appended to it. *)
Definition crawled (self : HuggingfaceCrawler) (link : string)
    (s s' : state) : Prop :=
  ∃ organization dataset_name paper,
    Py.index_neg (Py.split "/" link) 2 = Some organization
    ∧ Py.index_neg (Py.split "/" link) 1 = Some dataset_name
    ∧ field organization dataset_name "link" s' = Some (VStr link)
    ∧ field organization dataset_name "dataset_screenshot_save_path" s'
      = Some (VStr (dataset_screenshot self dataset_name))
    ∧ field organization dataset_name "paper_screenshot_save_path" s'
      = Some (VStr paper)
    ∧ exception_links s' = exception_links s.

Definition appended (link : string) (s s' : state) : Prop :=
  exception_links s' = exception_links s ++ [link].

(** ** A small web for the concrete runs *)

Module Demo.

Definition me : HuggingfaceCrawler := {|
  sort_method := "downloads";
  save_dir := "result/huggingface";
  organization_datasets_links_save_file :=
    "hugging_face_organization_datasets_links.json"
|}.

(** A crawler built with a sort order that [sort_map] does not know. *)
Definition misconfigured : HuggingfaceCrawler := {|
  sort_method := "stars";
  save_dir := "result/huggingface";
  organization_datasets_links_save_file :=
    "hugging_face_organization_datasets_links.json"
|}.

Definition listing (items : list article) : document := {|
  expand_all_button := false;
  dataset_items := items;
  need_finish_form := None;
  download_count := None;
  community := None;
  like := None;
  tags_info := [];
  data_info_div := None;
  dataset_panel := None;
  related_section := None
|}.

(** The listing of "good" has two cards, the second card of "partial" has
    no anchor, and the listing of "bad" cannot be loaded. *)
Definition listings (url : string) : option document :=
  if String.eqb url
       "https://huggingface.co/good?sort_datasets=downloads#datasets"
  then Some (listing [Some "https://huggingface.co/datasets/good/a";
                      Some "https://huggingface.co/datasets/good/b"])
  else if String.eqb url
            "https://huggingface.co/partial?sort_datasets=downloads#datasets"
  then Some (listing [Some "https://huggingface.co/datasets/partial/x";
                      None;
                      Some "https://huggingface.co/datasets/partial/z"])
  else None.

Definition targets : list (string * option string) :=
  [("bad", Some "https://huggingface.co/bad");
   ("partial", Some "https://huggingface.co/partial");
   ("good", Some "https://huggingface.co/good")].

(** The section of related artifacts of the dataset pages: a model card
    with a header and a nested block, a link without header, and under the
    second heading a link with a nested block but no header. *)
Definition related : Soup.node :=
  Soup.NTag "section" []
    [Soup.NTag "h2" [] [Soup.NText "Models trained on this dataset"];
     Soup.NTag "div" []
       [Soup.NTag "a" [("href", "/org/model-a")]
          [Soup.NTag "div" []
             [Soup.NTag "header" [] [Soup.NText "org/model-a"];
              Soup.NTag "div" [] [Soup.NText "Text Generation"]]];
        Soup.NTag "a" [("href", "/models?other=dataset:org/ds")]
          [Soup.NText "Browse 12 models"]];
     Soup.NTag "h2" [] [Soup.NText "Collection"];
     Soup.NTag "div" []
       [Soup.NTag "a" [("href", "/collections/org/c")]
          [Soup.NTag "div" [] [Soup.NTag "div" [] [Soup.NText "nested"]]]]].

Definition page (tags : list tag_div)
    (info : option (list (list string))) : document := {|
  expand_all_button := false;
  dataset_items := [];
  need_finish_form := None;
  download_count := Some "1,234";
  community := Some "Community 5";
  like := Some "Like";
  tags_info := tags;
  data_info_div := info;
  dataset_panel := Some "Dataset card";
  related_section := Some related
|}.

Definition license : tag_div :=
  {| span_text := Some "License:"; div_text := "License: cc-by-4.0" |}.

Definition arxiv (ids : string) : tag_div :=
  {| span_text := Some "ArXiv:"; div_text := "ArXiv: " +:+ ids |}.

(** Four dataset pages: two with the same name under different
    organizations, one whose info container cannot be read, and one whose
    paper cannot be loaded. *)
Definition pages (url : string) : option document :=
  if String.eqb url "https://huggingface.co/datasets/org/ds"
  then Some (page [license; arxiv "2107.06499 2107.99999"]
               (Some [["Size"; " 1.2k rows "]; ["alone"]]))
  else if String.eqb url "https://huggingface.co/datasets/other/ds"
  then Some (page [arxiv "2107.06499"] (Some []))
  else if String.eqb url "https://huggingface.co/datasets/org/noinfo"
  then Some (page [license] None)
  else if String.eqb url "https://huggingface.co/datasets/org/paper"
  then Some (page [arxiv "2201.00001"] (Some []))
  else if String.eqb url "https://arxiv.org/pdf/2107.06499"
  then Some blank_document
  else if String.eqb url "https://huggingface.co/login"
  then Some blank_document
  else None.

Definition the_web : web := {|
  load := λ url, match pages url with
                 | Some d => Some d
                 | None => listings url
                 end;
  capture := λ _, true
|}.

(** The store when [_extract_related_data] is called for a link: its page
    is loaded and its entry is there. *)
Definition at_page (url organization dataset_name : string) : state :=
  ensure_entry organization dataset_name
    (set_driver (default blank_document (pages url)) initial_state).

End Demo.

(** [free_of c s]: the character [c] does not occur in [s]. *)
Definition free_of (c : ascii) (s : string) : bool :=
  Py.all (λ x, negb (Ascii.eqb x c)) s.

(** Neither quote character occurs in [s]. *)
Definition quote_free (s : string) : bool :=
  free_of "'"%char s && free_of "034"%char s.

(** The item [extract_item] stores for a link, the bucket after the links
    of a list, and the bucket after the links found under a list of
    siblings. *)
Definition item_of (clean_text : string → string) (a_tag : Soup.node)
    : gmap string string :=
  match (if negb (String.eqb (header_of clean_text a_tag) "expand")
         then nested_div a_tag else None) with
  | Some inner =>
      <["text" := clean_text (Soup.text inner)]>
        (<["href" := default "" (Soup.attr "href" a_tag)]> ∅)
  | None =>
      <["other" :=
          Py.replace Py.squote ""
            (Py.replace Py.dquote "" (clean_text (Soup.text a_tag)))]> ∅
  end.

Definition bucket_with (clean_text : string → string)
    (elements : list Soup.node) (bucket : gmap string (gmap string string))
    : gmap string (gmap string string) :=
  fold_left
    (λ bucket a_tag,
       <[header_of clean_text a_tag := item_of clean_text a_tag]> bucket)
    elements bucket.

Definition bucket_of_siblings (clean_text : string → string)
    (siblings : list Soup.node) (bucket : gmap string (gmap string string))
    : gmap string (gmap string string) :=
  fold_left
    (λ bucket sibling,
       bucket_with clean_text (Soup.find_all_a_href sibling) bucket)
    siblings bucket.

(** The cleaned title of a heading. *)
Definition title_of (clean_text : string → string)
    (h2 : Soup.node * list Soup.node) : string :=
  clean_text (Soup.text h2.1).

(** Whether the access form of a page, if any, can be filled and sent. *)
Definition gate_passes (d : document) : bool :=
  match need_finish_form d with
  | Some form => forallb id (label_inputs form) && submit_button form
  | None => true
  end.

(** Whether the body of the [try] for a link raises, run from the initial
    store. *)
Definition crawl_fails (clean_text : string → string) (w : web)
    (self : HuggingfaceCrawler) (link : string) : bool :=
  match (crawl_link clean_text w self link initial_state).1 with
  | Ok _ => false
  | Raise _ => true
  end.

(** The outcome of [_extract_related_data] on a page, once the entry of the
    dataset exists: the first query that fails decides. *)
Definition extraction_outcome (clean_text : string → string) (d : document)
    : outcome string :=
  match download_count d with
  | None => Raise NoSuchElementException
  | Some _ =>
      match community d with
      | None => Raise NoSuchElementException
      | Some _ =>
          match like d with
          | None => Raise NoSuchElementException
          | Some _ =>
              match (tags_loop clean_text (tags_info d) ∅ ""
                       initial_state).1 with
              | Ok tags => Ok tags.2
              | Raise e => Raise e
              end
          end
      end
  end.

(** The outcome of the body of the [try] for a link, read off the web. *)
Definition link_outcome (clean_text : string → string) (w : web)
    (self : HuggingfaceCrawler) (link : string) : outcome unit :=
  match load w link with
  | None => Raise WebDriverException
  | Some d =>
      if gate_passes d then
        match Py.index_neg (Py.split "/" link) 2,
              Py.index_neg (Py.split "/" link) 1 with
        | Some organization, Some dataset_name =>
            if capture w (dataset_screenshot self dataset_name) then
              match extraction_outcome clean_text d with
              | Raise e => Raise e
              | Ok arxiv_id =>
                  if Py.truthy arxiv_id then
                    match load w ("https://arxiv.org/pdf/" +:+ arxiv_id) with
                    | None => Raise WebDriverException
                    | Some _ =>
                        if capture w (paper_screenshot self dataset_name)
                        then Ok tt else Raise WebDriverException
                    end
                  else Ok tt
              end
            else Raise WebDriverException
        | _, _ => Raise IndexError
        end
      else Raise NoSuchElementException
  end.

(** ** [configReader.py] *)

Module ConfigReader.

(** The values [get] handles here: [None], a [str] or a [bool]. *)
Inductive value :=
| PNone
| PStr (s : string)
| PBool (b : bool).

(** The [configparser.ConfigParser] held in [self.config], as the reader
    uses it: [get] returns the text of the option ([inl]) or raises an
    exception whose text is the message ([inr]). *)
Record parser := {
  has_section : string → bool;
  has_option : string → string → bool;
  parser_get : string → string → string + string
}.

Record reader := {
  config : parser;
  env_prefix : option string
}.

(** A returned value, or a raised [ConfigError] with its message. *)
Inductive result (A : Type) :=
| Return (a : A)
| ConfigError (msg : string).
Arguments Return {A} a.
Arguments ConfigError {A} msg.

(** The parameter [option] of the methods is written [opt] here, [option]
    being the name of a type. *)
Definition _get_env_name (self : reader) (section opt : string)
    : option string :=
  match env_prefix self with
  | None => None
  | Some prefix =>
      if Py.truthy prefix
      then Some (prefix +:+ Py.upper section +:+ "_" +:+ Py.upper opt)
      else None
  end.

(** The body of the [try] of [get]: a value returned ([inl]) or the text
    of the exception raised ([inr]). *)
Definition get_try (self : reader) (section opt : string)
    (default : value) (required : bool) : value + string :=
  if negb (has_section (config self) section) then
    if required
    then inr ("Section '" +:+ section +:+ "' not found in config file")
    else inl default
  else if negb (has_option (config self) section opt) then
    if required
    then inr ("Option '" +:+ opt +:+ "' not found in section '"
                +:+ section +:+ "'")
    else inl default
  else
    match parser_get (config self) section opt with
    | inl text => inl (PStr text)
    | inr msg => inr msg
    end.

Definition get (self : reader) (environ : gmap string string)
    (section opt : string) (default : value) (required : bool)
    : result value :=
  match
    match _get_env_name self section opt with
    | Some env_name =>
        if Py.truthy env_name then environ !! env_name else None
    | None => None
    end
  with
  | Some text => Return (PStr text)
  | None =>
      match get_try self section opt default required with
      | inl v => Return v
      | inr msg =>
          if required then ConfigError ("Error reading config: " +:+ msg)
          else Return default
      end
  end.

(** [value in (a, b, c)] on strings. *)
Definition one_of (l : list string) (s : string) : bool :=
  existsb (String.eqb s) l.

Definition get_boolean (self : reader) (environ : gmap string string)
    (section opt : string) (default : value) (required : bool)
    : result value :=
  match get self environ section opt default required with
  | ConfigError msg => ConfigError msg
  | Return PNone => Return PNone
  | Return (PBool b) => Return (PBool b)
  | Return (PStr text) =>
      if one_of ["true"; "yes"; "1"] (Py.lower text) then Return (PBool true)
      else if one_of ["false"; "no"; "0"] (Py.lower text)
      then Return (PBool false)
      else if required
      then ConfigError ("Option '" +:+ opt +:+ "' in section '"
                          +:+ section +:+ "' must be a boolean")
      else Return default
  end.

(** A reader with the prefix "APP_" over a file with one section. *)
Definition demo_parser : parser := {|
  has_section := String.eqb "database";
  has_option := λ section opt,
    String.eqb section "database"
    && (String.eqb opt "host" || String.eqb opt "debug"
        || String.eqb opt "broken");
  parser_get := λ section opt,
    if String.eqb opt "host" then inl "localhost"
    else if String.eqb opt "debug" then inl "Yes"
    else inr "Bad value substitution"
|}.

Definition demo : reader :=
  {| config := demo_parser; env_prefix := Some "APP_" |}.

Definition demo_environ : gmap string string :=
  {["APP_DATABASE_HOST" := "db.internal"]}.

End ConfigReader.

(** The crawl of a link from the screenshot of its page on, once the
    organization and the name are read and the entry exists; [crawl_link]
    ends with it. *)
Definition crawl_link_tail (clean_text : string → string) (w : web)
    (self : HuggingfaceCrawler) (link organization dataset_name : string)
    : M state unit :=
  save_screenshot w (dataset_screenshot self dataset_name) ;;
  arxiv_id <- _extract_related_data clean_text dataset_name organization ;;
  (if Py.truthy arxiv_id
   then driver_get w ("https://arxiv.org/pdf/" +:+ arxiv_id) ;;
        save_screenshot w (paper_screenshot self dataset_name)
   else ret tt) ;;
  reset_record organization dataset_name ;;
  setitem organization dataset_name "link" (VStr link) ;;
  setitem organization dataset_name "paper_screenshot_save_path"
    (VStr (if Py.truthy arxiv_id then paper_screenshot self dataset_name
           else "")) ;;
  setitem organization dataset_name "dataset_screenshot_save_path"
    (VStr (dataset_screenshot self dataset_name)).

(** [m] keeps the property [P] of the store, however it ends. *)
Definition preserves {A} (P : state → Prop) (m : M state A) : Prop :=
  ∀ s, P s → P (m s).2.

(** * Properties *)

(** ** The string primitives at work *)

Example split_slash :
  Py.split "/" "https://huggingface.co/datasets/org/ds"
  = ["https:"; ""; "huggingface.co"; "datasets"; "org"; "ds"].
Proof. reflexivity. Qed.

Example replace_all : Py.replace "ab" "" "xababyab" = "xy".
Proof. reflexivity. Qed.

Example replace_overlap : Py.replace "aa" "b" "aaa" = "ba".
Proof. reflexivity. Qed.

Example replace_empty_old : Py.replace "" "" "abc" = "abc".
Proof. reflexivity. Qed.

Example strip_both : Py.strip "  1.2k rows  " = "1.2k rows".
Proof. reflexivity. Qed.

Example lower_mixed : Py.lower "ArXiv" = "arxiv".
Proof. reflexivity. Qed.

Example words_runs : Py.words "  a  bc d " = ["a"; "bc"; "d"].
Proof. reflexivity. Qed.

Example clean_text_spec_runs :
  clean_text_spec "  12   rows " = "12 rows".
Proof. reflexivity. Qed.

Lemma split_not_nil sep s : Py.split sep s ≠ [].
Proof. destruct s as [|c s]; simpl; repeat case_match; intros ?; discriminate. Qed.

Lemma append_cons c (s t : string) : String c s +:+ t = String c (s +:+ t).
Proof. done. Qed.

Lemma all_impl (p q : ascii → bool) s :
  (∀ c, p c = true → q c = true) → Py.all p s = true → Py.all q s = true.
Proof.
  intros Hpq. induction s as [|c s IH]; simpl; [done|].
  intros [Hc Hs]%andb_true_iff. apply andb_true_iff. auto.
Qed.

Lemma words_cons c s :
  Py.words (String c s)
  = if Py.isspace c then Py.words s
    else match s with
         | "" => [String c ""]
         | String c' _ =>
             if Py.isspace c' then String c "" :: Py.words s
             else match Py.words s with
                  | w :: ws => String c w :: ws
                  | [] => [String c ""]
                  end
         end.
Proof. done. Qed.

(** The first word of a text holds no white space. *)
Lemma words_hd_no_space s :
  Py.all (λ c, negb (Py.isspace c)) (List.hd "" (Py.words s)) = true.
Proof.
  induction s as [|c s IH]; [done|].
  rewrite words_cons. destruct (Py.isspace c) eqn:Hc; [done|].
  assert (Py.all (λ c, negb (Py.isspace c)) (String c "") = true) as Hone.
  { cbn [Py.all]. by rewrite Hc. }
  destruct s as [|c' s]; [done|]. cbv beta iota.
  destruct (Py.isspace c') eqn:Hc'; [done|].
  destruct (Py.words (String c' s)) as [|w ws]; [done|].
  cbn [List.hd Py.all] in *. by rewrite Hc, IH.
Qed.

(** Splitting at [sep] a text that starts with a word free of [sep]. *)
Lemma split_hd_word sep w rest :
  Py.all (λ c, negb (Ascii.eqb c sep)) w = true →
  List.hd "" (Py.split sep w) = w
  ∧ List.hd "" (Py.split sep (w +:+ String sep rest)) = w.
Proof.
  induction w as [|c w IH]; simpl.
  { intros _. split; [done|]. by rewrite Ascii.eqb_refl. }
  intros [Hc Hw]%andb_true_iff. apply negb_true_iff in Hc.
  destruct (IH Hw) as [IH1 IH2]. rewrite Hc.
  split.
  - destruct (Py.split sep w); simpl in *; by subst.
  - destruct (Py.split sep (w +:+ String sep rest)); simpl in *; by subst.
Qed.

(** After the whitespace normalisation of the spec, the first token
    delimited by a space is the first word of the text. *)
Lemma first_part_clean_text_spec s :
  Py.first_part " " (clean_text_spec s) = List.hd "" (Py.words s).
Proof.
  unfold Py.first_part, clean_text_spec.
  pose proof (words_hd_no_space s) as Hw.
  apply (all_impl _ (λ c, negb (Ascii.eqb c " "))) in Hw.
  2:{ intros c Hc. apply negb_true_iff. apply negb_true_iff in Hc.
      destruct (Ascii.eqb_spec c " ") as [->|]; [done|done]. }
  destruct (Py.words s) as [|w [|w' ws]]; simpl in *.
  - done.
  - by apply (split_hd_word " " w "").
  - change (w +:+ " " +:+ ?t) with (w +:+ String " " t).
    by apply (split_hd_word " " w).
Qed.

(** ** The monad *)

Lemma bind_ok_inv {S A B} (m : M S A) (k : A → M S B) s b s' :
  bind m k s = (Ok b, s') →
  ∃ a s1, m s = (Ok a, s1) ∧ k a s1 = (Ok b, s').
Proof.
  unfold bind. destruct (m s) as [[a|e] s1]; [eauto | discriminate].
Qed.

Lemma bind_ok {S A B} (m : M S A) (k : A → M S B) s a s1 :
  m s = (Ok a, s1) → bind m k s = k a s1.
Proof. unfold bind. by intros ->. Qed.

Lemma bind_raise {S A B} (m : M S A) (k : A → M S B) s e s1 :
  m s = (Raise e, s1) → bind m k s = (Raise e, s1).
Proof. unfold bind. by intros ->. Qed.

Lemma run_eq {S A} (run : outcome A * S) r : run.1 = r → run = (r, run.2).
Proof. destruct run. simpl. by intros ->. Qed.

Lemma for_each_app {S A} (l1 l2 : list A) (body : A → M S unit) s :
  for_each (l1 ++ l2) body s
  = bind (for_each l1 body) (λ _, for_each l2 body) s.
Proof.
  revert s. induction l1 as [|x l1 IH]; intros s; simpl.
  - done.
  - unfold bind in *. destruct (body x s) as [[[]|e] s1]; [|done].
    by rewrite IH.
Qed.

(** A loop whose body never raises never raises. *)
Lemma for_each_total {S A} (l : list A) (body : A → M S unit) s :
  (∀ x s, (body x s).1 = Ok tt) → (for_each l body s).1 = Ok tt.
Proof.
  intros Hbody. revert s. induction l as [|x l IH]; intros s; simpl; [done|].
  unfold bind. specialize (Hbody x s).
  destruct (body x s) as [[[]|e] s1]; simpl in *; [apply IH | discriminate].
Qed.

(** An invariant of every turn is an invariant of the loop. *)
Lemma for_each_invariant {S A} (P : S → Prop) (l : list A)
    (body : A → M S unit) s :
  (∀ x s, P s → P (body x s).2) → P s → P (for_each l body s).2.
Proof.
  intros Hbody. revert s. induction l as [|x l IH]; intros s Hs; simpl; [done|].
  unfold bind. specialize (Hbody x s Hs).
  destruct (body x s) as [[[]|e] s1]; simpl in *; [by apply IH | done].
Qed.

(** Unfold the primitives of the monad and of the driver. *)
Ltac run :=
  unfold bind, ret, raise, or_raise, modify, logging, try_except, get_state,
    driver_get, save_screenshot, find_element; simpl.

(** ** Link discovery *)

Section discovery.

Variable w : web.
Variable self : HuggingfaceCrawler.

Lemma append_links_lookup index links (m : gmap string (list string)) j :
  append_links index links m !! j
  = if decide (index = j)
    then match links with
         | [] => m !! j
         | _ => Some (default [] (m !! j) ++ links)
         end
    else m !! j.
Proof.
  unfold append_links. revert m.
  induction links as [|l links IH]; intros m; simpl.
  - by case_decide.
  - rewrite IH. unfold append_link. case_decide as Hij.
    + subst j. rewrite lookup_insert_eq. simpl.
      destruct links; [done|]. by rewrite <- app_assoc.
    + by rewrite lookup_insert_ne.
Qed.

Lemma collect_loop_links index articles s :
  organization_datasets_links
    (for_each articles (collect_article index) s).2
  = append_links index (collected articles) (organization_datasets_links s).
Proof.
  revert s. induction articles as [|[l|] articles IH]; intros s; [done| |done].
  simpl. unfold bind at 1. unfold collect_article at 1.
  unfold bind, or_raise, ret, modify, logging. simpl.
  rewrite IH. done.
Qed.

Lemma collect_loop_outcome index articles s :
  (for_each articles (collect_article index) s).1
  = if forallb (λ a : article, bool_decide (is_Some a)) articles then Ok tt
    else Raise NoSuchElementException.
Proof.
  revert s. induction articles as [|[l|] articles IH]; intros s; [done| |done].
  simpl. unfold bind at 1. unfold collect_article at 1.
  unfold bind, or_raise, ret, modify, logging. simpl.
  rewrite IH. done.
Qed.

Lemma crawl_try_links index target s :
  organization_datasets_links (crawl_organization_try w self index target s).2
  = append_links index (org_links w self target)
      (organization_datasets_links s).
Proof.
  unfold crawl_organization_try, org_links, _get_related_links.
  destruct target as [target|]; [|done].
  destruct (String.eqb target ""); [done|].
  unfold bind at 1 2. unfold logging at 1, modify at 1.
  destruct (sort_map !! sort_method self) as [sort|]; [|done].
  unfold ret at 1. unfold bind at 1. unfold driver_get at 1. simpl.
  destruct (load w _) as [d|]; [|done].
  unfold bind at 1.
  match goal with
  | |- context [try_except ?m ?h ?s] =>
      assert (∃ s1, try_except m h s = (Ok tt, s1)
                    ∧ driver s1 = d
                    ∧ organization_datasets_links s1
                      = organization_datasets_links s) as (s1 & -> & Hd & Hl)
  end.
  { run. destruct (expand_all_button d); simpl; eauto. }
  unfold bind at 1. rewrite Hd. unfold bind at 1. unfold logging at 1.
  unfold modify at 1. rewrite collect_loop_links. simpl. by rewrite Hl.
Qed.

Lemma crawl_organization_links index target s :
  organization_datasets_links (crawl_organization w self index target s).2
  = append_links index (org_links w self target)
      (organization_datasets_links s).
Proof.
  rewrite <- crawl_try_links. unfold crawl_organization, try_except.
  by destruct (crawl_organization_try w self index target s) as [[[]|e] s1].
Qed.

(** The handler of the loop catches whatever the body raises. *)
Lemma crawl_organization_total index target s :
  (crawl_organization w self index target s).1 = Ok tt.
Proof.
  unfold crawl_organization, try_except.
  by destruct (crawl_organization_try w self index target s) as [[[]|e] s1].
Qed.

Lemma crawl_organization_logs_error index target s e :
  (crawl_organization_try w self index target s).1 = Raise e →
  ErrorCrawling e index ∈ log (crawl_organization w self index target s).2.
Proof.
  unfold crawl_organization, try_except.
  destruct (crawl_organization_try w self index target s) as [[[]|e'] s1];
    simpl; intros He; simplify_eq.
  apply elem_of_app. right. apply list_elem_of_singleton. done.
Qed.

Lemma collect_article_frame index a s :
  json_files (collect_article index a s).2 = json_files s
  ∧ driver (collect_article index a s).2 = driver s
  ∧ ∃ l, log (collect_article index a s).2 = log s ++ l.
Proof.
  unfold collect_article. run. destruct a; simpl.
  - repeat split; eauto.
  - repeat split; try done. exists []. by rewrite app_nil_r.
Qed.

Lemma crawl_try_frame index target s :
  json_files (crawl_organization_try w self index target s).2 = json_files s
  ∧ ∃ l, log (crawl_organization_try w self index target s).2
         = log s ++ attempt_entry index target ++ l.
Proof.
  assert (json_files s = json_files s ∧ ∃ l, log s = log s ++ [] ++ l) as Hs.
  { split; [done|]. exists []. by rewrite app_nil_r. }
  destruct target as [target|]; [|done].
  unfold attempt_entry. destruct (String.eqb target "") eqn:Heq.
  { unfold crawl_organization_try. by rewrite Heq. }
  set (base := log s ++ [InfoScrawling index target]).
  set (P := λ s' : state,
         json_files s' = json_files s ∧ ∃ l, log s' = base ++ l).
  assert (∀ e s1, P s1 → P (add_log e s1)) as Hlog.
  { intros e s1 [Hj [l Hl]]. split; [done|]. simpl. rewrite Hl.
    exists (l ++ [e]). by rewrite app_assoc. }
  assert (P (add_log (InfoScrawling index target) s)) as Hs1.
  { split; [done|]. exists []. by rewrite app_nil_r. }
  assert (P (crawl_organization_try w self index (Some target) s).2)
    as [Hj [l Hl]].
  2:{ split; [done|]. exists l. rewrite Hl. unfold base.
      by rewrite <- app_assoc. }
  unfold crawl_organization_try, _get_related_links. rewrite Heq.
  unfold bind at 1 2. unfold logging at 1, modify at 1.
  destruct (sort_map !! sort_method self) as [sort|]; [|done].
  unfold ret at 1. unfold bind at 1. unfold driver_get at 1. simpl.
  destruct (load w _) as [d|]; [|done].
  unfold bind at 1.
  match goal with
  | |- context [try_except ?m ?h ?s] =>
      assert (∃ s1, try_except m h s = (Ok tt, s1) ∧ P s1) as (s1 & -> & Hs2)
  end.
  { run. destruct (expand_all_button d); simpl;
      (eexists; split; [reflexivity|]); [|apply Hlog]; by destruct Hs1. }
  unfold bind at 1. unfold bind at 1. unfold logging at 1, modify at 1.
  apply for_each_invariant; [|by apply Hlog].
  intros a s2 [Hj [l Hl]].
  destruct (collect_article_frame index a s2) as (Hj2 & _ & l2 & Hl2).
  split; [congruence|]. exists (l ++ l2). rewrite Hl2, Hl.
  by rewrite app_assoc.
Qed.

Lemma crawl_organization_frame index target s :
  json_files (crawl_organization w self index target s).2 = json_files s
  ∧ ∃ l, log (crawl_organization w self index target s).2
         = log s ++ attempt_entry index target ++ l.
Proof.
  destruct (crawl_try_frame index target s) as (Hj & l & Hl).
  unfold crawl_organization, try_except.
  destruct (crawl_organization_try w self index target s) as [[[]|e] s1];
    simpl in *; [eauto|].
  split; [done|]. exists (l ++ [ErrorCrawling e index]).
  rewrite Hl. by rewrite <- !app_assoc.
Qed.

(** Whether the body of the [try] raises does not depend on the store. *)
Lemma crawl_try_outcome index target s s0 :
  (crawl_organization_try w self index target s).1
  = (crawl_organization_try w self index target s0).1.
Proof.
  unfold crawl_organization_try, _get_related_links.
  destruct target as [target|]; [|done].
  destruct (String.eqb target ""); [done|].
  run. destruct (sort_map !! sort_method self) as [sort|]; [|done].
  simpl. destruct (load w _) as [d|]; [|done].
  simpl. destruct (expand_all_button d); simpl;
    by rewrite !collect_loop_outcome.
Qed.

Lemma loop_total targets s : (for_each targets (turn w self) s).1 = Ok tt.
Proof.
  apply for_each_total. intros it s1. apply crawl_organization_total.
Qed.

Lemma loop_cons it targets s :
  for_each (it :: targets) (turn w self) s = for_each targets (turn w self) (turn w self it s).2.
Proof.
  simpl. unfold bind. pose proof (crawl_organization_total it.1 it.2 s) as H.
  fold (turn w self it) in H. destruct (turn w self it s) as [[[]|e] s1]; simpl in *;
    [done | discriminate].
Qed.

Lemma loop_links targets s :
  organization_datasets_links (for_each targets (turn w self) s).2
  = discovered w self targets (organization_datasets_links s).
Proof.
  revert s. induction targets as [|it targets IH]; intros s; [done|].
  rewrite loop_cons, IH. unfold turn. by rewrite crawl_organization_links.
Qed.

Lemma loop_frame targets s :
  json_files (for_each targets (turn w self) s).2 = json_files s
  ∧ ∀ entry, entry ∈ log s → entry ∈ log (for_each targets (turn w self) s).2.
Proof.
  apply (for_each_invariant
           (λ s', json_files s' = json_files s
                  ∧ ∀ entry, entry ∈ log s → entry ∈ log s')); [|done].
  intros it s1 [Hj Hl].
  destruct (crawl_organization_frame it.1 it.2 s1) as (Hj1 & l & Hl1).
  unfold turn. split; [congruence|]. intros entry Hin. rewrite Hl1.
  apply elem_of_app. left. by apply Hl.
Qed.

Lemma loop_logs_error targets index target s s0 e :
  (index, target) ∈ targets →
  (crawl_organization_try w self index target s0).1 = Raise e →
  ErrorCrawling e index ∈ log (for_each targets (turn w self) s).2.
Proof.
  intros Hin He. revert s.
  induction targets as [|it targets IH]; intros s.
  { by apply elem_of_nil in Hin. }
  rewrite loop_cons. apply elem_of_cons in Hin as [<-|Hin]; [|by apply IH].
  apply loop_frame. unfold turn. simpl.
  apply crawl_organization_logs_error.
  by rewrite (crawl_try_outcome index target s s0).
Qed.

Lemma loop_logs_attempt targets index target s :
  (index, Some target) ∈ targets → target ≠ "" →
  InfoScrawling index target ∈ log (for_each targets (turn w self) s).2.
Proof.
  intros Hin Hne. revert s.
  induction targets as [|it targets IH]; intros s.
  { by apply elem_of_nil in Hin. }
  rewrite loop_cons. apply elem_of_cons in Hin as [<-|Hin]; [|by apply IH].
  apply loop_frame. unfold turn. simpl.
  destruct (crawl_organization_frame index (Some target) s) as (_ & l & ->).
  simpl. apply String.eqb_neq in Hne as ->.
  apply elem_of_app. right. apply elem_of_cons. by left.
Qed.

Lemma discovered_cons it targets (m : gmap string (list string)) :
  discovered w self (it :: targets) m
  = discovered w self targets
      (append_links it.1 (org_links w self it.2) m).
Proof. done. Qed.

Lemma discovered_notin targets index (m : gmap string (list string)) :
  index ∉ targets.*1 → discovered w self targets m !! index = m !! index.
Proof.
  revert m.
  induction targets as [|[i t] targets IH]; intros m Hnotin; [done|].
  rewrite discovered_cons. simpl in *.
  apply not_elem_of_cons in Hnotin as [Hne Hnotin].
  rewrite IH by done. rewrite append_links_lookup. by case_decide.
Qed.

Lemma discovered_lookup targets index target
    (m : gmap string (list string)) :
  NoDup targets.*1 → (index, target) ∈ targets → m !! index = None →
  discovered w self targets m !! index
  = match org_links w self target with
    | [] => None
    | links => Some links
    end.
Proof.
  revert m.
  induction targets as [|[i t] targets IH]; intros m Hnd Hin Hm.
  { by apply elem_of_nil in Hin. }
  rewrite discovered_cons. simpl in *. apply NoDup_cons in Hnd as [Hi Hnd].
  apply elem_of_cons in Hin as [Heq|Hin].
  - simplify_eq. rewrite discovered_notin by done.
    rewrite append_links_lookup, decide_True by done. rewrite Hm.
    by destruct (org_links w self t).
  - apply IH; [done..|].
    assert (i ≠ index) as Hne.
    { intros ->. apply Hi. apply list_elem_of_fmap. by exists (index, target). }
    by rewrite append_links_lookup, decide_False.
Qed.

(** The whole method: it returns normally and dumps the map it built,
    once, after the loop. *)
Lemma crawl_dataset_links_run targets s :
  crawl_dataset_links w self targets s
  = (Ok tt,
     add_json_file (links_file self)
       (organization_datasets_links (for_each targets (turn w self) (set_links ∅ s)).2)
       (for_each targets (turn w self) (set_links ∅ s)).2).
Proof.
  unfold crawl_dataset_links. unfold bind at 1. unfold modify at 1.
  unfold bind at 1. fold (turn w self).
  pose proof (loop_total targets (set_links ∅ s)) as Htot.
  destruct (for_each targets (turn w self) (set_links ∅ s)) as [[[]|e] s1];
    simpl in Htot; [|discriminate].
  done.
Qed.

Lemma discovered_nothing targets (m : gmap string (list string)) :
  (∀ target, org_links w self target = []) →
  discovered w self targets m = m.
Proof.
  intros Hnone. revert m.
  induction targets as [|it targets IH]; intros m; [done|].
  by rewrite discovered_cons, Hnone, IH.
Qed.

Lemma collected_prefix links rest :
  collected ((Some <$> links) ++ None :: rest) = links.
Proof.
  induction links as [|l links IH]; [done|].
  rewrite fmap_cons. simpl. by f_equal.
Qed.

End discovery.

(** C4, as stated, fails: with a sort order that [sort_map] does not know,
    [crawl_dataset_links] does not raise.  The [ValueError] of
    [_get_related_links] is caught by the [try] of the loop, and the (empty)
    map is still dumped. *)
Lemma invalid_sort_method_does_not_abort :
  sort_map !! sort_method Demo.misconfigured = None
  ∧ ¬ (∃ e, (crawl_dataset_links Demo.the_web Demo.misconfigured Demo.targets
               initial_state).1 = Raise e)
  ∧ json_files
      (crawl_dataset_links Demo.the_web Demo.misconfigured Demo.targets
         initial_state).2
    = [("result/huggingface/hugging_face_organization_datasets_links.json",
        ∅)].
Proof.
  split; [done|]. split; [|by vm_compute].
  intros [e He]. vm_compute in He. discriminate.
Qed.

(** C4, amended: with a sort order that [sort_map] does not know, the
    [ValueError] is raised once per organization with a non-empty target and
    handled by the loop as a per-organization error (it is logged for that
    organization); the run returns normally, no link is enumerated, and the
    empty map is dumped once. *)
Theorem invalid_sort_method_is_per_organization w self targets s :
  sort_map !! sort_method self = None →
  let final := crawl_dataset_links w self targets s in
  final.1 = Ok tt
  ∧ organization_datasets_links final.2 = ∅
  ∧ json_files final.2 = json_files s ++ [(links_file self, ∅)]
  ∧ ∀ index target,
      (index, Some target) ∈ targets → target ≠ "" →
      ErrorCrawling (ValueError "Invalid sort_method.") index ∈ log final.2.
Proof.
  intros Hsort final. unfold final. rewrite crawl_dataset_links_run. simpl.
  assert (organization_datasets_links
            (for_each targets (turn w self) (set_links ∅ s)).2 = ∅) as Hl.
  { rewrite loop_links. apply discovered_nothing. intros [t|]; [|done].
    unfold org_links. rewrite Hsort. by destruct (String.eqb t ""). }
  rewrite Hl. split; [done|]. split; [done|]. split.
  - by destruct (loop_frame w self targets (set_links ∅ s)) as [-> _].
  - intros index target Hin Hne.
    apply (loop_logs_error w self targets index (Some target) _ s); [done|].
    unfold crawl_organization_try, _get_related_links.
    apply String.eqb_neq in Hne as ->. run. by rewrite Hsort.
Qed.

Lemma invalid_sort_method_is_per_organization_witness :
  let final :=
    crawl_dataset_links Demo.the_web Demo.misconfigured Demo.targets
      initial_state in
  final.1 = Ok tt
  ∧ organization_datasets_links final.2 = ∅
  ∧ json_files final.2
    = json_files initial_state ++ [(links_file Demo.misconfigured, ∅)]
  ∧ ∀ index target,
      (index, Some target) ∈ Demo.targets → target ≠ "" →
      ErrorCrawling (ValueError "Invalid sort_method.") index ∈ log final.2.
Proof.
  apply (invalid_sort_method_is_per_organization Demo.the_web Demo.misconfigured
           Demo.targets initial_state).
  reflexivity.
Defined.

(** C8: an exception raised by the body of the [try] for one organization
    is caught and logged for that organization; the run returns normally,
    every later organization is attempted, the entry of the map for a later
    organization is what its own enumeration yields, and the map is dumped
    once, after the loop. *)
Theorem discovery_continues_past_failure w self pre index target post s s0 e :
  NoDup (pre ++ (index, target) :: post).*1 →
  (crawl_organization_try w self index target s0).1 = Raise e →
  let final :=
    crawl_dataset_links w self (pre ++ (index, target) :: post) s in
  final.1 = Ok tt
  ∧ ErrorCrawling e index ∈ log final.2
  ∧ (∀ index' target',
       (index', Some target') ∈ post → target' ≠ "" →
       InfoScrawling index' target' ∈ log final.2)
  ∧ (∀ index' target',
       (index', target') ∈ post →
       organization_datasets_links final.2 !! index'
       = organization_datasets_links
           (crawl_organization_try w self index' target'
              (set_links ∅ s0)).2 !! index')
  ∧ json_files final.2
    = json_files s ++ [(links_file self, organization_datasets_links final.2)].
Proof.
  intros Hnd He final. unfold final. rewrite crawl_dataset_links_run. simpl.
  split; [done|]. split.
  { apply (loop_logs_error w self _ index target _ s0); [|done].
    apply elem_of_app. right. apply elem_of_cons. by left. }
  split.
  { intros index' target' Hin Hne. apply loop_logs_attempt; [|done].
    apply elem_of_app. right. apply elem_of_cons. by right. }
  split.
  { intros index' target' Hin. rewrite loop_links, crawl_try_links. simpl.
    rewrite (discovered_lookup w self _ index' target'); [|done| |done].
    - rewrite append_links_lookup, decide_True by done.
      by destruct (org_links w self target').
    - apply elem_of_app. right. apply elem_of_cons. by right. }
  by destruct (loop_frame w self (pre ++ (index, target) :: post)
                 (set_links ∅ s)) as [-> _].
Qed.

Lemma discovery_continues_past_failure_witness :
  let final := crawl_dataset_links Demo.the_web Demo.me Demo.targets initial_state in
  final.1 = Ok tt
  ∧ ErrorCrawling WebDriverException "bad" ∈ log final.2
  ∧ organization_datasets_links final.2 !! "good"
    = Some ["https://huggingface.co/datasets/good/a";
            "https://huggingface.co/datasets/good/b"]
  ∧ json_files final.2
    = [(links_file Demo.me, organization_datasets_links final.2)].
Proof.
  assert (NoDup Demo.targets.*1) as Hnd.
  { apply (bool_decide_unpack _). by vm_compute. }
  destruct (discovery_continues_past_failure Demo.the_web Demo.me []
              "bad" (Some "https://huggingface.co/bad")
              [("partial", Some "https://huggingface.co/partial");
               ("good", Some "https://huggingface.co/good")]
              initial_state initial_state WebDriverException Hnd)
    as (Hok & Hlog & _ & Hlinks & Hjson); [reflexivity|].
  split; [exact Hok|]. split; [exact Hlog|]. split; [|exact Hjson].
  etrans; [|reflexivity].
  apply (Hlinks "good" (Some "https://huggingface.co/good")).
  apply elem_of_cons. right. apply elem_of_cons. by left.
Defined.

(** C9: when a card without an anchor makes the enumeration of an
    organization raise after some links were read, the links read so far
    stay under that organization in the map that is dumped. *)
Theorem partial_links_remain w self targets index target sort d links rest s :
  NoDup targets.*1 →
  (index, Some target) ∈ targets →
  target ≠ "" →
  sort_map !! sort_method self = Some sort →
  load w (target +:+ "?sort_datasets=" +:+ sort +:+ "#datasets") = Some d →
  dataset_items d = (Some <$> links) ++ None :: rest →
  links ≠ [] →
  let final := crawl_dataset_links w self targets s in
  (crawl_organization_try w self index (Some target) s).1
  = Raise NoSuchElementException
  ∧ ErrorCrawling NoSuchElementException index ∈ log final.2
  ∧ organization_datasets_links final.2 !! index = Some links
  ∧ json_files final.2
    = json_files s ++ [(links_file self, organization_datasets_links final.2)].
Proof.
  intros Hnd Hin Hne Hsort Hload Hitems Hlinks final.
  assert ((crawl_organization_try w self index (Some target) s).1
          = Raise NoSuchElementException) as Hraise.
  { unfold crawl_organization_try, _get_related_links.
    apply String.eqb_neq in Hne as ->. run. rewrite Hsort. simpl.
    rewrite Hload. simpl.
    destruct (expand_all_button d); simpl; rewrite collect_loop_outcome;
      rewrite Hitems, forallb_app; simpl; by rewrite andb_false_r. }
  split; [done|]. unfold final. rewrite crawl_dataset_links_run. simpl.
  split. { by apply (loop_logs_error w self targets index (Some target) _ s). }
  split.
  - rewrite loop_links.
    rewrite (discovered_lookup w self _ index (Some target)) by done.
    unfold org_links. apply String.eqb_neq in Hne as ->.
    rewrite Hsort, Hload, Hitems, collected_prefix. by destruct links.
  - by destruct (loop_frame w self targets (set_links ∅ s)) as [-> _].
Qed.

Lemma partial_links_remain_witness :
  let final := crawl_dataset_links Demo.the_web Demo.me Demo.targets initial_state in
  (crawl_organization_try Demo.the_web Demo.me "partial"
     (Some "https://huggingface.co/partial") initial_state).1
  = Raise NoSuchElementException
  ∧ ErrorCrawling NoSuchElementException "partial" ∈ log final.2
  ∧ organization_datasets_links final.2 !! "partial"
    = Some ["https://huggingface.co/datasets/partial/x"]
  ∧ json_files final.2
    = json_files initial_state
      ++ [(links_file Demo.me, organization_datasets_links final.2)].
Proof.
  apply (partial_links_remain Demo.the_web Demo.me Demo.targets "partial"
           "https://huggingface.co/partial" "downloads"
           (Demo.listing [Some "https://huggingface.co/datasets/partial/x";
                          None;
                          Some "https://huggingface.co/datasets/partial/z"])
           ["https://huggingface.co/datasets/partial/x"]
           [Some "https://huggingface.co/datasets/partial/z"]).
  - apply (bool_decide_unpack _). by vm_compute.
  - apply elem_of_cons. right. apply elem_of_cons. by left.
  - discriminate.
  - reflexivity.
  - reflexivity.
  - reflexivity.
  - discriminate.
Defined.

(** ** The store *)

Lemma record_of_put o n r s : record_of o n (put_record o n r s) = Some r.
Proof.
  unfold record_of, put_record. simpl.
  by rewrite lookup_insert_eq, lookup_insert_eq.
Qed.

Lemma record_of_put_other o n o' n' r s :
  (o', n') ≠ (o, n) →
  record_of o' n' (put_record o n r s) = record_of o' n' s.
Proof.
  intros Hne. unfold record_of, put_record. simpl.
  destruct (decide (o = o')) as [<-|Ho].
  - rewrite lookup_insert_eq.
    rewrite lookup_insert_ne by congruence.
    by destruct (dataset_details s !! o).
  - by rewrite lookup_insert_ne.
Qed.

Lemma put_record_put o n r1 r2 s :
  put_record o n r2 (put_record o n r1 s) = put_record o n r2 s.
Proof.
  unfold put_record, set_details. simpl. f_equal.
  rewrite lookup_insert_eq. simpl.
  by rewrite insert_insert_eq, insert_insert_eq.
Qed.

Lemma setitem_ok o n key v s r :
  record_of o n s = Some r →
  setitem o n key v s = (Ok tt, put_record o n (<[key := v]> r) s).
Proof.
  unfold record_of, setitem, put_record.
  destruct (dataset_details s !! o) as [datasets|]; [|done].
  simpl. by intros ->.
Qed.

Lemma setitem_raise o n key v s :
  record_of o n s = None → setitem o n key v s = (Raise KeyError, s).
Proof.
  unfold record_of, setitem.
  destruct (dataset_details s !! o) as [datasets|]; [|done].
  by intros ->.
Qed.

Lemma setitem_ok_inv o n key v s s' :
  setitem o n key v s = (Ok tt, s') →
  ∃ r, record_of o n s = Some r ∧ s' = put_record o n (<[key := v]> r) s.
Proof.
  destruct (record_of o n s) as [r|] eqn:Hr.
  - rewrite (setitem_ok _ _ _ _ _ _ Hr). intros [= <-]. eauto.
  - by rewrite (setitem_raise _ _ _ _ _ Hr).
Qed.

Lemma reset_record_ok_inv o n s s' :
  reset_record o n s = (Ok tt, s') → s' = put_record o n ∅ s.
Proof.
  unfold reset_record, put_record.
  destruct (dataset_details s !! o) as [datasets|]; [|done].
  by intros [= <-].
Qed.

Lemma ensure_entry_record o n s :
  is_Some (record_of o n (ensure_entry o n s)).
Proof.
  unfold record_of, ensure_entry. simpl. rewrite lookup_insert_eq.
  destruct (dataset_details s !! o) as [datasets|] eqn:Ho.
  - rewrite Ho. simpl. destruct (datasets !! n) eqn:Hn.
    + rewrite Hn. eauto.
    + rewrite lookup_insert_eq. eauto.
  - rewrite lookup_insert_eq. simpl. rewrite lookup_empty.
    rewrite lookup_insert_eq. eauto.
Qed.

(** ** What the methods leave untouched *)

Section frame.

Context {B : Type} (f : state → B).

Lemma keeps_ret {A} (a : A) : keeps f (ret a).
Proof. done. Qed.

Lemma keeps_raise {A} e : keeps f (raise (A := A) e).
Proof. done. Qed.

Lemma keeps_or_raise {A} e (o : option A) : keeps f (or_raise e o).
Proof. by destruct o. Qed.

Lemma keeps_bind {A C} (m : M state A) (k : A → M state C) :
  keeps f m → (∀ a, keeps f (k a)) → keeps f (bind m k).
Proof.
  intros Hm Hk s. unfold bind. specialize (Hm s).
  destruct (m s) as [[a|e] s1]; simpl in *; [|done].
  by rewrite Hk.
Qed.

Lemma keeps_try_except {A} (m : M state A) (h : exn → M state A) :
  keeps f m → (∀ e, keeps f (h e)) → keeps f (try_except m h).
Proof.
  intros Hm Hh s. unfold try_except. specialize (Hm s).
  destruct (m s) as [[a|e] s1]; simpl in *; [done|].
  by rewrite Hh.
Qed.

Lemma keeps_for_each {A} (l : list A) (body : A → M state unit) :
  (∀ x, keeps f (body x)) → keeps f (for_each l body).
Proof.
  intros Hbody. induction l as [|x l IH]; simpl; [done|].
  apply keeps_bind; auto.
Qed.

Lemma keeps_read {A} (g : state → A) : keeps f (λ s, (Ok (g s), s)).
Proof. done. Qed.

End frame.

Create HintDb frame.
#[local] Hint Resolve keeps_ret keeps_raise keeps_or_raise keeps_bind
  keeps_try_except keeps_for_each keeps_read : frame.

(** ** Record extraction *)

Section extraction.

Variable clean_text : string → string.
Variable w : web.
Variable self : HuggingfaceCrawler.

(** The loop over the tag blocks reads the page and nothing else. *)
Lemma tags_loop_pure divs m a s :
  tags_loop clean_text divs m a s
  = ((tags_loop clean_text divs m a initial_state).1, s).
Proof.
  revert m a. induction divs as [|div divs IH]; intros m a; [done|].
  simpl. unfold bind, or_raise. destruct (span_text div) as [span|]; [|done].
  unfold ret. apply IH.
Qed.

Lemma agrees_refl o n s r : record_of o n s = Some r → agrees o n s r s.
Proof. by intros Hr. Qed.

Lemma agrees_log o n s r s1 e :
  agrees o n s r s1 → agrees o n s r (add_log e s1).
Proof. by intros (? & ? & ? & ? & ?). Qed.

Lemma agrees_setitem o n s r s1 key v :
  agrees o n s r s1 →
  ∃ s2, setitem o n key v s1 = (Ok tt, s2) ∧ agrees o n s (<[key := v]> r) s2.
Proof.
  intros (Hr & Hd & He & Hs & Hothers). eexists. split.
  { by apply setitem_ok. }
  split; [apply record_of_put|]. repeat split; [done..|].
  intros o' n' Hne. rewrite record_of_put_other by done. by apply Hothers.
Qed.

Lemma crawl_related_agrees o n s r s1 :
  agrees o n s r s1 →
  ∃ s2, _crawl_related_models_or_collections clean_text n o s1 = (Ok tt, s2)
        ∧ agrees o n s
            (<["related_models_collections" :=
                 VRelated (crawl_related_try clean_text (driver s) ∅).2]> r)
            s2.
Proof.
  intros Hag. unfold _crawl_related_models_or_collections.
  destruct Hag as (Hr & Hd & Hrest). rewrite Hd.
  destruct (crawl_related_try clean_text (driver s) ∅) as [[[]|e] result];
    simpl; unfold bind, ret, logging, modify.
  - apply agrees_setitem. by split.
  - apply agrees_setitem. apply agrees_log. by split.
Qed.

(** The run of [_extract_related_data] on a page whose counters and tag
    blocks can be read. *)
Lemma extract_related_data_run name org s r0 dc c l m a :
  record_of org name s = Some r0 →
  download_count (driver s) = Some dc →
  community (driver s) = Some c →
  like (driver s) = Some l →
  (tags_loop clean_text (tags_info (driver s)) ∅ "" initial_state).1
  = Ok (m, a) →
  ∃ s', _extract_related_data clean_text name org s = (Ok a, s')
        ∧ agrees org name s (extracted clean_text (driver s) dc c l m r0) s'.
Proof.
  intros Hr Hdc Hc Hl Htags. unfold _extract_related_data, extracted.
  rewrite (bind_ok _ _ s dc s) by (unfold find_element; by rewrite Hdc).
  rewrite (bind_ok _ _ s c s) by (unfold find_element; by rewrite Hc).
  rewrite (bind_ok _ _ s l s) by (unfold find_element; by rewrite Hl).
  rewrite (bind_ok _ _ s (tags_info (driver s)) s) by done.
  rewrite (bind_ok _ _ s (m, a) s) by (by rewrite tags_loop_pure, Htags).
  cbv beta.
  match goal with
  | |- context [try_except ?body ?h] =>
      assert (∃ s1, try_except body h s = (Ok tt, s1)
                    ∧ agrees org name s (with_data_info (driver s) r0) s1)
        as (s1 & Hstep1 & Hs1)
  end.
  { unfold try_except, bind, find_element, with_data_info, or_raise.
    destruct (data_info_div (driver s)) as [a_tags|]; unfold ret, raise.
    - destruct (agrees_setitem org name s r0 s "dataset_info"
                  (VDict (data_info_of a_tags)) (agrees_refl _ _ _ _ Hr))
        as (s1 & -> & Hs1).
      eexists. split; [reflexivity|]. by apply agrees_log.
    - eexists. split; [reflexivity|]. apply agrees_log. by apply agrees_refl. }
  rewrite (bind_ok _ _ _ _ _ Hstep1).
  rewrite (bind_ok _ _ s1 (dataset_panel (driver s1)) s1) by done.
  assert (driver s1 = driver s) as Hd1 by apply Hs1. rewrite Hd1.
  match goal with
  | |- context [bind ?step ?k s1] =>
      assert (∃ s2, step s1 = (Ok tt, s2)
                    ∧ agrees org name s
                        (with_panel (driver s) (with_data_info (driver s) r0))
                        s2) as (s2 & Hstep2 & Hs2)
  end.
  { unfold with_panel. destruct (dataset_panel (driver s)) as [text|].
    - by apply agrees_setitem.
    - eexists. split; [reflexivity|done]. }
  rewrite (bind_ok _ _ _ _ _ Hstep2).
  destruct (crawl_related_agrees _ _ _ _ _ Hs2) as (s3 & Hstep3 & Hs3).
  rewrite (bind_ok _ _ _ _ _ Hstep3).
  destruct (agrees_setitem _ _ _ _ _ "dataset_tags_info" (VDict m) Hs3)
    as (s4 & Hstep4 & Hs4).
  rewrite (bind_ok _ _ _ _ _ Hstep4).
  destruct (agrees_setitem _ _ _ _ _ "download_count_last_month" (VStr dc) Hs4)
    as (s5 & Hstep5 & Hs5).
  rewrite (bind_ok _ _ _ _ _ Hstep5).
  destruct (agrees_setitem _ _ _ _ _ "community"
              (VStr (counter clean_text "Community" c)) Hs5)
    as (s6 & Hstep6 & Hs6).
  rewrite (bind_ok _ _ _ _ _ Hstep6).
  destruct (agrees_setitem _ _ _ _ _ "like"
              (VStr (counter clean_text "Like" l)) Hs6)
    as (s7 & Hstep7 & Hs7).
  rewrite (bind_ok _ _ _ _ _ Hstep7).
  eexists. split; [reflexivity|done].
Qed.

(** Without an entry for the dataset, the first write that is not inside
    the inner [try] raises [KeyError]. *)
Lemma extract_related_data_no_entry name org s :
  record_of org name s = None →
  ∃ e s', _extract_related_data clean_text name org s = (Raise e, s').
Proof.
  intros Hr. unfold _extract_related_data.
  destruct (download_count (driver s)) as [dc|] eqn:Hdc.
  2:{ rewrite (bind_raise _ _ s NoSuchElementException s); [eauto|].
      unfold find_element. by rewrite Hdc. }
  rewrite (bind_ok _ _ s dc s) by (unfold find_element; by rewrite Hdc).
  destruct (community (driver s)) as [c|] eqn:Hc.
  2:{ rewrite (bind_raise _ _ s NoSuchElementException s); [eauto|].
      unfold find_element. by rewrite Hc. }
  rewrite (bind_ok _ _ s c s) by (unfold find_element; by rewrite Hc).
  destruct (like (driver s)) as [l|] eqn:Hl.
  2:{ rewrite (bind_raise _ _ s NoSuchElementException s); [eauto|].
      unfold find_element. by rewrite Hl. }
  rewrite (bind_ok _ _ s l s) by (unfold find_element; by rewrite Hl).
  rewrite (bind_ok _ _ s (tags_info (driver s)) s) by done.
  destruct (tags_loop clean_text (tags_info (driver s)) ∅ "" initial_state).1
    as [[m a]|e] eqn:Htags.
  2:{ rewrite (bind_raise _ _ s e s); [eauto|].
      by rewrite tags_loop_pure, Htags. }
  rewrite (bind_ok _ _ s (m, a) s) by (by rewrite tags_loop_pure, Htags).
  cbv beta.
  match goal with
  | |- context [try_except ?body ?h] =>
      assert (∃ s1, try_except body h s = (Ok tt, s1)
                    ∧ record_of org name s1 = None) as (s1 & Hstep1 & Hs1)
  end.
  { unfold try_except, bind, find_element, or_raise.
    destruct (data_info_div (driver s)) as [a_tags|]; unfold ret, raise.
    - rewrite setitem_raise by done. eauto.
    - eauto. }
  rewrite (bind_ok _ _ _ _ _ Hstep1).
  rewrite (bind_ok _ _ s1 (dataset_panel (driver s1)) s1) by done.
  destruct (dataset_panel (driver s1)) as [text|].
  { rewrite (bind_raise _ _ s1 KeyError s1); [eauto|].
    by apply setitem_raise. }
  rewrite (bind_ok _ _ s1 tt s1) by done.
  unfold bind at 1. unfold _crawl_related_models_or_collections.
  destruct (crawl_related_try clean_text (driver s1) ∅) as [[[]|e] result];
    unfold bind, ret, logging, modify; rewrite setitem_raise by done; eauto.
Qed.

(** What a normal return of [_extract_related_data] tells. *)
Lemma extract_related_data_inv name org s a s' :
  _extract_related_data clean_text name org s = (Ok a, s') →
  ∃ r0 dc c l m,
    record_of org name s = Some r0
    ∧ download_count (driver s) = Some dc
    ∧ community (driver s) = Some c
    ∧ like (driver s) = Some l
    ∧ (tags_loop clean_text (tags_info (driver s)) ∅ "" initial_state).1
      = Ok (m, a)
    ∧ agrees org name s (extracted clean_text (driver s) dc c l m r0) s'.
Proof.
  intros Hrun.
  destruct (record_of org name s) as [r0|] eqn:Hr.
  2:{ destruct (extract_related_data_no_entry name org s Hr) as (e & s1 & He).
      congruence. }
  destruct (download_count (driver s)) as [dc|] eqn:Hdc.
  2:{ unfold _extract_related_data in Hrun.
      rewrite (bind_raise _ _ s NoSuchElementException s) in Hrun; [done|].
      unfold find_element. by rewrite Hdc. }
  destruct (community (driver s)) as [c|] eqn:Hc.
  2:{ unfold _extract_related_data in Hrun.
      rewrite (bind_ok _ _ s dc s) in Hrun
        by (unfold find_element; by rewrite Hdc).
      rewrite (bind_raise _ _ s NoSuchElementException s) in Hrun; [done|].
      unfold find_element. by rewrite Hc. }
  destruct (like (driver s)) as [l|] eqn:Hl.
  2:{ unfold _extract_related_data in Hrun.
      rewrite (bind_ok _ _ s dc s) in Hrun
        by (unfold find_element; by rewrite Hdc).
      rewrite (bind_ok _ _ s c s) in Hrun
        by (unfold find_element; by rewrite Hc).
      rewrite (bind_raise _ _ s NoSuchElementException s) in Hrun; [done|].
      unfold find_element. by rewrite Hl. }
  destruct (tags_loop clean_text (tags_info (driver s)) ∅ "" initial_state).1
    as [[m a']|e] eqn:Htags.
  2:{ unfold _extract_related_data in Hrun.
      rewrite (bind_ok _ _ s dc s) in Hrun
        by (unfold find_element; by rewrite Hdc).
      rewrite (bind_ok _ _ s c s) in Hrun
        by (unfold find_element; by rewrite Hc).
      rewrite (bind_ok _ _ s l s) in Hrun
        by (unfold find_element; by rewrite Hl).
      rewrite (bind_ok _ _ s (tags_info (driver s)) s) in Hrun by done.
      rewrite (bind_raise _ _ s e s) in Hrun; [done|].
      by rewrite tags_loop_pure, Htags. }
  destruct (extract_related_data_run name org s r0 dc c l m a'
              Hr Hdc Hc Hl Htags) as (s1 & Hrun1 & Hag).
  rewrite Hrun1 in Hrun. simplify_eq. by exists r0, dc, c, l, m.
Qed.

(** The arxiv id kept by the loop over the tag blocks is that of the last
    block whose label matches; its key still maps to its value. *)
Lemma tags_loop_no_arxiv divs m0 a0 m a key :
  (tags_loop clean_text divs m0 a0 initial_state).1 = Ok (m, a) →
  existsb is_arxiv divs = false →
  Py.lower key = "arxiv" →
  a = a0 ∧ m !! key = m0 !! key.
Proof.
  revert m0 a0. induction divs as [|d divs IH]; intros m0 a0 Hrun Hno Hkey.
  { simpl in Hrun. by simplify_eq. }
  simpl in Hno. apply orb_false_iff in Hno as [Hd Hno].
  simpl in Hrun. unfold bind, or_raise in Hrun. unfold is_arxiv in Hd.
  destruct (span_text d) as [span|]; [|done].
  unfold ret in Hrun. rewrite tags_loop_pure in Hrun. simpl in Hrun.
  rewrite Hd in Hrun.
  destruct (IH _ _ Hrun Hno Hkey) as [-> ->]. split; [done|].
  apply lookup_insert_ne. intros Heq. rewrite Heq, Hkey in Hd.
  vm_compute in Hd. discriminate.
Qed.

Lemma tags_loop_arxiv divs m0 a0 m a :
  (tags_loop clean_text divs m0 a0 initial_state).1 = Ok (m, a) →
  existsb is_arxiv divs = true →
  ∃ pre d post span,
    divs = pre ++ d :: post
    ∧ span_text d = Some span
    ∧ Py.lower (tag_key span) = "arxiv"
    ∧ existsb is_arxiv post = false
    ∧ m !! tag_key span
      = Some (tag_value clean_text (tag_key span) (div_text d))
    ∧ a = arxiv_of_value clean_text
            (tag_value clean_text (tag_key span) (div_text d)).
Proof.
  revert m0 a0. induction divs as [|d divs IH]; intros m0 a0 Hrun Hex.
  { done. }
  simpl in Hrun. unfold bind, or_raise in Hrun.
  destruct (span_text d) as [span|] eqn:Hspan; [|done].
  unfold ret in Hrun. rewrite tags_loop_pure in Hrun. simpl in Hrun.
  destruct (existsb is_arxiv divs) eqn:Hrest.
  - destruct (IH _ _ Hrun eq_refl)
      as (pre & d' & post & span' & -> & Hs & Hk & Hp & Hm & Ha).
    exists (d :: pre), d', post, span'. by repeat split.
  - simpl in Hex. rewrite Hrest, orb_false_r in Hex.
    unfold is_arxiv in Hex. rewrite Hspan in Hex.
    apply String.eqb_eq in Hex as Hkey.
    rewrite Hex in Hrun.
    destruct (tags_loop_no_arxiv _ _ _ _ _ (tag_key span) Hrun Hrest Hkey)
      as [-> Hm].
    exists [], d, divs, span. repeat split; try done.
    rewrite Hm. apply lookup_insert_eq.
Qed.

End extraction.

(** C5: in the record [_extract_related_data] writes, "community" and "like"
    hold the counter text with the word "Community" (or "Like") removed and
    cleaned by [clean_text], and exactly "0" when nothing is left. *)
Theorem counters_stored clean_text name org s a s' :
  _extract_related_data clean_text name org s = (Ok a, s') →
  ∃ c l,
    community (driver s) = Some c
    ∧ like (driver s) = Some l
    ∧ field org name "community" s'
      = Some (VStr (if decide (clean_text (Py.replace "Community" "" c) = "")
                    then "0"
                    else clean_text (Py.replace "Community" "" c)))
    ∧ field org name "like" s'
      = Some (VStr (if decide (clean_text (Py.replace "Like" "" l) = "")
                    then "0"
                    else clean_text (Py.replace "Like" "" l))).
Proof.
  intros Hrun.
  destruct (extract_related_data_inv _ _ _ _ _ _ Hrun)
    as (r0 & dc & c & l & m & Hr & Hdc & Hc & Hl & Htags & Hag).
  destruct Hag as (Hrec & _).
  assert (∀ suffix text,
            counter clean_text suffix text
            = if decide (clean_text (Py.replace suffix "" text) = "") then "0"
              else clean_text (Py.replace suffix "" text)) as Hcounter.
  { intros suffix text. unfold counter, Py.truthy.
    destruct (String.eqb_spec (clean_text (Py.replace suffix "" text)) "");
      by case_decide. }
  exists c, l. split; [done|]. split; [done|].
  unfold field. rewrite Hrec. unfold extracted. split.
  - rewrite lookup_insert_ne by done. rewrite lookup_insert_eq.
    by rewrite Hcounter.
  - rewrite lookup_insert_eq. by rewrite Hcounter.
Qed.

Lemma counters_stored_witness :
  let s := Demo.at_page "https://huggingface.co/datasets/org/ds" "org" "ds" in
  let s' := (_extract_related_data clean_text_spec "ds" "org" s).2 in
  (∃ c l,
     community (driver s) = Some c
     ∧ like (driver s) = Some l
     ∧ field "org" "ds" "community" s'
       = Some (VStr (if decide (clean_text_spec
                                  (Py.replace "Community" "" c) = "")
                     then "0"
                     else clean_text_spec (Py.replace "Community" "" c)))
     ∧ field "org" "ds" "like" s'
       = Some (VStr (if decide (clean_text_spec (Py.replace "Like" "" l) = "")
                     then "0"
                     else clean_text_spec (Py.replace "Like" "" l))))
  ∧ community (driver s) = Some "Community 5"
  ∧ like (driver s) = Some "Like"
  ∧ field "org" "ds" "community" s' = Some (VStr "5")
  ∧ field "org" "ds" "like" s' = Some (VStr "0").
Proof.
  intros s s'. split.
  - apply (counters_stored clean_text_spec "ds" "org" s "2107.06499" s').
    apply (run_eq (_extract_related_data clean_text_spec "ds" "org" s)).
    vm_compute. reflexivity.
  - vm_compute. repeat split; reflexivity.
Defined.

(** C6: when some tag block of the page has a label that is "arxiv" up to
    case, the arxiv id returned is computed from the value stored for the
    last such block: the text after its last colon, cleaned, up to the first
    space.  With the whitespace normalisation of the spec for [clean_text]
    this is the first whitespace-separated token of that text. *)
Theorem arxiv_id_first_token clean_text name org s a s' :
  _extract_related_data clean_text name org s = (Ok a, s') →
  existsb is_arxiv (tags_info (driver s)) = true →
  ∃ pre d post span tags,
    tags_info (driver s) = pre ++ d :: post
    ∧ span_text d = Some span
    ∧ Py.lower (tag_key span) = "arxiv"
    ∧ existsb is_arxiv post = false
    ∧ field org name "dataset_tags_info" s' = Some (VDict tags)
    ∧ tags !! tag_key span
      = Some (tag_value clean_text (tag_key span) (div_text d))
    ∧ a = Py.first_part " "
            (clean_text
               (Py.last_part ":"
                  (tag_value clean_text (tag_key span) (div_text d))))
    ∧ ((∀ x, clean_text x = clean_text_spec x) →
       a = List.hd ""
             (Py.words
                (Py.last_part ":"
                   (tag_value clean_text (tag_key span) (div_text d))))).
Proof.
  intros Hrun Hex.
  destruct (extract_related_data_inv _ _ _ _ _ _ Hrun)
    as (r0 & dc & c & l & m & Hr & Hdc & Hc & Hl & Htags & Hag).
  destruct (tags_loop_arxiv _ _ _ _ _ _ Htags Hex)
    as (pre & d & post & span & Hdivs & Hspan & Hkey & Hpost & Hm & Ha).
  exists pre, d, post, span, m.
  split; [exact Hdivs|]. split; [exact Hspan|]. split; [exact Hkey|].
  split; [exact Hpost|]. split.
  { destruct Hag as (Hrec & _). unfold field. rewrite Hrec. unfold extracted.
    rewrite !lookup_insert_ne by discriminate. apply lookup_insert_eq. }
  split; [exact Hm|]. split; [exact Ha|].
  intros Hspec. rewrite Ha. unfold arxiv_of_value. rewrite Hspec.
  apply first_part_clean_text_spec.
Qed.

Lemma arxiv_id_first_token_witness :
  let s := Demo.at_page "https://huggingface.co/datasets/org/ds" "org" "ds" in
  let run := _extract_related_data clean_text_spec "ds" "org" s in
  run.1 = Ok "2107.06499"
  ∧ ∃ pre d post span tags,
      tags_info (driver s) = pre ++ d :: post
      ∧ span_text d = Some span
      ∧ Py.lower (tag_key span) = "arxiv"
      ∧ existsb is_arxiv post = false
      ∧ field "org" "ds" "dataset_tags_info" run.2 = Some (VDict tags)
      ∧ tags !! tag_key span
        = Some (tag_value clean_text_spec (tag_key span) (div_text d))
      ∧ "2107.06499"
        = Py.first_part " "
            (clean_text_spec
               (Py.last_part ":"
                  (tag_value clean_text_spec (tag_key span) (div_text d))))
      ∧ ((∀ x, clean_text_spec x = clean_text_spec x) →
         "2107.06499"
         = List.hd ""
             (Py.words
                (Py.last_part ":"
                   (tag_value clean_text_spec (tag_key span) (div_text d))))).
Proof.
  intros s run. split; [vm_compute; reflexivity|].
  apply (arxiv_id_first_token clean_text_spec "ds" "org" s "2107.06499" run.2).
  - apply (run_eq run). vm_compute. reflexivity.
  - vm_compute. reflexivity.
Defined.

Example arxiv_of_two_ids :
  arxiv_of_value clean_text_spec "2107.06499 2107.99999" = "2107.06499".
Proof. reflexivity. Qed.

Example license_tag :
  tag_key "License:" = "License"
  ∧ tag_value clean_text_spec "License" "License: cc-by-4.0" = "cc-by-4.0".
Proof. split; reflexivity. Qed.

(** ** Items of the related models and collections *)

Lemma set_header_ok sub_title header
    (result : gmap string (gmap string (gmap string string))) bucket :
  result !! sub_title = Some bucket →
  set_header sub_title header result
  = (Ok tt, <[sub_title := <[header := ∅]> bucket]> result).
Proof. unfold set_header. by intros ->. Qed.

Lemma set_detail_ok sub_title header key v
    (result : gmap string (gmap string (gmap string string))) bucket item :
  set_detail sub_title header key v
    (<[sub_title := <[header := item]> bucket]> result)
  = (Ok tt, <[sub_title := <[header := <[key := v]> item]> bucket]> result).
Proof.
  unfold set_detail. rewrite lookup_insert_eq, lookup_insert_eq.
  by rewrite insert_insert_eq, insert_insert_eq.
Qed.

(** Every link handed to [_extract_models_or_collections_items] has its
    href: [find_all('a', href=True)] selects on it. *)
Lemma find_all_a_href_attr sibling a_tag :
  a_tag ∈ Soup.find_all_a_href sibling → is_Some (Soup.attr "href" a_tag).
Proof.
  unfold Soup.find_all_a_href. rewrite list_elem_of_In.
  intros [_ Ha]%filter_In. apply andb_true_iff in Ha as [_ Ha].
  by apply bool_decide_eq_true in Ha.
Qed.

(** C7, as stated, fails: the link under "Collection" holds a block nested
    two levels deep, but it has no header, so its key is "expand" and its
    item is an "other" item, without "href" and "text". *)
Lemma nested_link_without_header_is_other :
  let a_tag :=
    Soup.NTag "a" [("href", "/collections/org/c")]
      [Soup.NTag "div" [] [Soup.NTag "div" [] [Soup.NText "nested"]]] in
  let result :=
    (extract_item clean_text_spec "Collection" a_tag {["Collection" := ∅]}).2 in
  nested_div a_tag = Some (Soup.NTag "div" [] [Soup.NText "nested"])
  ∧ header_of clean_text_spec a_tag = "expand"
  ∧ detail result "Collection" "expand" "other" = Some "nested"
  ∧ detail result "Collection" "expand" "href" = None
  ∧ detail result "Collection" "expand" "text" = None.
Proof. intros a_tag result. vm_compute. repeat split; reflexivity. Qed.

(** C7, amended: a link without a header has the key "expand".  A link
    whose key is not "expand" and whose first [div] holds a [div] yields
    [{href, text}], with the text of that inner [div]; every other link,
    among them every link keyed "expand", yields [{other}] with its own
    cleaned text, quotes removed. *)
Theorem related_item_shape clean_text sub_title a_tag
    (result : gmap string (gmap string (gmap string string))) bucket href :
  result !! sub_title = Some bucket →
  Soup.attr "href" a_tag = Some href →
  (Soup.find "header" a_tag = None → header_of clean_text a_tag = "expand")
  ∧ (∀ inner,
       header_of clean_text a_tag ≠ "expand" →
       nested_div a_tag = Some inner →
       extract_item clean_text sub_title a_tag result
       = (Ok tt,
          <[sub_title :=
              <[header_of clean_text a_tag :=
                  <["text" := clean_text (Soup.text inner)]>
                    (<["href" := href]> ∅)]> bucket]> result))
  ∧ (header_of clean_text a_tag = "expand" ∨ nested_div a_tag = None →
     extract_item clean_text sub_title a_tag result
     = (Ok tt,
        <[sub_title :=
            <[header_of clean_text a_tag :=
                <["other" :=
                    Py.replace Py.squote ""
                      (Py.replace Py.dquote ""
                         (clean_text (Soup.text a_tag)))]> ∅]> bucket]>
          result)).
Proof.
  intros Hbucket Hhref. split; [|split].
  - unfold header_of. by intros ->.
  - intros inner Hheader Hnested. unfold extract_item.
    rewrite (bind_ok _ _ _ _ _ (set_header_ok _ _ _ _ Hbucket)).
    apply String.eqb_neq in Hheader as ->. rewrite Hnested, Hhref.
    cbn [negb]. cbv iota.
    rewrite (bind_ok _ _ _ href
               (<[sub_title := <[header_of clean_text a_tag := ∅]> bucket]>
                  result)) by done.
    rewrite (bind_ok _ _ _ _ _ (set_detail_ok _ _ _ _ _ _ _)).
    apply set_detail_ok.
  - intros Hother. unfold extract_item.
    rewrite (bind_ok _ _ _ _ _ (set_header_ok _ _ _ _ Hbucket)).
    assert ((if negb (String.eqb (header_of clean_text a_tag) "expand")
             then nested_div a_tag else None) = None) as ->.
    { destruct Hother as [-> | ->]; [done|]. by destruct (negb _). }
    apply set_detail_ok.
Qed.

Lemma related_item_shape_witness :
  let model :=
    Soup.NTag "a" [("href", "/org/model-a")]
      [Soup.NTag "div" []
         [Soup.NTag "header" [] [Soup.NText "org/model-a"];
          Soup.NTag "div" [] [Soup.NText "Text Generation"]]] in
  extract_item clean_text_spec "Models" model {["Models" := ∅]}
  = (Ok tt,
     <["Models" :=
         <[header_of clean_text_spec model :=
             <["text" := clean_text_spec
                           (Soup.text
                              (Soup.NTag "div" []
                                 [Soup.NText "Text Generation"]))]>
               (<["href" := "/org/model-a"]> ∅)]> ∅]> {["Models" := ∅]}).
Proof.
  intros model.
  apply (related_item_shape clean_text_spec "Models" model
           {["Models" := ∅]} ∅ "/org/model-a").
  - reflexivity.
  - reflexivity.
  - by vm_compute.
  - reflexivity.
Defined.

(** ** One link of [_get_all_link_data] *)

Section link.

Variable clean_text : string → string.
Variable w : web.
Variable self : HuggingfaceCrawler.

Lemma keeps_logging e : keeps exception_links (logging e).
Proof. done. Qed.

Lemma keeps_setitem o n key v : keeps exception_links (setitem o n key v).
Proof.
  intros s. unfold setitem.
  destruct (dataset_details s !! o) as [datasets|]; [|done].
  by destruct (datasets !! n).
Qed.

Lemma keeps_reset_record o n : keeps exception_links (reset_record o n).
Proof.
  intros s. unfold reset_record.
  by destruct (dataset_details s !! o).
Qed.

Lemma keeps_driver_get url : keeps exception_links (driver_get w url).
Proof. intros s. unfold driver_get. by destruct (load w url). Qed.

Lemma keeps_save_screenshot path :
  keeps exception_links (save_screenshot w path).
Proof. intros s. unfold save_screenshot. by destruct (capture w path). Qed.

Lemma keeps_find_element {A} (query : document → option A) :
  keeps exception_links (find_element query).
Proof. intros s. unfold find_element. by destruct (query (driver s)). Qed.

Lemma keeps_tags_loop divs m a :
  keeps exception_links (tags_loop clean_text divs m a).
Proof. intros s. by rewrite tags_loop_pure. Qed.

Lemma keeps_crawl_related n o :
  keeps exception_links (_crawl_related_models_or_collections clean_text n o).
Proof.
  intros s. unfold _crawl_related_models_or_collections.
  destruct (crawl_related_try clean_text (driver s) ∅) as [[[]|e] result].
  - apply (keeps_bind exception_links); [done|]. intros _.
    apply keeps_setitem.
  - apply (keeps_bind exception_links); [done|]. intros _.
    apply keeps_setitem.
Qed.

#[local] Hint Resolve keeps_logging keeps_setitem keeps_reset_record
  keeps_driver_get keeps_save_screenshot keeps_find_element keeps_tags_loop
  keeps_crawl_related : frame.

Lemma keeps_extract n o :
  keeps exception_links (_extract_related_data clean_text n o).
Proof.
  unfold _extract_related_data.
  do 6 (apply keeps_bind; [auto 6 with frame|intro]).
  apply keeps_bind; [auto with frame|intro panel].
  apply keeps_bind; [destruct panel; auto with frame|intro].
  auto 10 with frame.
Qed.

Lemma keeps_fill_form form : keeps exception_links (fill_form form).
Proof.
  unfold fill_form. apply keeps_bind.
  - apply keeps_for_each. intros []; auto with frame.
  - intro. destruct (submit_button form); auto with frame.
Qed.

Lemma keeps_ensure_entry o n :
  keeps exception_links (modify (ensure_entry o n)).
Proof. done. Qed.

#[local] Hint Resolve keeps_extract keeps_fill_form keeps_ensure_entry : frame.

(** The [try] body for a link never touches the list of failed links. *)
Lemma keeps_crawl_link link :
  keeps exception_links (crawl_link clean_text w self link).
Proof.
  unfold crawl_link.
  do 2 (apply keeps_bind; [auto with frame|intro]).
  apply keeps_bind; [auto with frame|intro form].
  apply keeps_bind; [destruct form; auto with frame|intro].
  do 4 (apply keeps_bind; [auto with frame|intro]).
  apply keeps_bind; [auto with frame|intro arxiv_id].
  apply keeps_bind; [|intro; auto 10 with frame].
  destruct (Py.truthy arxiv_id); auto 6 with frame.
Qed.

Lemma or_raise_ok_inv {S A} e (o : option A) (s s' : S) a :
  or_raise e o s = (Ok a, s') → o = Some a ∧ s' = s.
Proof. destruct o; [|done]. by intros [= -> ->]. Qed.

(** What a completed crawl of a link leaves in the store. *)
Lemma crawl_link_inv link s s' :
  crawl_link clean_text w self link s = (Ok tt, s') →
  ∃ organization dataset_name arxiv_id,
    Py.index_neg (Py.split "/" link) 2 = Some organization
    ∧ Py.index_neg (Py.split "/" link) 1 = Some dataset_name
    ∧ record_of organization dataset_name s'
      = Some (stored self link dataset_name arxiv_id)
    ∧ exception_links s' = exception_links s.
Proof.
  intros Hrun.
  pose proof (keeps_crawl_link link s) as Hkeep. rewrite Hrun in Hkeep.
  unfold crawl_link in Hrun.
  apply bind_ok_inv in Hrun as (? & s1 & _ & Hrun).
  apply bind_ok_inv in Hrun as (? & s2 & _ & Hrun).
  apply bind_ok_inv in Hrun as (form & s3 & _ & Hrun).
  apply bind_ok_inv in Hrun as (? & s4 & _ & Hrun).
  apply bind_ok_inv in Hrun as (organization & s5 & Horg & Hrun).
  apply bind_ok_inv in Hrun as (dataset_name & s6 & Hname & Hrun).
  apply bind_ok_inv in Hrun as (? & s7 & _ & Hrun).
  apply bind_ok_inv in Hrun as (? & s8 & _ & Hrun).
  apply bind_ok_inv in Hrun as (arxiv_id & s9 & _ & Hrun).
  apply bind_ok_inv in Hrun as (? & s10 & _ & Hrun).
  apply bind_ok_inv in Hrun as ([] & s11 & Hreset & Hrun).
  apply bind_ok_inv in Hrun as ([] & s12 & Hlink & Hrun).
  apply bind_ok_inv in Hrun as ([] & s13 & Hpaper & Hrun).
  apply or_raise_ok_inv in Horg as [Horg _].
  apply or_raise_ok_inv in Hname as [Hname _].
  apply reset_record_ok_inv in Hreset as ->.
  apply setitem_ok_inv in Hlink as (r1 & Hr1 & ->).
  rewrite record_of_put in Hr1. apply (inj Some) in Hr1 as <-.
  apply setitem_ok_inv in Hpaper as (r2 & Hr2 & ->).
  rewrite record_of_put in Hr2. apply (inj Some) in Hr2 as <-.
  apply setitem_ok_inv in Hrun as (r3 & Hr3 & ->).
  rewrite record_of_put in Hr3. apply (inj Some) in Hr3 as <-.
  exists organization, dataset_name, arxiv_id.
  split; [done|]. split; [done|]. split; [|done].
  apply record_of_put.
Qed.

(** One turn of the loop never raises, and appends the link exactly when
    the body of its [try] raised. *)
Lemma process_link_ok link s s1 :
  crawl_link clean_text w self link s = (Ok tt, s1) →
  process_link clean_text w self link s = (Ok tt, s1).
Proof. unfold process_link, try_except. by intros ->. Qed.

Lemma process_link_raise link s e s1 :
  crawl_link clean_text w self link s = (Raise e, s1) →
  (process_link clean_text w self link s).1 = Ok tt
  ∧ exception_links (process_link clean_text w self link s).2
    = exception_links s ++ [link]
  ∧ dataset_details (process_link clean_text w self link s).2
    = dataset_details s1.
Proof.
  intros Hrun. pose proof (keeps_crawl_link link s) as Hkeep.
  unfold process_link, try_except. rewrite Hrun in *. simpl in *.
  by rewrite Hkeep.
Qed.

(** The loop of [_get_all_link_data] never raises: every link is tried. *)
Lemma link_loop_total links s :
  (for_each links (process_link clean_text w self) s).1 = Ok tt.
Proof.
  apply for_each_total. intros link s1.
  destruct (crawl_link clean_text w self link s1) as [[[]|e] s2] eqn:Hrun.
  - by rewrite (process_link_ok _ _ _ Hrun).
  - by destruct (process_link_raise _ _ _ _ Hrun) as [-> _].
Qed.

End link.

(** C1, as stated, fails: the paper of this link cannot be loaded, so the
    link goes to the list of failed links, and yet the entry of the dataset
    stays in the output with the fields written before the exception. *)
Lemma failed_link_keeps_its_record :
  let link := "https://huggingface.co/datasets/org/paper" in
  let run := process_link clean_text_spec Demo.the_web Demo.me link
               initial_state in
  exception_links run.2 = [link]
  ∧ field "org" "paper" "community" run.2 = Some (VStr "5")
  ∧ field "org" "paper" "like" run.2 = Some (VStr "0")
  ∧ field "org" "paper" "download_count_last_month" run.2
    = Some (VStr "1,234")
  ∧ ¬ (is_Some (record_of "org" "paper" run.2)
       ↔ ¬ link ∈ exception_links run.2).
Proof.
  intros link run.
  assert (exception_links run.2 = [link]) as Hlinks
    by (vm_compute; reflexivity).
  assert (field "org" "paper" "community" run.2 = Some (VStr "5"))
    as Hcommunity by (vm_compute; reflexivity).
  split; [exact Hlinks|]. split; [exact Hcommunity|].
  split; [vm_compute; reflexivity|]. split; [vm_compute; reflexivity|].
  intros [Hrecord _]. apply Hrecord.
  - unfold field in Hcommunity.
    destruct (record_of "org" "paper" run.2); [eauto|discriminate].
  - rewrite Hlinks. apply list_elem_of_singleton. done.
Qed.

(** C1, amended: a turn of the loop ends in exactly one of two ways.  The
    crawl of the link completes: the record with the link and the two
    screenshot paths is stored under the organization and the name read
    from the URL, and the list of failed links is as before.  Or the link
    is appended to that list. *)
Theorem link_is_stored_or_appended clean_text w self link s :
  let run := process_link clean_text w self link s in
  run.1 = Ok tt
  ∧ (crawled self link s run.2 ∨ appended link s run.2)
  ∧ ¬ (crawled self link s run.2 ∧ appended link s run.2).
Proof.
  intros run.
  assert (¬ (crawled self link s run.2 ∧ appended link s run.2)) as Hexcl.
  { intros [(o & n & p & _ & _ & _ & _ & _ & Hsame) Happ].
    unfold appended in Happ. rewrite Hsame in Happ.
    apply (f_equal length) in Happ. rewrite length_app in Happ.
    simpl in Happ. lia. }
  destruct (crawl_link clean_text w self link s) as [[[]|e] s1] eqn:Hrun.
  - assert (run = (Ok tt, s1)) as Hp by (by apply process_link_ok).
    destruct (crawl_link_inv _ _ _ _ _ _ Hrun)
      as (o & n & arxiv_id & Ho & Hn & Hrec & Hex).
    split; [by rewrite Hp|]. split; [|done]. left.
    exists o, n,
      (if Py.truthy arxiv_id then paper_screenshot self n else "").
    rewrite Hp. simpl. unfold field. rewrite Hrec. unfold stored.
    split; [done|]. split; [done|]. split.
    { by rewrite !lookup_insert_ne by discriminate; rewrite lookup_insert_eq. }
    split; [by rewrite lookup_insert_eq|]. split; [|done].
    by rewrite lookup_insert_ne by discriminate; rewrite lookup_insert_eq.
  - destruct (process_link_raise _ _ _ _ _ _ _ Hrun) as (Hok & Happ & _).
    split; [done|]. split; [|done]. by right.
Qed.

(** C2 fails on the code: the crawl of this link completes, extraction
    wrote the tags, the counters and the related artifacts into the record,
    and the record stored in the end holds the link and the two paths
    only. *)
Lemma extracted_fields_are_dropped :
  let link := "https://huggingface.co/datasets/org/ds" in
  let extraction :=
    _extract_related_data clean_text_spec "ds" "org"
      (Demo.at_page link "org" "ds") in
  let run := process_link clean_text_spec Demo.the_web Demo.me link
               initial_state in
  extraction.1 = Ok "2107.06499"
  ∧ field "org" "ds" "community" extraction.2 = Some (VStr "5")
  ∧ field "org" "ds" "like" extraction.2 = Some (VStr "0")
  ∧ field "org" "ds" "download_count_last_month" extraction.2
    = Some (VStr "1,234")
  ∧ field "org" "ds" "dataset_tags_info" extraction.2 ≠ None
  ∧ field "org" "ds" "related_models_collections" extraction.2 ≠ None
  ∧ exception_links run.2 = []
  ∧ field "org" "ds" "link" run.2 = Some (VStr link)
  ∧ field "org" "ds" "dataset_screenshot_save_path" run.2
    = Some (VStr (dataset_screenshot Demo.me "ds"))
  ∧ field "org" "ds" "paper_screenshot_save_path" run.2
    = Some (VStr (paper_screenshot Demo.me "ds"))
  ∧ field "org" "ds" "dataset_tags_info" run.2 = None
  ∧ field "org" "ds" "download_count_last_month" run.2 = None
  ∧ field "org" "ds" "community" run.2 = None
  ∧ field "org" "ds" "like" run.2 = None
  ∧ field "org" "ds" "related_models_collections" run.2 = None.
Proof.
  intros link extraction run. vm_compute.
  repeat split; first [reflexivity | discriminate].
Qed.

(** ** Failure of the info container *)

Section data_info.

Variable clean_text : string → string.

Lemma field_agrees o n s r s1 key :
  agrees o n s r s1 → field o n key s1 = r !! key.
Proof. intros (Hr & _). unfold field. by rewrite Hr. Qed.

(** The writes of [_extract_related_data] other than "dataset_info" do not
    depend on whether "dataset_info" was written. *)
Lemma extracted_other_fields d d' dc c l m (r r' : gmap string value) key :
  dataset_panel d' = dataset_panel d →
  related_section d' = related_section d →
  key ≠ "dataset_info" →
  (∀ k, k ≠ "dataset_info" → with_data_info d' r' !! k = with_data_info d r !! k) →
  extracted clean_text d' dc c l m r' !! key
  = extracted clean_text d dc c l m r !! key.
Proof.
  intros Hpanel Hrelated Hkey Hr. unfold extracted, crawl_related_try.
  rewrite Hrelated.
  rewrite !lookup_insert. repeat case_decide; try done.
  unfold with_panel. rewrite Hpanel. destruct (dataset_panel d); [|by apply Hr].
  rewrite !lookup_insert. case_decide; [done|]. by apply Hr.
Qed.

Lemma extracted_data_info d dc c l m (r : gmap string value) :
  data_info_div d = None →
  extracted clean_text d dc c l m r !! "dataset_info" = r !! "dataset_info".
Proof.
  intros Hinfo. unfold extracted, with_panel, with_data_info. rewrite Hinfo.
  rewrite !lookup_insert_ne by discriminate.
  destruct (dataset_panel d); [|done]. by rewrite lookup_insert_ne.
Qed.

End data_info.

(** C3, as stated, fails: when the info container cannot be read, the
    record has no "dataset_info" at all, neither when
    [_extract_related_data] returns nor in the end; it is not the empty
    mapping. *)
Lemma failed_data_info_is_absent :
  let link := "https://huggingface.co/datasets/org/noinfo" in
  let s := Demo.at_page link "org" "noinfo" in
  let extraction := _extract_related_data clean_text_spec "noinfo" "org" s in
  let run := process_link clean_text_spec Demo.the_web Demo.me link
               initial_state in
  data_info_div (driver s) = None
  ∧ extraction.1 = Ok ""
  ∧ field "org" "noinfo" "dataset_info" extraction.2 = None
  ∧ field "org" "noinfo" "dataset_info" extraction.2 ≠ Some (VDict ∅)
  ∧ exception_links run.2 = []
  ∧ field "org" "noinfo" "dataset_info" run.2 ≠ Some (VDict ∅).
Proof.
  intros link s extraction run. vm_compute.
  repeat split; first [reflexivity | discriminate].
Qed.

(** C3, amended: when the info container cannot be read,
    [_extract_related_data] ends as it does on the same page with a
    readable container (same arxiv id, or same exception), it writes the
    same value to every field but "dataset_info", and it leaves
    "dataset_info" as it was: absent in a fresh entry. *)
Theorem data_info_failure_is_isolated clean_text name org s r0 a_tags :
  record_of org name s = Some r0 →
  data_info_div (driver s) = None →
  let readable := set_driver (set_data_info (Some a_tags) (driver s)) s in
  let failed := _extract_related_data clean_text name org s in
  let read := _extract_related_data clean_text name org readable in
  failed.1 = read.1
  ∧ field org name "dataset_info" failed.2 = r0 !! "dataset_info"
  ∧ ∀ key, key ≠ "dataset_info" →
           field org name key failed.2 = field org name key read.2.
Proof.
  intros Hr Hinfo readable failed read.
  assert (record_of org name readable = Some r0) as Hr' by exact Hr.
  assert (∀ key, field org name key readable = field org name key s)
    as Hfield by done.
  assert (field org name "dataset_info" s = r0 !! "dataset_info") as Hold.
  { unfold field. by rewrite Hr. }
  unfold failed, read, _extract_related_data.
  destruct (download_count (driver s)) as [dc|] eqn:Hdc.
  2:{ rewrite (bind_raise _ _ s NoSuchElementException s)
        by (unfold find_element; by rewrite Hdc).
      rewrite (bind_raise _ _ readable NoSuchElementException readable)
        by (unfold find_element; simpl; by rewrite Hdc).
      done. }
  destruct (community (driver s)) as [c|] eqn:Hc.
  2:{ rewrite (bind_ok _ _ s dc s) by (unfold find_element; by rewrite Hdc).
      rewrite (bind_ok _ _ readable dc readable)
        by (unfold find_element; simpl; by rewrite Hdc).
      rewrite (bind_raise _ _ s NoSuchElementException s)
        by (unfold find_element; by rewrite Hc).
      rewrite (bind_raise _ _ readable NoSuchElementException readable)
        by (unfold find_element; simpl; by rewrite Hc).
      done. }
  destruct (like (driver s)) as [l|] eqn:Hl.
  2:{ rewrite (bind_ok _ _ s dc s) by (unfold find_element; by rewrite Hdc).
      rewrite (bind_ok _ _ readable dc readable)
        by (unfold find_element; simpl; by rewrite Hdc).
      rewrite (bind_ok _ _ s c s) by (unfold find_element; by rewrite Hc).
      rewrite (bind_ok _ _ readable c readable)
        by (unfold find_element; simpl; by rewrite Hc).
      rewrite (bind_raise _ _ s NoSuchElementException s)
        by (unfold find_element; by rewrite Hl).
      rewrite (bind_raise _ _ readable NoSuchElementException readable)
        by (unfold find_element; simpl; by rewrite Hl).
      done. }
  destruct (tags_loop clean_text (tags_info (driver s)) ∅ "" initial_state).1
    as [[m a]|e] eqn:Htags.
  2:{ rewrite (bind_ok _ _ s dc s) by (unfold find_element; by rewrite Hdc).
      rewrite (bind_ok _ _ readable dc readable)
        by (unfold find_element; simpl; by rewrite Hdc).
      rewrite (bind_ok _ _ s c s) by (unfold find_element; by rewrite Hc).
      rewrite (bind_ok _ _ readable c readable)
        by (unfold find_element; simpl; by rewrite Hc).
      rewrite (bind_ok _ _ s l s) by (unfold find_element; by rewrite Hl).
      rewrite (bind_ok _ _ readable l readable)
        by (unfold find_element; simpl; by rewrite Hl).
      rewrite (bind_ok _ _ s (tags_info (driver s)) s) by done.
      rewrite (bind_ok _ _ readable (tags_info (driver s)) readable) by done.
      rewrite (bind_raise _ _ s e s) by (by rewrite tags_loop_pure, Htags).
      rewrite (bind_raise _ _ readable e readable)
        by (by rewrite tags_loop_pure, Htags).
      done. }
  fold (_extract_related_data clean_text name org s).
  fold (_extract_related_data clean_text name org readable).
  destruct (extract_related_data_run clean_text name org s r0 dc c l m a
              Hr Hdc Hc Hl Htags) as (s1 & -> & Hag).
  destruct (extract_related_data_run clean_text name org readable r0 dc c l m a
              Hr' Hdc Hc Hl Htags) as (s2 & -> & Hag').
  simpl. split; [done|]. split.
  - rewrite (field_agrees _ _ _ _ _ _ Hag). by apply extracted_data_info.
  - intros key Hkey.
    rewrite (field_agrees _ _ _ _ _ _ Hag), (field_agrees _ _ _ _ _ _ Hag').
    symmetry. apply extracted_other_fields; [done..|].
    intros k Hk. unfold with_data_info. simpl. rewrite Hinfo.
    by rewrite lookup_insert_ne.
Qed.

Lemma data_info_failure_is_isolated_witness :
  let s := Demo.at_page "https://huggingface.co/datasets/org/noinfo"
             "org" "noinfo" in
  let readable :=
    set_driver (set_data_info (Some [["Size"; "1.2k"]]) (driver s)) s in
  let failed := _extract_related_data clean_text_spec "noinfo" "org" s in
  let read := _extract_related_data clean_text_spec "noinfo" "org" readable in
  failed.1 = read.1
  ∧ field "org" "noinfo" "dataset_info" failed.2
    = (∅ : gmap string value) !! "dataset_info"
  ∧ ∀ key, key ≠ "dataset_info" →
           field "org" "noinfo" key failed.2 = field "org" "noinfo" key read.2.
Proof.
  apply (data_info_failure_is_isolated clean_text_spec "noinfo" "org"
           (Demo.at_page "https://huggingface.co/datasets/org/noinfo"
              "org" "noinfo") ∅ [["Size"; "1.2k"]]).
  - vm_compute. reflexivity.
  - reflexivity.
Defined.

(** C10: the two screenshot paths of a stored record are built from the
    screenshot directory and the last segment of the URL; two links with
    the same last segment get the same dataset path, whatever their
    organizations, and the same paper path when both have an arxiv id
    (the path is empty otherwise). *)
Theorem screenshot_paths_follow_name clean_text w self link1 link2
    s1 s2 s1' s2' org1 org2 name :
  crawl_link clean_text w self link1 s1 = (Ok tt, s1') →
  crawl_link clean_text w self link2 s2 = (Ok tt, s2') →
  Py.index_neg (Py.split "/" link1) 2 = Some org1 →
  Py.index_neg (Py.split "/" link2) 2 = Some org2 →
  Py.index_neg (Py.split "/" link1) 1 = Some name →
  Py.index_neg (Py.split "/" link2) 1 = Some name →
  field org1 name "dataset_screenshot_save_path" s1'
  = Some (VStr (screen_shot_save_path self +:+ "/" +:+ name +:+ ".png"))
  ∧ field org2 name "dataset_screenshot_save_path" s2'
    = field org1 name "dataset_screenshot_save_path" s1'
  ∧ ∃ paper1 paper2,
      field org1 name "paper_screenshot_save_path" s1' = Some (VStr paper1)
      ∧ field org2 name "paper_screenshot_save_path" s2' = Some (VStr paper2)
      ∧ (paper1 = ""
         ∨ paper1 = screen_shot_save_path self +:+ "/" +:+ name +:+ "_pdf.png")
      ∧ (paper2 = ""
         ∨ paper2 = screen_shot_save_path self +:+ "/" +:+ name +:+ "_pdf.png")
      ∧ (paper1 ≠ "" → paper2 ≠ "" → paper1 = paper2).
Proof.
  intros Hrun1 Hrun2 Ho1 Ho2 Hn1 Hn2.
  destruct (crawl_link_inv _ _ _ _ _ _ Hrun1)
    as (o1 & n1 & a1 & Ho1' & Hn1' & Hrec1 & _).
  destruct (crawl_link_inv _ _ _ _ _ _ Hrun2)
    as (o2 & n2 & a2 & Ho2' & Hn2' & Hrec2 & _).
  simplify_eq. unfold field. rewrite Hrec1, Hrec2. unfold stored.
  rewrite !lookup_insert_eq.
  split; [done|]. split; [done|].
  exists (if Py.truthy a1 then paper_screenshot self name else ""),
    (if Py.truthy a2 then paper_screenshot self name else "").
  rewrite !lookup_insert_ne by discriminate. rewrite !lookup_insert_eq.
  split; [done|]. split; [done|].
  destruct (Py.truthy a1), (Py.truthy a2); repeat split; auto; done.
Qed.

Lemma screenshot_paths_follow_name_witness :
  let run1 := crawl_link clean_text_spec Demo.the_web Demo.me
                "https://huggingface.co/datasets/org/ds" initial_state in
  let run2 := crawl_link clean_text_spec Demo.the_web Demo.me
                "https://huggingface.co/datasets/other/ds" initial_state in
  field "org" "ds" "dataset_screenshot_save_path" run1.2
  = Some (VStr (screen_shot_save_path Demo.me +:+ "/" +:+ "ds" +:+ ".png"))
  ∧ field "other" "ds" "dataset_screenshot_save_path" run2.2
    = field "org" "ds" "dataset_screenshot_save_path" run1.2
  ∧ ∃ paper1 paper2,
      field "org" "ds" "paper_screenshot_save_path" run1.2
      = Some (VStr paper1)
      ∧ field "other" "ds" "paper_screenshot_save_path" run2.2
        = Some (VStr paper2)
      ∧ (paper1 = ""
         ∨ paper1
           = screen_shot_save_path Demo.me +:+ "/" +:+ "ds" +:+ "_pdf.png")
      ∧ (paper2 = ""
         ∨ paper2
           = screen_shot_save_path Demo.me +:+ "/" +:+ "ds" +:+ "_pdf.png")
      ∧ (paper1 ≠ "" → paper2 ≠ "" → paper1 = paper2).
Proof.
  intros run1 run2.
  apply (screenshot_paths_follow_name clean_text_spec Demo.the_web Demo.me
           "https://huggingface.co/datasets/org/ds"
           "https://huggingface.co/datasets/other/ds"
           initial_state initial_state run1.2 run2.2 "org" "other" "ds").
  - apply (run_eq run1). vm_compute. reflexivity.
  - apply (run_eq run2). vm_compute. reflexivity.
  - reflexivity.
  - reflexivity.
  - reflexivity.
  - reflexivity.
Defined.

(** * Further properties of link discovery *)

Section discovery_more.

Variable w : web.
Variable self : HuggingfaceCrawler.

Lemma collected_all links : collected (Some <$> links) = links.
Proof.
  induction links as [|l links IH]; [done|].
  rewrite fmap_cons. simpl. by f_equal.
Qed.



End discovery_more.

(** X1: on a listing that loads and whose cards all have their anchor, the
    organization gets the hrefs of the cards, in the order of the page; with
    no card at all the organization gets no entry, not an empty list. *)
Theorem listed_links_in_order w self targets index target sort d links s :
  NoDup targets.*1 →
  (index, Some target) ∈ targets →
  target ≠ "" →
  sort_map !! sort_method self = Some sort →
  load w (target +:+ "?sort_datasets=" +:+ sort +:+ "#datasets") = Some d →
  dataset_items d = Some <$> links →
  organization_datasets_links (crawl_dataset_links w self targets s).2 !! index
  = match links with
    | [] => None
    | _ => Some links
    end.
Proof.
  intros Hnd Hin Hne Hsort Hload Hitems.
  rewrite crawl_dataset_links_run. simpl. rewrite loop_links. simpl.
  rewrite (discovered_lookup w self _ index (Some target)) by done.
  unfold org_links. apply String.eqb_neq in Hne as ->.
  rewrite Hsort, Hload, Hitems, collected_all. by destruct links.
Qed.

Lemma listed_links_in_order_witness :
  organization_datasets_links
    (crawl_dataset_links Demo.the_web Demo.me Demo.targets initial_state).2
    !! "good"
  = Some ["https://huggingface.co/datasets/good/a";
          "https://huggingface.co/datasets/good/b"].
Proof.
  apply (listed_links_in_order Demo.the_web Demo.me Demo.targets "good"
           "https://huggingface.co/good" "downloads"
           (Demo.listing [Some "https://huggingface.co/datasets/good/a";
                          Some "https://huggingface.co/datasets/good/b"])
           ["https://huggingface.co/datasets/good/a";
            "https://huggingface.co/datasets/good/b"]).
  - apply (bool_decide_unpack _). by vm_compute.
  - apply elem_of_cons. right. apply elem_of_cons. right.
    apply elem_of_cons. by left.
  - discriminate.
  - reflexivity.
  - reflexivity.
  - reflexivity.
Defined.



(** * Further properties of record extraction *)

(** Removing a character with [replace]. *)
Lemma replace_char_cons c x s :
  Py.replace (String c "") "" (String x s)
  = if Ascii.eqb x c then Py.replace (String c "") "" s
    else String x (Py.replace (String c "") "" s).
Proof.
  unfold Py.replace. cbn [Py.replace_go String.prefix String.length].
  rewrite Ascii.eqb_sym.
  destruct (Ascii.eqb_spec c x) as [->|Hne].
  - destruct (ascii_dec x x); [|done]. by destruct s.
  - by destruct (ascii_dec c x).
Qed.

Lemma replace_char_keeps (p : ascii → bool) c s :
  Py.all p s = true → Py.all p (Py.replace (String c "") "" s) = true.
Proof.
  induction s as [|x s IH]; [done|].
  rewrite replace_char_cons. cbn [Py.all].
  intros [Hx Hs]%andb_true_iff.
  destruct (Ascii.eqb x c); [by apply IH|].
  cbn [Py.all]. by rewrite Hx, IH.
Qed.

Lemma replace_char_free c s :
  free_of c (Py.replace (String c "") "" s) = true.
Proof.
  unfold free_of. induction s as [|x s IH]; [done|].
  rewrite replace_char_cons. destruct (Ascii.eqb x c) eqn:Hx; [done|].
  cbn [Py.all]. by rewrite Hx, IH.
Qed.

Lemma strip_quotes_free s :
  quote_free (Py.replace Py.dquote "" (Py.replace Py.squote "" s)) = true.
Proof.
  unfold quote_free. apply andb_true_iff. split.
  - apply replace_char_keeps. apply replace_char_free.
  - apply replace_char_free.
Qed.

Lemma strip_quotes_free' s :
  quote_free (Py.replace Py.squote "" (Py.replace Py.dquote "" s)) = true.
Proof.
  unfold quote_free. apply andb_true_iff. split.
  - apply replace_char_free.
  - apply replace_char_keeps. apply replace_char_free.
Qed.

Lemma tag_key_clean span :
  free_of ":"%char (tag_key span) = true ∧ quote_free (tag_key span) = true.
Proof.
  unfold tag_key. split; [|apply strip_quotes_free].
  apply replace_char_keeps, replace_char_keeps, replace_char_free.
Qed.

Section extraction_more.

Variable clean_text : string → string.

Lemma tags_loop_missing_span divs m a :
  (∃ d, d ∈ divs ∧ span_text d = None) →
  (tags_loop clean_text divs m a initial_state).1
  = Raise NoSuchElementException.
Proof.
  intros (d & Hin & Hd). revert m a.
  induction divs as [|d' divs IH]; intros m a.
  { by apply elem_of_nil in Hin. }
  simpl. unfold bind, or_raise.
  destruct (span_text d') as [span|] eqn:Hspan; [|done].
  unfold ret. rewrite tags_loop_pure. simpl.
  apply elem_of_cons in Hin as [->|Hin]; [congruence|]. by apply IH.
Qed.

Lemma tags_loop_all_spans divs m a :
  Forall (λ d, is_Some (span_text d)) divs →
  ∃ m' a', (tags_loop clean_text divs m a initial_state).1 = Ok (m', a').
Proof.
  intros Hall. revert m a.
  induction Hall as [|d divs [span Hspan] _ IH]; intros m a.
  { simpl. eauto. }
  simpl. unfold bind, or_raise. rewrite Hspan. unfold ret.
  rewrite tags_loop_pure. simpl. apply IH.
Qed.

(** The map built by the loop over the tag blocks: every block is in it
    under its key, and every entry comes from a block. *)
Lemma tags_loop_entries divs m0 a0 m a :
  (tags_loop clean_text divs m0 a0 initial_state).1 = Ok (m, a) →
  (∀ k, is_Some (m0 !! k) → is_Some (m !! k))
  ∧ (∀ d span, d ∈ divs → span_text d = Some span →
               is_Some (m !! tag_key span))
  ∧ (∀ k v, m !! k = Some v →
            m0 !! k = Some v
            ∨ ∃ d span, d ∈ divs ∧ span_text d = Some span
                        ∧ k = tag_key span
                        ∧ v = tag_value clean_text k (div_text d)).
Proof.
  revert m0 a0. induction divs as [|d divs IH]; intros m0 a0 Hrun.
  { simpl in Hrun. simplify_eq. split; [done|]. split.
    - intros d span Hin. by apply elem_of_nil in Hin.
    - intros k v Hk. by left. }
  simpl in Hrun. unfold bind, or_raise in Hrun.
  destruct (span_text d) as [span|] eqn:Hspan; [|done].
  unfold ret in Hrun. rewrite tags_loop_pure in Hrun. simpl in Hrun.
  destruct (IH _ _ Hrun) as (Hmono & Hall & Hfrom).
  split; [|split].
  - intros k Hk. apply Hmono. rewrite lookup_insert. case_decide; eauto.
  - intros d' span' [->|Hin]%elem_of_cons Hspan'.
    + rewrite Hspan in Hspan'. simplify_eq. apply Hmono.
      rewrite lookup_insert_eq. eauto.
    + by apply (Hall d').
  - intros k v Hk. destruct (Hfrom k v Hk) as [Hm0 | (d' & span' & Hin & ?)].
    + rewrite lookup_insert in Hm0. case_decide as Hkey; [|by left].
      simplify_eq. right. exists d, span.
      split; [apply elem_of_cons; by left|done].
    + right. exists d', span'. split; [apply elem_of_cons; by right|done].
Qed.

End extraction_more.

Section extraction_results.

Variable clean_text : string → string.

Lemma tags_loop_ok_spans divs m a r :
  (tags_loop clean_text divs m a initial_state).1 = Ok r →
  Forall (λ d, is_Some (span_text d)) divs.
Proof.
  revert m a. induction divs as [|d divs IH]; intros m a Hrun; [done|].
  simpl in Hrun. unfold bind, or_raise in Hrun.
  destruct (span_text d) as [span|] eqn:Hspan; [|done].
  unfold ret in Hrun. rewrite tags_loop_pure in Hrun. simpl in Hrun.
  constructor; [by rewrite Hspan | by eapply IH].
Qed.


End extraction_results.

(** X3: when the download count, the community counter, the like counter
    or the label of a tag block cannot be read, [_extract_related_data]
    raises before its first write: the store, log included, is as it
    was. *)
Theorem extraction_fails_before_writing clean_text name org s :
  download_count (driver s) = None
  ∨ community (driver s) = None
  ∨ like (driver s) = None
  ∨ (∃ d, d ∈ tags_info (driver s) ∧ span_text d = None) →
  _extract_related_data clean_text name org s
  = (Raise NoSuchElementException, s).
Proof.
  intros Hmissing. unfold _extract_related_data.
  destruct (download_count (driver s)) as [dc|] eqn:Hdc.
  2:{ apply bind_raise. unfold find_element. by rewrite Hdc. }
  rewrite (bind_ok _ _ s dc s) by (unfold find_element; by rewrite Hdc).
  destruct (community (driver s)) as [c|] eqn:Hc.
  2:{ apply bind_raise. unfold find_element. by rewrite Hc. }
  rewrite (bind_ok _ _ s c s) by (unfold find_element; by rewrite Hc).
  destruct (like (driver s)) as [l|] eqn:Hl.
  2:{ apply bind_raise. unfold find_element. by rewrite Hl. }
  rewrite (bind_ok _ _ s l s) by (unfold find_element; by rewrite Hl).
  rewrite (bind_ok _ _ s (tags_info (driver s)) s) by done.
  destruct Hmissing as [?|[?|[?|Hspan]]]; [done..|].
  apply bind_raise. rewrite tags_loop_pure.
  by rewrite (tags_loop_missing_span clean_text _ _ _ Hspan).
Qed.

Lemma extraction_fails_before_writing_witness :
  _extract_related_data clean_text_spec "x" "org"
    (Demo.at_page "https://huggingface.co/nowhere" "org" "x")
  = (Raise NoSuchElementException,
     Demo.at_page "https://huggingface.co/nowhere" "org" "x").
Proof.
  apply (extraction_fails_before_writing clean_text_spec "x" "org").
  left. reflexivity.
Defined.

(** X4: once the entry of the dataset exists, [_extract_related_data]
    returns normally exactly when the three counters and the label of every
    tag block can be read; the info container, the panel and the section of
    related artifacts have no say. *)
Theorem extraction_succeeds_iff clean_text name org s :
  is_Some (record_of org name s) →
  (∃ a, (_extract_related_data clean_text name org s).1 = Ok a)
  ↔ is_Some (download_count (driver s))
    ∧ is_Some (community (driver s))
    ∧ is_Some (like (driver s))
    ∧ Forall (λ d, is_Some (span_text d)) (tags_info (driver s)).
Proof.
  intros [r0 Hr]. split.
  - intros [a Hrun].
    destruct (_extract_related_data clean_text name org s) as [r s'] eqn:Heq.
    simpl in Hrun. subst r.
    destruct (extract_related_data_inv _ _ _ _ _ _ Heq)
      as (r0' & dc & c & l & m & _ & Hdc & Hc & Hl & Htags & _).
    rewrite Hdc, Hc, Hl. repeat split; eauto.
    by apply (tags_loop_ok_spans clean_text _ _ _ _ Htags).
  - intros ([dc Hdc] & [c Hc] & [l Hl] & Hspans).
    destruct (tags_loop_all_spans clean_text _ ∅ "" Hspans) as (m & a & Htags).
    destruct (extract_related_data_run clean_text name org s r0 dc c l m a
                Hr Hdc Hc Hl Htags) as (s' & -> & _).
    by exists a.
Qed.

Lemma extraction_succeeds_iff_witness :
  let s := Demo.at_page "https://huggingface.co/datasets/org/noinfo"
             "org" "noinfo" in
  (∃ a, (_extract_related_data clean_text_spec "noinfo" "org" s).1 = Ok a)
  ↔ is_Some (download_count (driver s))
    ∧ is_Some (community (driver s))
    ∧ is_Some (like (driver s))
    ∧ Forall (λ d, is_Some (span_text d)) (tags_info (driver s)).
Proof.
  apply (extraction_succeeds_iff clean_text_spec "noinfo" "org").
  exists ∅. vm_compute. reflexivity.
Defined.

(** X5: without a tag block labelled "arxiv", [_extract_related_data]
    returns the empty string for the arxiv id whenever it returns. *)
Theorem no_arxiv_block_no_id clean_text name org s a :
  (_extract_related_data clean_text name org s).1 = Ok a →
  existsb is_arxiv (tags_info (driver s)) = false →
  (_extract_related_data clean_text name org s).1 = Ok "".
Proof.
  intros Hrun Hno. rewrite Hrun. f_equal.
  apply run_eq in Hrun.
  destruct (extract_related_data_inv _ _ _ _ _ _ Hrun)
    as (r0 & dc & c & l & m & _ & _ & _ & _ & Htags & _).
  by destruct (tags_loop_no_arxiv clean_text _ _ _ _ _ "arxiv" Htags Hno).
Qed.

Lemma no_arxiv_block_no_id_witness :
  (_extract_related_data clean_text_spec "noinfo" "org"
     (Demo.at_page "https://huggingface.co/datasets/org/noinfo"
        "org" "noinfo")).1
  = Ok "".
Proof.
  apply (no_arxiv_block_no_id clean_text_spec "noinfo" "org"
           (Demo.at_page "https://huggingface.co/datasets/org/noinfo"
              "org" "noinfo") "").
  - vm_compute. reflexivity.
  - vm_compute. reflexivity.
Defined.

(** X6: the tag map written to the record has an entry for the cleaned
    label of every tag block of the page, and every entry is the cleaned
    label of some block with the value computed from that block. *)
Theorem tag_map_covers_blocks clean_text name org s a s' :
  _extract_related_data clean_text name org s = (Ok a, s') →
  ∃ tags,
    field org name "dataset_tags_info" s' = Some (VDict tags)
    ∧ (∀ d, d ∈ tags_info (driver s) →
            ∃ span, span_text d = Some span ∧ is_Some (tags !! tag_key span))
    ∧ (∀ k v, tags !! k = Some v →
              ∃ d span, d ∈ tags_info (driver s)
                        ∧ span_text d = Some span
                        ∧ k = tag_key span
                        ∧ v = tag_value clean_text k (div_text d)).
Proof.
  intros Hrun.
  destruct (extract_related_data_inv _ _ _ _ _ _ Hrun)
    as (r0 & dc & c & l & m & _ & _ & _ & _ & Htags & Hag).
  destruct (tags_loop_entries clean_text _ _ _ _ _ Htags)
    as (_ & Hall & Hfrom).
  pose proof (tags_loop_ok_spans clean_text _ _ _ _ Htags) as Hspans.
  exists m. split; [|split].
  - rewrite (field_agrees _ _ _ _ _ _ Hag). unfold extracted.
    rewrite !lookup_insert_ne by discriminate. apply lookup_insert_eq.
  - intros d Hin. rewrite Forall_forall in Hspans.
    destruct (Hspans d Hin) as [span Hspan]. exists span. split; [done|].
    by apply (Hall d).
  - intros k v Hk. destruct (Hfrom k v Hk) as [Hempty|?]; [|done].
    by rewrite lookup_empty in Hempty.
Qed.

Lemma tag_map_covers_blocks_witness :
  let s := Demo.at_page "https://huggingface.co/datasets/org/ds" "org" "ds" in
  let s' := (_extract_related_data clean_text_spec "ds" "org" s).2 in
  ∃ tags,
    field "org" "ds" "dataset_tags_info" s' = Some (VDict tags)
    ∧ (∀ d, d ∈ tags_info (driver s) →
            ∃ span, span_text d = Some span ∧ is_Some (tags !! tag_key span))
    ∧ (∀ k v, tags !! k = Some v →
              ∃ d span, d ∈ tags_info (driver s)
                        ∧ span_text d = Some span
                        ∧ k = tag_key span
                        ∧ v = tag_value clean_text_spec k (div_text d)).
Proof.
  intros s s'.
  apply (tag_map_covers_blocks clean_text_spec "ds" "org" s "2107.06499" s').
  apply (run_eq (_extract_related_data clean_text_spec "ds" "org" s)).
  vm_compute. reflexivity.
Defined.

(** X7: what extraction stores of the tag blocks and of the panel is free
    of quote characters: no key and no value of the tag map holds a single
    or a double quote, no key holds a colon, and neither does the panel
    text hold a quote. *)
Theorem stored_texts_have_no_quotes clean_text name org s a s' :
  _extract_related_data clean_text name org s = (Ok a, s') →
  ∃ tags,
    field org name "dataset_tags_info" s' = Some (VDict tags)
    ∧ (∀ k v, tags !! k = Some v →
              free_of ":" k = true ∧ quote_free k = true
              ∧ quote_free v = true)
    ∧ (∀ text, dataset_panel (driver s) = Some text →
               ∃ stored_text,
                 field org name "dataset_panel_info" s'
                 = Some (VStr stored_text)
                 ∧ quote_free stored_text = true).
Proof.
  intros Hrun.
  destruct (extract_related_data_inv _ _ _ _ _ _ Hrun)
    as (r0 & dc & c & l & m & _ & _ & _ & _ & Htags & Hag).
  destruct (tags_loop_entries clean_text _ _ _ _ _ Htags)
    as (_ & _ & Hfrom).
  exists m. split; [|split].
  - rewrite (field_agrees _ _ _ _ _ _ Hag). unfold extracted.
    rewrite !lookup_insert_ne by discriminate. apply lookup_insert_eq.
  - intros k v Hk. destruct (Hfrom k v Hk) as [Hempty|Hblock].
    { by rewrite lookup_empty in Hempty. }
    destruct Hblock as (d & span & _ & _ & -> & ->).
    destruct (tag_key_clean span) as [Hcolon Hquote].
    split; [done|]. split; [done|]. apply strip_quotes_free.
  - intros text Hpanel. eexists. split.
    + rewrite (field_agrees _ _ _ _ _ _ Hag). unfold extracted, with_panel.
      rewrite !lookup_insert_ne by discriminate. rewrite Hpanel.
      apply lookup_insert_eq.
    + apply strip_quotes_free'.
Qed.

Lemma stored_texts_have_no_quotes_witness :
  let s := Demo.at_page "https://huggingface.co/datasets/org/ds" "org" "ds" in
  let s' := (_extract_related_data clean_text_spec "ds" "org" s).2 in
  ∃ tags,
    field "org" "ds" "dataset_tags_info" s' = Some (VDict tags)
    ∧ (∀ k v, tags !! k = Some v →
              free_of ":" k = true ∧ quote_free k = true
              ∧ quote_free v = true)
    ∧ (∀ text, dataset_panel (driver s) = Some text →
               ∃ stored_text,
                 field "org" "ds" "dataset_panel_info" s'
                 = Some (VStr stored_text)
                 ∧ quote_free stored_text = true).
Proof.
  intros s s'.
  apply (stored_texts_have_no_quotes clean_text_spec "ds" "org" s
           "2107.06499" s').
  apply (run_eq (_extract_related_data clean_text_spec "ds" "org" s)).
  vm_compute. reflexivity.
Defined.



(** * Further properties of the related models and collections *)

Section related.

Variable clean_text : string → string.

Lemma extract_item_run sub_title a_tag
    (result : gmap string (gmap string (gmap string string))) bucket :
  result !! sub_title = Some bucket →
  is_Some (Soup.attr "href" a_tag) →
  extract_item clean_text sub_title a_tag result
  = (Ok tt,
     <[sub_title :=
         <[header_of clean_text a_tag := item_of clean_text a_tag]> bucket]>
       result).
Proof.
  intros Hbucket [href Hhref]. unfold extract_item, item_of.
  rewrite (bind_ok _ _ _ _ _ (set_header_ok _ _ _ _ Hbucket)).
  destruct (if negb (String.eqb (header_of clean_text a_tag) "expand")
            then nested_div a_tag else None) as [inner|].
  - rewrite Hhref.
    rewrite (bind_ok _ _ _ href
               (<[sub_title := <[header_of clean_text a_tag := ∅]> bucket]>
                  result)) by done.
    rewrite (bind_ok _ _ _ _ _ (set_detail_ok _ _ _ _ _ _ _)).
    apply set_detail_ok.
  - apply set_detail_ok.
Qed.

Lemma items_run elements sub_title
    (result : gmap string (gmap string (gmap string string))) bucket :
  result !! sub_title = Some bucket →
  Forall (λ a_tag, is_Some (Soup.attr "href" a_tag)) elements →
  _extract_models_or_collections_items clean_text elements sub_title result
  = (Ok tt, <[sub_title := bucket_with clean_text elements bucket]> result).
Proof.
  intros Hbucket Hall. revert result bucket Hbucket.
  induction Hall as [|a_tag elements Hhref _ IH]; intros result bucket Hbucket.
  { simpl. unfold ret. by rewrite insert_id. }
  unfold _extract_models_or_collections_items in *. simpl.
  rewrite (bind_ok _ _ _ _ _ (extract_item_run _ _ _ _ Hbucket Hhref)).
  rewrite (IH _ _ (lookup_insert_eq _ _ _)).
  by rewrite insert_insert_eq.
Qed.

Lemma siblings_run siblings sub_title
    (result : gmap string (gmap string (gmap string string))) bucket :
  result !! sub_title = Some bucket →
  for_each siblings
    (λ sibling,
       _extract_models_or_collections_items clean_text
         (Soup.find_all_a_href sibling) sub_title) result
  = (Ok tt,
     <[sub_title := bucket_of_siblings clean_text siblings bucket]> result).
Proof.
  revert result bucket.
  induction siblings as [|sibling siblings IH]; intros result bucket Hbucket.
  { simpl. unfold ret. by rewrite insert_id. }
  simpl.
  rewrite (bind_ok _ _ _ tt
             (<[sub_title :=
                  bucket_with clean_text (Soup.find_all_a_href sibling)
                    bucket]> result)).
  2:{ apply items_run; [done|]. apply Forall_forall.
      intros a_tag Hin. by apply (find_all_a_href_attr sibling). }
  rewrite (IH _ _ (lookup_insert_eq _ _ _)).
  by rewrite insert_insert_eq.
Qed.

(** One turn of the loop over the headings. *)
Lemma h2_loop_cons h2 rest
    (result : gmap string (gmap string (gmap string string))) :
  h2_loop clean_text (h2 :: rest) result
  = h2_loop clean_text rest
      (<[title_of clean_text h2 :=
           bucket_of_siblings clean_text
             (match rest with
              | (next_h2, _) :: _ => Soup.until_next next_h2 h2.2
              | [] => h2.2
              end) ∅]> result).
Proof.
  destruct h2 as [current_h2 contents]. unfold title_of. simpl.
  rewrite (bind_ok _ _ result tt
             (<[clean_text (Soup.text current_h2) := ∅]> result)) by done.
  rewrite (bind_ok _ _ _ tt _
             (siblings_run _ _ _ _ (lookup_insert_eq _ _ _))).
  by rewrite insert_insert_eq.
Qed.

Lemma h2_loop_run h2_tags
    (result : gmap string (gmap string (gmap string string))) :
  (h2_loop clean_text h2_tags result).1 = Ok tt
  ∧ ∀ t, is_Some ((h2_loop clean_text h2_tags result).2 !! t)
         ↔ is_Some (result !! t) ∨ t ∈ title_of clean_text <$> h2_tags.
Proof.
  revert result. induction h2_tags as [|h2 rest IH]; intros result.
  { simpl. split; [done|]. intros t. split; [by left|].
    intros [?|Hin]; [done|]. by apply elem_of_nil in Hin. }
  rewrite h2_loop_cons. destruct (IH (<[title_of clean_text h2 :=
           bucket_of_siblings clean_text
             (match rest with
              | (next_h2, _) :: _ => Soup.until_next next_h2 h2.2
              | [] => h2.2
              end) ∅]> result)) as [Hok Hdom].
  split; [done|]. intros t. rewrite Hdom, fmap_cons, elem_of_cons.
  destruct (decide (title_of clean_text h2 = t)) as [<-|Hne].
  - rewrite lookup_insert_eq. split; [intros _; right; by left|eauto].
  - rewrite lookup_insert_ne by done. split.
    + intros [?|?]; [by left | right; by right].
    + intros [?|[?|?]]; [by left | congruence | by right].
Qed.

(** The loop over headings that end with [h2] starts its last turn from
    some dictionary. *)
Lemma h2_loop_last pre h2
    (result : gmap string (gmap string (gmap string string))) :
  ∃ result1,
    h2_loop clean_text (pre ++ [h2]) result
    = h2_loop clean_text [h2] result1.
Proof.
  revert result. induction pre as [|h pre IH]; intros result; [by eexists|].
  rewrite <- app_comm_cons, h2_loop_cons. apply IH.
Qed.

End related.

(** X9: once the section of related artifacts is found, the body of the
    [try] of [_crawl_related_models_or_collections] never raises, and the
    dictionary it builds has exactly the cleaned titles of the headings of
    the section as keys; a section without heading gives the empty
    dictionary, whatever links it holds. *)
Theorem related_section_is_read clean_text d soup :
  related_section d = Some soup →
  (crawl_related_try clean_text d ∅).1 = Ok tt
  ∧ ∀ t, is_Some ((crawl_related_try clean_text d ∅).2 !! t)
         ↔ t ∈ title_of clean_text <$> Soup.h2_tags soup.
Proof.
  intros Hsection. unfold crawl_related_try. rewrite Hsection.
  destruct (h2_loop_run clean_text (Soup.h2_tags soup) ∅) as [Hok Hdom].
  split; [done|]. intros t. rewrite Hdom, lookup_empty.
  split; [intros [[? ?]|?]; done | by right].
Qed.

Lemma related_section_is_read_witness :
  (crawl_related_try clean_text_spec (Demo.page [] None) ∅).1 = Ok tt
  ∧ ∀ t, is_Some ((crawl_related_try clean_text_spec (Demo.page [] None) ∅).2
                    !! t)
         ↔ t ∈ title_of clean_text_spec <$> Soup.h2_tags Demo.related.
Proof.
  apply (related_section_is_read clean_text_spec (Demo.page [] None)
           Demo.related).
  reflexivity.
Defined.

(** X10: within a heading, a link overwrites every earlier link with the
    same display key: after the links [pre ++ [a_tag]], what is stored
    under the key of [a_tag] is what [a_tag] alone yields.  All links
    without header share the key "expand", so only the last of them is
    kept. *)
Theorem last_link_wins clean_text pre a_tag sub_title
    (result : gmap string (gmap string (gmap string string))) bucket :
  result !! sub_title = Some bucket →
  Forall (λ a, is_Some (Soup.attr "href" a)) (pre ++ [a_tag]) →
  (_extract_models_or_collections_items clean_text (pre ++ [a_tag])
     sub_title result).1 = Ok tt
  ∧ ∀ key,
      detail
        (_extract_models_or_collections_items clean_text (pre ++ [a_tag])
           sub_title result).2
        sub_title (header_of clean_text a_tag) key
      = detail (extract_item clean_text sub_title a_tag result).2
          sub_title (header_of clean_text a_tag) key.
Proof.
  intros Hbucket Hall.
  rewrite (items_run clean_text _ _ _ _ Hbucket Hall).
  assert (is_Some (Soup.attr "href" a_tag)) as Hhref.
  { apply Forall_app in Hall as [_ Hlast]. by inversion Hlast. }
  rewrite (extract_item_run clean_text _ _ _ _ Hbucket Hhref).
  split; [done|]. intros key. unfold detail, bucket_with. simpl.
  rewrite !lookup_insert_eq, fold_left_app. simpl.
  by rewrite !lookup_insert_eq.
Qed.

Lemma last_link_wins_witness :
  let first :=
    Soup.NTag "a" [("href", "/models?other=dataset:org/ds")]
      [Soup.NText "Browse 12 models"] in
  let last :=
    Soup.NTag "a" [("href", "/spaces?other=dataset:org/ds")]
      [Soup.NText "Browse 3 spaces"] in
  let result : gmap string (gmap string (gmap string string)) :=
    {["Models" := ∅]} in
  (_extract_models_or_collections_items clean_text_spec ([first] ++ [last])
     "Models" result).1 = Ok tt
  ∧ ∀ key,
      detail
        (_extract_models_or_collections_items clean_text_spec
           ([first] ++ [last]) "Models" result).2
        "Models" (header_of clean_text_spec last) key
      = detail (extract_item clean_text_spec "Models" last result).2
          "Models" (header_of clean_text_spec last) key.
Proof.
  intros first last result.
  apply (last_link_wins clean_text_spec [first] last "Models" result ∅).
  - reflexivity.
  - repeat constructor; by eexists.
Defined.

(** X11: a heading whose cleaned title was used by an earlier heading
    starts again from an empty bucket: under the title of the last heading
    the dictionary holds what that heading alone yields, whatever came
    before. *)
Theorem last_heading_wins clean_text pre h2
    (result : gmap string (gmap string (gmap string string))) :
  (h2_loop clean_text (pre ++ [h2]) result).2 !! title_of clean_text h2
  = (h2_loop clean_text [h2] ∅).2 !! title_of clean_text h2.
Proof.
  destruct (h2_loop_last clean_text pre h2 result) as [result1 ->].
  rewrite !h2_loop_cons. simpl. by rewrite !lookup_insert_eq.
Qed.

(** * Further properties of the crawl of one link *)

(** ** The segments of a URL *)

Lemma split_segments_free sep s :
  Forall (λ segment, free_of sep segment = true) (Py.split sep s).
Proof.
  induction s as [|c s IH]; simpl.
  { by constructor. }
  destruct (Ascii.eqb c sep) eqn:Hc.
  { by constructor. }
  destruct (Py.split sep s) as [|segment segments].
  { constructor; [|done]. unfold free_of. simpl. by rewrite Hc. }
  inversion IH as [|? ? Hsegment Hsegments]; subst.
  constructor; [|done]. unfold free_of in *. simpl. by rewrite Hc.
Qed.

Lemma join_cons sep w w' ws :
  Py.join sep (w :: w' :: ws) = w +:+ sep +:+ Py.join sep (w' :: ws).
Proof. done. Qed.

Lemma join_split sep s : Py.join (String sep "") (Py.split sep s) = s.
Proof.
  induction s as [|c s IH]; [done|]. cbn [Py.split].
  pose proof (split_not_nil sep s) as Hnil.
  destruct (Ascii.eqb_spec c sep) as [->|Hne].
  - destruct (Py.split sep s) as [|segment segments]; [done|].
    by rewrite join_cons, IH.
  - destruct (Py.split sep s) as [|segment segments]; [done|].
    destruct segments as [|segment' segments].
    + simpl in *. by rewrite IH.
    + rewrite join_cons in *. by rewrite append_cons, IH.
Qed.

Lemma index_neg_last_two {A} (l : list A) x y :
  Py.index_neg l 2 = Some x → Py.index_neg l 1 = Some y →
  ∃ pre, l = pre ++ [x; y].
Proof.
  unfold Py.index_neg. simpl. intros Hx Hy.
  destruct (rev l) as [|y' [|x' rest]] eqn:Hrev; simplify_eq/=.
  exists (rev rest). rewrite <- (rev_involutive l), Hrev. simpl.
  by rewrite <- app_assoc.
Qed.

(** X12: the organization and the dataset name under which a link is
    stored are its last two segments between slashes: neither holds a
    slash, and joining the segments with slashes gives the link back. *)
Theorem url_segments link organization dataset_name :
  Py.index_neg (Py.split "/" link) 2 = Some organization →
  Py.index_neg (Py.split "/" link) 1 = Some dataset_name →
  free_of "/" organization = true
  ∧ free_of "/" dataset_name = true
  ∧ ∃ pre, Py.split "/" link = pre ++ [organization; dataset_name]
           ∧ link = Py.join "/" (pre ++ [organization; dataset_name]).
Proof.
  intros Horg Hname.
  destruct (index_neg_last_two _ _ _ Horg Hname) as [pre Hpre].
  pose proof (split_segments_free "/" link) as Hfree.
  rewrite Hpre in Hfree. apply Forall_app in Hfree as [_ Hfree].
  inversion Hfree as [|? ? Ho Hrest]; subst.
  inversion Hrest as [|? ? Hn _]; subst.
  split; [done|]. split; [done|]. exists pre. split; [done|].
  rewrite <- Hpre. symmetry. apply (join_split "/").
Qed.

Lemma url_segments_witness :
  free_of "/" "org" = true
  ∧ free_of "/" "ds" = true
  ∧ ∃ pre, Py.split "/" "https://huggingface.co/datasets/org/ds"
           = pre ++ ["org"; "ds"]
           ∧ "https://huggingface.co/datasets/org/ds"
             = Py.join "/" (pre ++ ["org"; "ds"]).
Proof.
  apply (url_segments "https://huggingface.co/datasets/org/ds" "org" "ds");
    reflexivity.
Defined.

(** ** Failures before the entry is created *)

Section early.

Variable clean_text : string → string.
Variable w : web.
Variable self : HuggingfaceCrawler.

Lemma fill_labels_run inputs (s : state) :
  for_each inputs
    (λ has_input : bool,
       if has_input then ret tt else raise NoSuchElementException) s
  = (if forallb id inputs then Ok tt else Raise NoSuchElementException, s).
Proof.
  induction inputs as [|[|] inputs IH]; simpl; [done| |done].
  unfold bind, ret. apply IH.
Qed.

Lemma fill_form_run form (s : state) :
  fill_form form s
  = (if forallb id (label_inputs form) && submit_button form then Ok tt
     else Raise NoSuchElementException, s).
Proof.
  unfold fill_form, bind. rewrite fill_labels_run.
  destruct (forallb id (label_inputs form)); [|done].
  by destruct (submit_button form).
Qed.

Lemma gate_run d (s : state) :
  match need_finish_form d with
  | Some form => fill_form form
  | None => ret tt
  end s
  = (if gate_passes d then Ok tt else Raise NoSuchElementException, s).
Proof.
  unfold gate_passes. destruct (need_finish_form d); [|done].
  apply fill_form_run.
Qed.

(** The crawl of a link up to the creation of its entry. *)
Lemma crawl_link_early link s :
  load w link = None
  ∨ (∃ d, load w link = Some d ∧ gate_passes d = false)
  ∨ Py.index_neg (Py.split "/" link) 2 = None →
  ∃ e s1,
    crawl_link clean_text w self link s = (Raise e, s1)
    ∧ dataset_details s1 = dataset_details s
    ∧ screenshots s1 = screenshots s.
Proof.
  intros Hearly. unfold crawl_link.
  destruct (load w link) as [d|] eqn:Hload.
  2:{ exists WebDriverException, s. split; [|done].
      apply bind_raise. unfold driver_get. by rewrite Hload. }
  rewrite (bind_ok _ _ s tt (set_driver d s))
    by (unfold driver_get; by rewrite Hload).
  rewrite (bind_ok _ _ _ tt
             (add_log (InfoStartCrawling link) (set_driver d s))) by done.
  rewrite (bind_ok _ _ _ (need_finish_form d)
             (add_log (InfoStartCrawling link) (set_driver d s))) by done.
  destruct (gate_passes d) eqn:Hgate.
  2:{ exists NoSuchElementException,
        (add_log (InfoStartCrawling link) (set_driver d s)).
      split; [|done]. apply bind_raise. by rewrite gate_run, Hgate. }
  rewrite (bind_ok _ _ _ tt
             (add_log (InfoStartCrawling link) (set_driver d s)))
    by (by rewrite gate_run, Hgate).
  destruct (Py.index_neg (Py.split "/" link) 2) as [organization|] eqn:Horg.
  { destruct Hearly as [?|[(d' & ? & ?)|?]]; [done| |done]. congruence. }
  exists IndexError, (add_log (InfoStartCrawling link) (set_driver d s)).
  split; [|done]. by apply bind_raise.
Qed.

End early.

(** X13: a link whose page cannot be loaded, whose access form cannot be
    filled and sent, or which has fewer than two segments fails before its
    entry is created: it is appended to the failed links, and the output
    mapping and the screenshots are exactly as before. *)
Theorem early_failure_leaves_no_trace clean_text w self link s :
  load w link = None
  ∨ (∃ d, load w link = Some d ∧ gate_passes d = false)
  ∨ Py.index_neg (Py.split "/" link) 2 = None →
  (process_link clean_text w self link s).1 = Ok tt
  ∧ exception_links (process_link clean_text w self link s).2
    = exception_links s ++ [link]
  ∧ dataset_details (process_link clean_text w self link s).2
    = dataset_details s
  ∧ screenshots (process_link clean_text w self link s).2 = screenshots s.
Proof.
  intros Hearly.
  destruct (crawl_link_early clean_text w self link s Hearly)
    as (e & s1 & Hrun & Hdetails & Hshots).
  destruct (process_link_raise _ _ _ _ _ _ _ Hrun) as (Hok & Happ & Hd).
  split; [done|]. split; [done|]. split; [congruence|].
  unfold process_link, try_except. rewrite Hrun. simpl. done.
Qed.

Lemma early_failure_leaves_no_trace_witness :
  let run := process_link clean_text_spec Demo.the_web Demo.me
               "no-slash" initial_state in
  run.1 = Ok tt
  ∧ exception_links run.2 = exception_links initial_state ++ ["no-slash"]
  ∧ dataset_details run.2 = dataset_details initial_state
  ∧ screenshots run.2 = screenshots initial_state.
Proof.
  apply (early_failure_leaves_no_trace clean_text_spec Demo.the_web Demo.me
           "no-slash" initial_state).
  left. reflexivity.
Defined.

(** ** The outcome of a link and the list of failed links *)

Section outcome.

Variable clean_text : string → string.
Variable w : web.
Variable self : HuggingfaceCrawler.

Lemma extract_outcome name org s :
  is_Some (record_of org name s) →
  ∃ s', _extract_related_data clean_text name org s
        = (extraction_outcome clean_text (driver s), s')
        ∧ is_Some (record_of org name s')
        ∧ driver s' = driver s.
Proof.
  intros [r0 Hr]. unfold extraction_outcome.
  destruct (download_count (driver s)) as [dc|] eqn:Hdc.
  2:{ exists s. split; [|eauto]. apply bind_raise.
      unfold find_element. by rewrite Hdc. }
  destruct (community (driver s)) as [c|] eqn:Hc.
  2:{ exists s. split; [|eauto]. unfold _extract_related_data.
      rewrite (bind_ok _ _ s dc s) by (unfold find_element; by rewrite Hdc).
      apply bind_raise. unfold find_element. by rewrite Hc. }
  destruct (like (driver s)) as [l|] eqn:Hl.
  2:{ exists s. split; [|eauto]. unfold _extract_related_data.
      rewrite (bind_ok _ _ s dc s) by (unfold find_element; by rewrite Hdc).
      rewrite (bind_ok _ _ s c s) by (unfold find_element; by rewrite Hc).
      apply bind_raise. unfold find_element. by rewrite Hl. }
  destruct (tags_loop clean_text (tags_info (driver s)) ∅ "" initial_state).1
    as [[m a]|e] eqn:Htags.
  2:{ exists s. split; [|eauto]. unfold _extract_related_data.
      rewrite (bind_ok _ _ s dc s) by (unfold find_element; by rewrite Hdc).
      rewrite (bind_ok _ _ s c s) by (unfold find_element; by rewrite Hc).
      rewrite (bind_ok _ _ s l s) by (unfold find_element; by rewrite Hl).
      rewrite (bind_ok _ _ s (tags_info (driver s)) s) by done.
      apply bind_raise. by rewrite tags_loop_pure, Htags. }
  destruct (extract_related_data_run clean_text name org s r0 dc c l m a
              Hr Hdc Hc Hl Htags) as (s' & Hrun & Hrec & Hd & _).
  exists s'. split; [done|]. split; [by rewrite Hrec|done].
Qed.

(** The four writes that close the crawl of a link never fail once the
    entry exists. *)
Lemma store_link_ok o n link paper shot s :
  is_Some (record_of o n s) →
  ∃ s',
    (reset_record o n ;;
     setitem o n "link" (VStr link) ;;
     setitem o n "paper_screenshot_save_path" (VStr paper) ;;
     setitem o n "dataset_screenshot_save_path" (VStr shot)) s
    = (Ok tt, s').
Proof.
  intros [r Hr].
  assert (reset_record o n s = (Ok tt, put_record o n ∅ s)) as Hreset.
  { unfold reset_record, put_record. unfold record_of in Hr.
    by destruct (dataset_details s !! o). }
  rewrite (bind_ok _ _ _ _ _ Hreset).
  rewrite (bind_ok _ _ _ _ _ (setitem_ok _ _ _ _ _ _ (record_of_put _ _ _ _))).
  rewrite (bind_ok _ _ _ _ _ (setitem_ok _ _ _ _ _ _ (record_of_put _ _ _ _))).
  rewrite (setitem_ok _ _ _ _ _ _ (record_of_put _ _ _ _)). eauto.
Qed.

(** Whether the crawl of a link raises, and what, is read off the web: it
    does not depend on the store. *)
Lemma crawl_link_outcome link s :
  (crawl_link clean_text w self link s).1 = link_outcome clean_text w self link.
Proof.
  unfold crawl_link, link_outcome.
  destruct (load w link) as [d|] eqn:Hload.
  2:{ erewrite bind_raise; [done|]. unfold driver_get. by rewrite Hload. }
  rewrite (bind_ok _ _ s tt (set_driver d s))
    by (unfold driver_get; by rewrite Hload).
  set (s2 := add_log (InfoStartCrawling link) (set_driver d s)).
  rewrite (bind_ok _ _ _ tt s2) by done.
  rewrite (bind_ok _ _ _ (need_finish_form d) s2) by done.
  destruct (gate_passes d) eqn:Hgate.
  2:{ erewrite bind_raise; [done|]. by rewrite gate_run, Hgate. }
  rewrite (bind_ok _ _ _ tt s2) by (by rewrite gate_run, Hgate).
  destruct (Py.index_neg (Py.split "/" link) 2) as [organization|].
  2:{ by erewrite bind_raise. }
  rewrite (bind_ok _ _ _ organization s2) by done.
  destruct (Py.index_neg (Py.split "/" link) 1) as [dataset_name|].
  2:{ by erewrite bind_raise. }
  rewrite (bind_ok _ _ _ dataset_name s2) by done.
  set (s3 := ensure_entry organization dataset_name s2).
  rewrite (bind_ok _ _ _ tt s3) by done.
  destruct (capture w (dataset_screenshot self dataset_name)) eqn:Hshot.
  2:{ erewrite bind_raise; [done|]. unfold save_screenshot. by rewrite Hshot. }
  set (s4 := add_screenshot (dataset_screenshot self dataset_name) s3).
  rewrite (bind_ok _ _ _ tt s4) by (unfold save_screenshot; by rewrite Hshot).
  destruct (extract_outcome dataset_name organization s4) as (s5 & Hrun & Hrec & _).
  { apply ensure_entry_record. }
  change (driver s4) with d in Hrun.
  destruct (extraction_outcome clean_text d) as [arxiv_id|e].
  2:{ by erewrite bind_raise. }
  rewrite (bind_ok _ _ _ _ _ Hrun).
  destruct (Py.truthy arxiv_id).
  - destruct (load w ("https://arxiv.org/pdf/" +:+ arxiv_id)) as [paper|] eqn:Hpaper.
    2:{ erewrite bind_raise; [done|]. apply bind_raise.
        unfold driver_get. by rewrite Hpaper. }
    destruct (capture w (paper_screenshot self dataset_name)) eqn:Hshot2.
    2:{ erewrite bind_raise; [done|].
        rewrite (bind_ok _ _ s5 tt (set_driver paper s5))
          by (unfold driver_get; by rewrite Hpaper).
        unfold save_screenshot. by rewrite Hshot2. }
    rewrite (bind_ok _ _ s5 tt
               (add_screenshot (paper_screenshot self dataset_name)
                  (set_driver paper s5))).
    2:{ rewrite (bind_ok _ _ s5 tt (set_driver paper s5))
          by (unfold driver_get; by rewrite Hpaper).
        unfold save_screenshot. by rewrite Hshot2. }
    destruct (store_link_ok organization dataset_name link
                (paper_screenshot self dataset_name)
                (dataset_screenshot self dataset_name)
                (add_screenshot (paper_screenshot self dataset_name)
                   (set_driver paper s5))) as [s' ->]; done.
  - rewrite (bind_ok _ _ s5 tt s5) by done.
    destruct (store_link_ok organization dataset_name link ""
                (dataset_screenshot self dataset_name) s5) as [s' ->]; done.
Qed.

Lemma crawl_fails_spec link s :
  crawl_fails clean_text w self link
  = match (crawl_link clean_text w self link s).1 with
    | Ok _ => false
    | Raise _ => true
    end.
Proof. unfold crawl_fails. by rewrite !crawl_link_outcome. Qed.

(** The loop appends the failing links, in the order of the input. *)
Lemma link_loop_exceptions links s :
  exception_links (for_each links (process_link clean_text w self) s).2
  = exception_links s ++ List.filter (crawl_fails clean_text w self) links.
Proof.
  revert s. induction links as [|link links IH]; intros s.
  { simpl. by rewrite app_nil_r. }
  simpl. rewrite (crawl_fails_spec link s).
  destruct (crawl_link clean_text w self link s) as [[[]|e] s1] eqn:Hrun.
  - rewrite (bind_ok _ _ _ _ _ (process_link_ok _ _ _ _ _ _ Hrun)).
    rewrite IH. simpl. f_equal.
    pose proof (keeps_crawl_link clean_text w self link s) as Hkeep.
    by rewrite Hrun in Hkeep.
  - destruct (process_link_raise _ _ _ _ _ _ _ Hrun) as (Hok & Happ & _).
    rewrite (bind_ok _ _ _ _ _ (run_eq _ _ Hok)).
    rewrite IH, Happ. simpl. by rewrite <- app_assoc.
Qed.

End outcome.

(** X14: once the login page is loaded, [_get_all_link_data] tries every
    link and returns normally, whatever the links do; with the output
    mapping it returns the links whose crawl raised: all of them, in the
    order of the input, a link as often as it failed.  The lists of an
    earlier call do not enter. *)
Theorem failed_links_are_returned clean_text w self links s d :
  load w "https://huggingface.co/login" = Some d →
  (_get_all_link_data clean_text w self links s).1
  = Ok (dataset_details (_get_all_link_data clean_text w self links s).2,
        List.filter (crawl_fails clean_text w self) links).
Proof.
  intros Hlogin. unfold _get_all_link_data.
  rewrite (bind_ok _ _ s tt (set_details ∅ s)) by done.
  rewrite (bind_ok _ _ _ tt (set_exception_links [] (set_details ∅ s)))
    by done.
  set (s1 := set_driver d (set_exception_links [] (set_details ∅ s))).
  rewrite (bind_ok _ _ _ tt s1) by (unfold driver_get; by rewrite Hlogin).
  pose proof (link_loop_total clean_text w self links s1) as Hok.
  pose proof (link_loop_exceptions clean_text w self links s1) as Hex.
  rewrite (bind_ok _ _ _ _ _ (run_eq _ _ Hok)).
  unfold bind, get_state, ret. simpl. by rewrite Hex.
Qed.

Lemma failed_links_are_returned_witness :
  let links := ["https://huggingface.co/datasets/org/paper";
                "https://huggingface.co/datasets/org/ds";
                "https://huggingface.co/datasets/gone";
                "https://huggingface.co/datasets/org/paper"] in
  let run := _get_all_link_data clean_text_spec Demo.the_web Demo.me links
               initial_state in
  run.1 = Ok (dataset_details run.2,
              List.filter (crawl_fails clean_text_spec Demo.the_web Demo.me)
                links)
  ∧ List.filter (crawl_fails clean_text_spec Demo.the_web Demo.me) links
    = ["https://huggingface.co/datasets/org/paper";
       "https://huggingface.co/datasets/gone";
       "https://huggingface.co/datasets/org/paper"].
Proof.
  intros links run. split.
  - apply (failed_links_are_returned clean_text_spec Demo.the_web Demo.me
             links initial_state blank_document).
    reflexivity.
  - vm_compute. reflexivity.
Defined.

(** ** The screenshots of a link *)

Section screens.

Variable clean_text : string → string.
Variable w : web.
Variable self : HuggingfaceCrawler.

Lemma paper_screenshot_not_empty name : paper_screenshot self name ≠ "".
Proof.
  unfold paper_screenshot, screen_shot_save_path.
  destruct (save_dir self); discriminate.
Qed.

Lemma driver_get_ok_inv url s s1 :
  driver_get w url s = (Ok tt, s1) →
  ∃ d, load w url = Some d ∧ s1 = set_driver d s.
Proof.
  unfold driver_get. destruct (load w url) as [d|]; [|done].
  intros [= <-]. eauto.
Qed.

Lemma save_screenshot_ok_inv path s s1 :
  save_screenshot w path s = (Ok tt, s1) →
  capture w path = true ∧ s1 = add_screenshot path s.
Proof.
  unfold save_screenshot. destruct (capture w path); [|done].
  by intros [= <-].
Qed.

(** The store after a completed crawl: the record of the link, and the
    screenshots taken on the way. *)
Lemma crawl_link_full_inv link s s' :
  crawl_link clean_text w self link s = (Ok tt, s') →
  ∃ organization dataset_name arxiv_id,
    Py.index_neg (Py.split "/" link) 2 = Some organization
    ∧ Py.index_neg (Py.split "/" link) 1 = Some dataset_name
    ∧ record_of organization dataset_name s'
      = Some (stored self link dataset_name arxiv_id)
    ∧ screenshots s'
      = screenshots s
        ++ dataset_screenshot self dataset_name
           :: (if Py.truthy arxiv_id
               then [paper_screenshot self dataset_name] else []).
Proof.
  intros Hrun. unfold crawl_link in Hrun.
  apply bind_ok_inv in Hrun as ([] & s1 & H1 & Hrun).
  apply driver_get_ok_inv in H1 as (d & _ & ->).
  apply bind_ok_inv in Hrun as ([] & s2 & H2 & Hrun).
  injection H2 as <-.
  apply bind_ok_inv in Hrun as (form & s3 & H3 & Hrun).
  injection H3 as <- <-.
  apply bind_ok_inv in Hrun as ([] & s4 & H4 & Hrun).
  rewrite gate_run in H4. injection H4 as _ <-.
  apply bind_ok_inv in Hrun as (organization & s5 & Horg & Hrun).
  apply or_raise_ok_inv in Horg as [Horg ->].
  apply bind_ok_inv in Hrun as (dataset_name & s6 & Hname & Hrun).
  apply or_raise_ok_inv in Hname as [Hname ->].
  apply bind_ok_inv in Hrun as ([] & s7 & H7 & Hrun).
  injection H7 as <-.
  apply bind_ok_inv in Hrun as ([] & s8 & H8 & Hrun).
  apply save_screenshot_ok_inv in H8 as [_ ->].
  apply bind_ok_inv in Hrun as (arxiv_id & s9 & H9 & Hrun).
  apply extract_related_data_inv in H9
    as (r0 & dc & c & l & m & _ & _ & _ & _ & _ & Hag).
  destruct Hag as (_ & _ & _ & Hshots9 & _). simpl in Hshots9.
  apply bind_ok_inv in Hrun as ([] & s10 & H10 & Hrun).
  assert (screenshots s10
          = screenshots s9
            ++ (if Py.truthy arxiv_id
                then [paper_screenshot self dataset_name] else []))
    as Hshots10.
  { destruct (Py.truthy arxiv_id).
    - apply bind_ok_inv in H10 as ([] & s_paper & Hget & Hshot).
      apply driver_get_ok_inv in Hget as (paper & _ & ->).
      by apply save_screenshot_ok_inv in Hshot as [_ ->].
    - injection H10 as <-. by rewrite app_nil_r. }
  apply bind_ok_inv in Hrun as ([] & s11 & Hreset & Hrun).
  apply bind_ok_inv in Hrun as ([] & s12 & Hlink & Hrun).
  apply bind_ok_inv in Hrun as ([] & s13 & Hpaper & Hrun).
  apply reset_record_ok_inv in Hreset as ->.
  apply setitem_ok_inv in Hlink as (r1 & Hr1 & ->).
  rewrite record_of_put in Hr1. apply (inj Some) in Hr1 as <-.
  apply setitem_ok_inv in Hpaper as (r2 & Hr2 & ->).
  rewrite record_of_put in Hr2. apply (inj Some) in Hr2 as <-.
  apply setitem_ok_inv in Hrun as (r3 & Hr3 & ->).
  rewrite record_of_put in Hr3. apply (inj Some) in Hr3 as <-.
  exists organization, dataset_name, arxiv_id.
  split; [done|]. split; [done|]. split; [apply record_of_put|].
  simpl. rewrite Hshots10, Hshots9. by rewrite <- app_assoc.
Qed.

End screens.

(** X15: a completed crawl takes the screenshots its record names and no
    other: the dataset screenshot first, then the paper screenshot exactly
    when the stored paper path is not empty. *)
Theorem screenshots_are_those_recorded clean_text w self link s s' :
  crawl_link clean_text w self link s = (Ok tt, s') →
  ∃ organization dataset_name shot paper,
    Py.index_neg (Py.split "/" link) 2 = Some organization
    ∧ Py.index_neg (Py.split "/" link) 1 = Some dataset_name
    ∧ field organization dataset_name "dataset_screenshot_save_path" s'
      = Some (VStr shot)
    ∧ field organization dataset_name "paper_screenshot_save_path" s'
      = Some (VStr paper)
    ∧ screenshots s'
      = screenshots s ++ shot :: (if decide (paper = "") then [] else [paper]).
Proof.
  intros Hrun.
  destruct (crawl_link_full_inv _ _ _ _ _ _ Hrun)
    as (o & n & arxiv_id & Ho & Hn & Hrec & Hshots).
  exists o, n, (dataset_screenshot self n),
    (if Py.truthy arxiv_id then paper_screenshot self n else "").
  split; [done|]. split; [done|].
  unfold field. rewrite Hrec. unfold stored.
  split; [apply lookup_insert_eq|]. split.
  { rewrite lookup_insert_ne by discriminate. apply lookup_insert_eq. }
  rewrite Hshots. destruct (Py.truthy arxiv_id); [|done].
  by rewrite decide_False by apply paper_screenshot_not_empty.
Qed.

Lemma screenshots_are_those_recorded_witness :
  let run := crawl_link clean_text_spec Demo.the_web Demo.me
               "https://huggingface.co/datasets/org/ds" initial_state in
  ∃ organization dataset_name shot paper,
    Py.index_neg (Py.split "/" "https://huggingface.co/datasets/org/ds") 2
    = Some organization
    ∧ Py.index_neg (Py.split "/" "https://huggingface.co/datasets/org/ds") 1
      = Some dataset_name
    ∧ field organization dataset_name "dataset_screenshot_save_path" run.2
      = Some (VStr shot)
    ∧ field organization dataset_name "paper_screenshot_save_path" run.2
      = Some (VStr paper)
    ∧ screenshots run.2
      = screenshots initial_state
        ++ shot :: (if decide (paper = "") then [] else [paper]).
Proof.
  intros run.
  apply (screenshots_are_those_recorded clean_text_spec Demo.the_web Demo.me
           "https://huggingface.co/datasets/org/ds" initial_state run.2).
  apply (run_eq run). vm_compute. reflexivity.
Defined.

(** * The records of the other datasets, and the entry of a failed link *)

Section invariants.

Context (P : state → Prop).

Lemma preserves_ret {A} (a : A) : preserves P (ret a).
Proof. by intros s. Qed.

Lemma preserves_raise {A} e : preserves P (raise (A := A) e).
Proof. by intros s. Qed.

Lemma preserves_or_raise {A} e (o : option A) : preserves P (or_raise e o).
Proof. intros s Hs. by destruct o. Qed.

Lemma preserves_read {A} (g : state → A) : preserves P (λ s, (Ok (g s), s)).
Proof. by intros s. Qed.

Lemma preserves_bind {A B} (m : M state A) (k : A → M state B) :
  preserves P m → (∀ a, preserves P (k a)) → preserves P (bind m k).
Proof.
  intros Hm Hk s Hs. unfold bind. specialize (Hm s Hs).
  destruct (m s) as [[a|e] s1]; simpl in *; [by apply Hk | done].
Qed.

Lemma preserves_try_except {A} (m : M state A) (h : exn → M state A) :
  preserves P m → (∀ e, preserves P (h e)) → preserves P (try_except m h).
Proof.
  intros Hm Hh s Hs. unfold try_except. specialize (Hm s Hs).
  destruct (m s) as [[a|e] s1]; simpl in *; [done | by apply Hh].
Qed.

(** A property that looks at the output mapping only. *)
Hypothesis P_details :
  ∀ s s', dataset_details s' = dataset_details s → P s → P s'.

Lemma preserves_logging e : preserves P (logging e).
Proof. intros s. by apply P_details. Qed.

Lemma preserves_driver_get w url : preserves P (driver_get w url).
Proof.
  intros s. unfold driver_get. destruct (load w url); [|done].
  by apply P_details.
Qed.

Lemma preserves_save_screenshot w path : preserves P (save_screenshot w path).
Proof.
  intros s. unfold save_screenshot. destruct (capture w path); [|done].
  by apply P_details.
Qed.

Lemma preserves_find_element {A} (query : document → option A) :
  preserves P (find_element query).
Proof. intros s. unfold find_element. by destruct (query (driver s)). Qed.

Lemma preserves_tags_loop clean_text divs m a :
  preserves P (tags_loop clean_text divs m a).
Proof. intros s. by rewrite tags_loop_pure. Qed.

(** The methods keep [P] as soon as the writes to the record of the link,
    and the emptying of that record, keep it. *)
Variable organization dataset_name : string.

Hypothesis P_setitem :
  ∀ key v, preserves P (setitem organization dataset_name key v).
Hypothesis P_reset : preserves P (reset_record organization dataset_name).

Lemma preserves_crawl_related clean_text :
  preserves P
    (_crawl_related_models_or_collections clean_text dataset_name
       organization).
Proof.
  intros s. unfold _crawl_related_models_or_collections.
  destruct (crawl_related_try clean_text (driver s) ∅) as [[[]|e] result].
  - apply preserves_bind; [apply preserves_ret|]. intro. apply P_setitem.
  - apply preserves_bind; [apply preserves_logging|]. intro. apply P_setitem.
Qed.

Lemma preserves_extract clean_text :
  preserves P (_extract_related_data clean_text dataset_name organization).
Proof.
  unfold _extract_related_data.
  do 3 (apply preserves_bind; [apply preserves_find_element|intro]).
  apply preserves_bind; [apply preserves_read|intro].
  apply preserves_bind; [apply preserves_tags_loop|intro].
  apply preserves_bind.
  { apply preserves_try_except; [|intro; apply preserves_logging].
    apply preserves_bind; [apply preserves_find_element|intro].
    apply preserves_bind; [apply P_setitem|intro; apply preserves_logging]. }
  intro. apply preserves_bind; [apply preserves_read|intro panel].
  apply preserves_bind.
  { destruct panel; [apply P_setitem|apply preserves_ret]. }
  intro. apply preserves_bind; [apply preserves_crawl_related|intro].
  do 4 (apply preserves_bind; [apply P_setitem|intro]).
  apply preserves_ret.
Qed.

Lemma preserves_crawl_link_tail clean_text w self link :
  preserves P
    (crawl_link_tail clean_text w self link organization dataset_name).
Proof.
  unfold crawl_link_tail.
  apply preserves_bind; [apply preserves_save_screenshot|intro].
  apply preserves_bind; [apply preserves_extract|intro arxiv_id].
  apply preserves_bind.
  { destruct (Py.truthy arxiv_id); [|apply preserves_ret].
    apply preserves_bind; [apply preserves_driver_get|intro].
    apply preserves_save_screenshot. }
  intro. apply preserves_bind; [apply P_reset|intro].
  do 2 (apply preserves_bind; [apply P_setitem|intro]).
  apply P_setitem.
Qed.

End invariants.

Section records.

Variable clean_text : string → string.
Variable w : web.
Variable self : HuggingfaceCrawler.

(** The start of the crawl of a link, up to the creation of the entry. *)
Lemma crawl_link_late link d organization dataset_name s :
  load w link = Some d →
  gate_passes d = true →
  Py.index_neg (Py.split "/" link) 2 = Some organization →
  Py.index_neg (Py.split "/" link) 1 = Some dataset_name →
  crawl_link clean_text w self link s
  = crawl_link_tail clean_text w self link organization dataset_name
      (ensure_entry organization dataset_name
         (add_log (InfoStartCrawling link) (set_driver d s))).
Proof.
  intros Hload Hgate Horg Hname. unfold crawl_link.
  rewrite (bind_ok _ _ s tt (set_driver d s))
    by (unfold driver_get; by rewrite Hload).
  set (s2 := add_log (InfoStartCrawling link) (set_driver d s)).
  rewrite (bind_ok _ _ _ tt s2) by done.
  rewrite (bind_ok _ _ _ (need_finish_form d) s2) by done.
  rewrite (bind_ok _ _ _ tt s2) by (by rewrite gate_run, Hgate).
  rewrite Horg, Hname.
  rewrite (bind_ok _ _ _ organization s2) by done.
  rewrite (bind_ok _ _ _ dataset_name s2) by done.
  by rewrite (bind_ok _ _ _ tt (ensure_entry organization dataset_name s2)).
Qed.

Lemma record_of_ensure_other o n organization dataset_name s :
  (o, n) ≠ (organization, dataset_name) →
  record_of o n (ensure_entry organization dataset_name s) = record_of o n s.
Proof.
  intros Hne. unfold record_of, ensure_entry. simpl.
  destruct (decide (o = organization)) as [->|Ho].
  2:{ rewrite lookup_insert_ne by done.
      destruct (dataset_details s !! organization); [done|].
      by rewrite lookup_insert_ne. }
  rewrite lookup_insert_eq.
  destruct (dataset_details s !! organization) as [datasets|] eqn:Hd.
  - rewrite Hd. simpl. destruct (datasets !! dataset_name); [done|].
    rewrite lookup_insert_ne; [done|congruence].
  - rewrite lookup_insert_eq. simpl. rewrite lookup_empty.
    rewrite lookup_insert_ne; [done|congruence].
Qed.

Lemma setitem_other o n organization dataset_name s key v :
  (o, n) ≠ (organization, dataset_name) →
  record_of o n (setitem organization dataset_name key v s).2
  = record_of o n s.
Proof.
  intros Hne.
  destruct (record_of organization dataset_name s) as [r|] eqn:Hr.
  - rewrite (setitem_ok _ _ _ _ _ _ Hr). by apply record_of_put_other.
  - by rewrite (setitem_raise _ _ _ _ _ Hr).
Qed.

Lemma reset_record_other o n organization dataset_name s :
  (o, n) ≠ (organization, dataset_name) →
  record_of o n (reset_record organization dataset_name s).2
  = record_of o n s.
Proof.
  intros Hne. unfold reset_record.
  destruct (dataset_details s !! organization) as [datasets|] eqn:Hd;
    [|done].
  simpl. rewrite <- (record_of_put_other organization dataset_name o n ∅ s)
    by done.
  unfold record_of, put_record. simpl. by rewrite Hd.
Qed.

Lemma setitem_present o n organization dataset_name s key v :
  is_Some (record_of o n s) →
  is_Some (record_of o n (setitem organization dataset_name key v s).2).
Proof.
  intros Hsome.
  destruct (record_of organization dataset_name s) as [r|] eqn:Hr.
  2:{ by rewrite (setitem_raise _ _ _ _ _ Hr). }
  rewrite (setitem_ok _ _ _ _ _ _ Hr). simpl.
  destruct (decide ((o, n) = (organization, dataset_name))) as [[= -> ->]|Hne].
  - rewrite record_of_put. eauto.
  - by rewrite record_of_put_other.
Qed.

Lemma reset_record_present o n organization dataset_name s :
  is_Some (record_of o n s) →
  is_Some (record_of o n (reset_record organization dataset_name s).2).
Proof.
  intros Hsome. unfold reset_record.
  destruct (dataset_details s !! organization) as [datasets|] eqn:Hd;
    [|done].
  simpl.
  assert (set_details
            (<[organization := <[dataset_name := ∅]> datasets]>
               (dataset_details s)) s
          = put_record organization dataset_name ∅ s) as ->.
  { unfold put_record. by rewrite Hd. }
  destruct (decide ((o, n) = (organization, dataset_name))) as [[= -> ->]|Hne].
  - rewrite record_of_put. eauto.
  - by rewrite record_of_put_other.
Qed.

End records.

(** X16: a turn of the loop touches no record but the one of its link:
    whatever happens to the link, the record stored under any other
    organization or name is as before. *)
Theorem other_records_untouched clean_text w self link s o n :
  Py.index_neg (Py.split "/" link) 2 ≠ Some o
  ∨ Py.index_neg (Py.split "/" link) 1 ≠ Some n →
  record_of o n (process_link clean_text w self link s).2 = record_of o n s.
Proof.
  intros Hother.
  set (P := λ s', record_of o n s' = record_of o n s).
  assert (∀ s1 s2, dataset_details s2 = dataset_details s1 → P s1 → P s2)
    as P_details.
  { intros s1 s2 Hd. unfold P, record_of. by rewrite Hd. }
  change (P (process_link clean_text w self link s).2).
  assert (preserves P (crawl_link clean_text w self link)) as Hcrawl.
  { intros s1 Hs1.
    destruct (load w link) as [d|] eqn:Hload.
    2:{ destruct (crawl_link_early clean_text w self link s1)
          as (e & s2 & -> & Hd & _); [by left|]. by apply (P_details s1). }
    destruct (gate_passes d) eqn:Hgate.
    2:{ destruct (crawl_link_early clean_text w self link s1)
          as (e & s2 & -> & Hd & _); [right; left; eauto|].
        by apply (P_details s1). }
    destruct (Py.index_neg (Py.split "/" link) 2) as [organization|] eqn:Horg.
    2:{ destruct (crawl_link_early clean_text w self link s1)
          as (e & s2 & -> & Hd & _); [by right; right|].
        by apply (P_details s1). }
    destruct (Py.index_neg (Py.split "/" link) 1) as [dataset_name|]
      eqn:Hname.
    2:{ unfold Py.index_neg in *. simpl in *.
        by destruct (rev (Py.split "/" link)). }
    assert ((o, n) ≠ (organization, dataset_name)) as Hne.
    { intros [= -> ->]. by destruct Hother. }
    rewrite (crawl_link_late clean_text w self link d organization
               dataset_name s1 Hload Hgate Horg Hname).
    apply (preserves_crawl_link_tail P P_details organization dataset_name).
    - intros key v s2 Hs2. unfold P in *. rewrite <- Hs2.
      by apply setitem_other.
    - intros s2 Hs2. unfold P in *. rewrite <- Hs2.
      by apply reset_record_other.
    - unfold P in *. rewrite <- Hs1.
      by rewrite record_of_ensure_other. }
  unfold process_link. apply preserves_try_except; [done| |done].
  intros e. apply preserves_bind; [by apply preserves_logging|].
  intros _ s1. by apply P_details.
Qed.

Lemma other_records_untouched_witness :
  record_of "org" "ds"
    (process_link clean_text_spec Demo.the_web Demo.me
       "https://huggingface.co/datasets/other/ds"
       (Demo.at_page "https://huggingface.co/datasets/org/ds" "org" "ds")).2
  = record_of "org" "ds"
      (Demo.at_page "https://huggingface.co/datasets/org/ds" "org" "ds").
Proof.
  apply (other_records_untouched clean_text_spec Demo.the_web Demo.me
           "https://huggingface.co/datasets/other/ds"
           (Demo.at_page "https://huggingface.co/datasets/org/ds" "org" "ds")
           "org" "ds").
  left. discriminate.
Defined.

(** X17: as soon as the page of a link is loaded, its access form passed
    and its two segments read, the dataset has an entry in the output
    mapping at the end of the turn, also when the link ends among the
    failed links. *)
Theorem entry_outlives_failure clean_text w self link d organization
    dataset_name s :
  load w link = Some d →
  gate_passes d = true →
  Py.index_neg (Py.split "/" link) 2 = Some organization →
  Py.index_neg (Py.split "/" link) 1 = Some dataset_name →
  is_Some (record_of organization dataset_name
             (process_link clean_text w self link s).2).
Proof.
  intros Hload Hgate Horg Hname.
  set (P := λ s', is_Some (record_of organization dataset_name s')).
  assert (∀ s1 s2, dataset_details s2 = dataset_details s1 → P s1 → P s2)
    as P_details.
  { intros s1 s2 Hd. unfold P, record_of. by rewrite Hd. }
  change (P (process_link clean_text w self link s).2).
  unfold process_link, try_except.
  rewrite (crawl_link_late clean_text w self link d organization
             dataset_name s Hload Hgate Horg Hname).
  assert (P (crawl_link_tail clean_text w self link organization dataset_name
               (ensure_entry organization dataset_name
                  (add_log (InfoStartCrawling link) (set_driver d s)))).2)
    as Htail.
  { apply (preserves_crawl_link_tail P P_details organization dataset_name).
    - intros key v s2. apply setitem_present.
    - intros s2. apply reset_record_present.
    - apply ensure_entry_record. }
  destruct (crawl_link_tail clean_text w self link organization dataset_name
              (ensure_entry organization dataset_name
                 (add_log (InfoStartCrawling link) (set_driver d s))))
    as [[[]|e] s1]; [done|].
  by apply (P_details s1).
Qed.

Lemma entry_outlives_failure_witness :
  is_Some (record_of "org" "paper"
             (process_link clean_text_spec Demo.the_web Demo.me
                "https://huggingface.co/datasets/org/paper"
                initial_state).2).
Proof.
  apply (entry_outlives_failure clean_text_spec Demo.the_web Demo.me
           "https://huggingface.co/datasets/org/paper"
           (Demo.page [Demo.arxiv "2201.00001"] (Some [])) "org" "paper");
    reflexivity.
Defined.

(** * Properties of the configuration reader *)



(** X19: [get] raises only for a required option, and every message it
    raises with starts with "Error reading config: ", also for a missing
    section or option, whose own error is caught by the handler of [get] and
    wrapped. *)
Theorem config_errors_are_wrapped self environ section opt default
    required msg :
  ConfigReader.get self environ section opt default required
  = ConfigReader.ConfigError msg →
  required = true
  ∧ ∃ cause, msg = "Error reading config: " +:+ cause
             ∧ (ConfigReader.has_section (ConfigReader.config self) section
                = false →
                cause = "Section '" +:+ section
                          +:+ "' not found in config file").
Proof.
  unfold ConfigReader.get, ConfigReader.get_try.
  destruct (match ConfigReader._get_env_name self section opt with
            | Some env_name =>
                if Py.truthy env_name then environ !! env_name else None
            | None => None
            end); [done|].
  destruct required; [|by repeat case_match].
  intros Hget. split; [done|].
  destruct (ConfigReader.has_section (ConfigReader.config self) section);
    simpl in Hget.
  - destruct (ConfigReader.has_option (ConfigReader.config self)
                section opt); simpl in Hget.
    + destruct (ConfigReader.parser_get (ConfigReader.config self)
                  section opt) as [text|cause]; [done|].
      injection Hget as <-. by exists cause.
    + injection Hget as <-. eexists. by split.
  - injection Hget as <-. eexists. by split.
Qed.

Lemma config_errors_are_wrapped_witness :
  true = true
  ∧ ∃ cause,
      "Error reading config: Section 'server' not found in config file"
      = "Error reading config: " +:+ cause
      ∧ (ConfigReader.has_section
           (ConfigReader.config ConfigReader.demo) "server" = false →
         cause = "Section '" +:+ "server" +:+ "' not found in config file").
Proof.
  apply (config_errors_are_wrapped ConfigReader.demo
           ConfigReader.demo_environ "server" "port" ConfigReader.PNone).
  vm_compute. reflexivity.
Defined.



Lemma get_required_returns_text self environ section opt default v :
  ConfigReader.get self environ section opt default true
  = ConfigReader.Return v →
  ∃ text, v = ConfigReader.PStr text.
Proof.
  unfold ConfigReader.get, ConfigReader.get_try. simpl.
  repeat case_match; intros Hget; simplify_eq; eauto.
Qed.

Lemma get_raises_when_required self environ section opt default required
    msg :
  ConfigReader.get self environ section opt default required
  = ConfigReader.ConfigError msg →
  required = true.
Proof.
  unfold ConfigReader.get, ConfigReader.get_try.
  destruct required; [done|]. by repeat case_match.
Qed.

(** X21: [get_boolean] never hands out the text of an option: what it
    returns is [None], a bool, or the default it was given; for a required
    option it is a bool, and an option that is not required never
    raises. *)
Theorem boolean_is_parsed_or_default self environ section opt default
    required :
  match ConfigReader.get_boolean self environ section opt default
          required with
  | ConfigReader.Return v =>
      (v = ConfigReader.PNone ∨ (∃ b, v = ConfigReader.PBool b) ∨ v = default)
      ∧ (required = true → ∃ b, v = ConfigReader.PBool b)
  | ConfigReader.ConfigError _ => required = true
  end.
Proof.
  unfold ConfigReader.get_boolean.
  destruct (ConfigReader.get self environ section opt default required)
    as [[|text|b]|msg] eqn:Hget.
  - split; [by left|]. intros ->.
    by destruct (get_required_returns_text _ _ _ _ _ _ Hget).
  - destruct (ConfigReader.one_of ["true"; "yes"; "1"] (Py.lower text)).
    { split; [right; left|]; eauto. }
    destruct (ConfigReader.one_of ["false"; "no"; "0"] (Py.lower text)).
    { split; [right; left|]; eauto. }
    destruct required; [done|]. split; [by right; right|done].
  - split; [right; left|]; eauto.
  - by apply (get_raises_when_required _ _ _ _ _ _ _ Hget).
Qed.
